(** * tofu.geom._core : input checking of Struct, Ves, Rays and Config

    Shallow embedding of the argument-checking and bookkeeping code of
    [tofu/geom/_core.py]:
    - [Struct._checkformat_inputs_dgeom] and its override in [Ves],
      [Struct._set_dgeom], [isMobile] and the property [Poly_closed];
    - [Rays._checkformat_inputs_dgeom], the properties [Rays.D], [Rays.u]
      and [Rays._compute_dgeom];
    - [Rays._init], [Rays._set_dgeom] with [set_Etendues], the head of
      [set_dsino], the checks of the channels and of the reference
      point, and [Rays.select];
    - [Config.isInside], [CoilPF.set_I] and [_Rays_check_fromdict];
    and of [get_bbox_poly_extruded] of [tofu/geom/_poly_utils.py].

    numpy arrays are records of a shape and of the data in C order, float64
    entries are Rocq's primitive binary64 floats, Python exceptions are an
    error monad, and the instance dictionaries ([_dgeom]) are finite maps
    from strings.  The compiled kernels of [_GG] are parameters, and
    the polygon model of [_comp], which is not in the sources, follows
    the specification.  The code is written over an interface of the
    arithmetic, so that it also runs on the extended reals, where
    lengths are exact.

    The first part holds the model, the second part its properties. *)

From Stdlib Require Import List ZArith Bool String Lia PrimFloat.
From Stdlib Require Reals Lra DecimalString SpecFloat FloatOps.
From stdpp Require Import gmap strings list.
Import ListNotations.

Local Open Scope string_scope.
Local Open Scope nat_scope.

(** ** Python exceptions and warnings *)

(** [AssertionError (Some msg)] is raised by [assert c, msg] with a
    message, [AssertionError None] by a bare [assert c], and
    [AssertionError_of o] by [assert c, o] where [o] is another object,
    which the exception then carries. *)
Inductive exn : Type :=
| AssertionError (msg : option string)
| AssertionError_of {A : Type} (arg : A)
| NameError (name : string)
| KeyError (key : string)
| IndexError
| TypeError
| ValueError
| AttributeError.

Inductive result (A : Type) : Type :=
| Ok (a : A)
| Raise (e : exn).
Arguments Ok {A} a.
Arguments Raise {A} e.

#[global] Instance result_ret : MRet result := fun _ a => Ok a.
#[global] Instance result_bind : MBind result := fun _ _ f r =>
  match r with
  | Ok a => f a
  | Raise e => Raise e
  end.

#[global] Instance result_fmap : FMap result := fun _ _ f r =>
  match r with
  | Ok a => Ok (f a)
  | Raise e => Raise e
  end.

(** [assert c, msg] *)
Definition py_assert (c : bool) (msg : option string) : result unit :=
  if c then Ok tt else Raise (AssertionError msg).

Definition is_Ok {A} (r : result A) : Prop := exists a, r = Ok a.
Definition is_Raise {A} (r : result A) : Prop := exists e, r = Raise e.

(** ** float64 arithmetic

    The operations numpy applies to array entries.  The code is written
    once over this interface; [float64] below is the instance the program
    runs with. *)

Class Numeric (F : Type) : Type :=
  { fzero : F;
    fnan : F;
    f_of_nat : nat -> F;
    fadd : F -> F -> F;
    fsub : F -> F -> F;
    fmul : F -> F -> F;
    fdiv : F -> F -> F;
    fsqrt : F -> F;
    f_is_nan : F -> bool;
    f_is_inf : F -> bool }.

(** An [int] as a float: the nearest binary64 number, ties going to the
    even one.  (From 2^1024 on there is none, and Python raises
    OverflowError where this gives infinity.) *)
Definition float_of_nat (n : nat) : PrimFloat.float :=
  FloatOps.SF2Prim
    (SpecFloat.binary_normalize FloatOps.prec FloatOps.emax (Z.of_nat n) 0 false).

#[global] Instance float64 : Numeric PrimFloat.float :=
  {| fzero := PrimFloat.zero;
     fnan := PrimFloat.nan;
     f_of_nat := float_of_nat;
     fadd := PrimFloat.add;
     fsub := PrimFloat.sub;
     fmul := PrimFloat.mul;
     fdiv := PrimFloat.div;
     fsqrt := PrimFloat.sqrt;
     f_is_nan := PrimFloat.is_nan;
     f_is_inf := PrimFloat.is_infinity |}.

(** Comparisons of array entries: [x == y] and [x < y]. *)
Class Compare (F : Type) : Type :=
  { feqb : F -> F -> bool;
    fltb : F -> F -> bool }.

#[global] Instance float64_compare : Compare PrimFloat.float :=
  {| feqb := PrimFloat.eqb;
     fltb := PrimFloat.ltb |}.

(** ** numpy arrays *)

Module np.

(** An array is its shape and its entries in C (row-major) order. *)
Record ndarray (A : Type) : Type := mk_ndarray
  { shape : list nat;
    data : list A }.
Arguments mk_ndarray {A} shape data.
Arguments shape {A} _.
Arguments data {A} _.

Section Arrays.
Context {A : Type}.

Definition ndim (a : ndarray A) : nat := length (shape a).

(** [a.size] : the product of the dimensions *)
Definition size (a : ndarray A) : nat := foldr Nat.mul 1 (shape a).

(** Well-formed arrays carry exactly [size] entries. *)
Definition wf (a : ndarray A) : Prop := length (data a) = size a.

(** [n in a.shape] *)
Definition in_shape (n : nat) (a : ndarray A) : bool :=
  bool_decide (n ∈ shape a).

(** [a.shape[k] != n] (the code only asks this of arrays that have
    an axis [k]) *)
Definition shape_ne (k n : nat) (a : ndarray A) : bool :=
  negb (bool_decide (shape a !! k = Some n)).

(** [a.shape[1]] of a 2D array *)
Definition shape1 (a : ndarray A) : nat := nth 1 (shape a) 0.

(** [a.reshape(shp)], C order: same data, new shape. *)
Definition reshape (a : ndarray A) (shp : list nat) : ndarray A :=
  mk_ndarray shp (data a).

(** [a.ravel()] *)
Definition ravel (a : ndarray A) : ndarray A :=
  mk_ndarray [size a] (data a).

(** Entry (i,j) of a 2D array with [c] columns. *)
Definition get2 (c : nat) (d : list A) (i j : nat) : option A :=
  d !! (i * c + j).

(** Row [i] of a 2D array with [c] columns. *)
Definition row (c : nat) (d : list A) (i : nat) : list A :=
  take c (drop (i * c) d).

(** Column [j] of an (r,c) array, top to bottom. *)
Definition column (r c : nat) (d : list A) (j : nat) : list A :=
  omap (fun i => get2 c d i j) (seq 0 r).

(** [a[:,j]] as a list, for a 2D array *)
Definition col (a : ndarray A) (j : nat) : list A :=
  match shape a with
  | [r; c] => column r c (data a) j
  | _ => []
  end.

(** [a.T] : 1D arrays are returned as they are, 2D arrays have their
    axes swapped.  The embedded code transposes 2D arrays only. *)
Definition T (a : ndarray A) : ndarray A :=
  match shape a with
  | [r; c] => mk_ndarray [c; r] (mjoin (column r c (data a) <$> seq 0 c))
  | _ => a
  end.

(** [np.tile(a, n)] for a 1D or 2D array: [n] copies side by side. *)
Definition tile (a : ndarray A) (n : nat) : ndarray A :=
  match shape a with
  | [c] => mk_ndarray [c * n] (mjoin (replicate n (data a)))
  | [r; c] =>
      mk_ndarray [r; c * n]
        (mjoin ((fun i => mjoin (replicate n (row c (data a) i))) <$> seq 0 r))
  | _ => a
  end.

(** [arr[ind] = v] with a boolean mask [ind] of the shape of [arr] *)
Definition setmask (arr : ndarray A) (ind : ndarray bool) (v : A) : ndarray A :=
  mk_ndarray (shape arr)
    (zip_with (fun x (m : bool) => if m then v else x) (data arr) (data ind)).

End Arrays.

(** [a | b] on boolean arrays of the same shape *)
Definition lor (a b : ndarray bool) : ndarray bool :=
  mk_ndarray (shape a) (zip_with orb (data a) (data b)).

(** [np.any(a)] *)
Definition any (a : ndarray bool) : bool := existsb (fun b => b) (data a).

(** [np.zeros(shp, dtype=bool)] *)
Definition zeros_bool (shp : list nat) : ndarray bool :=
  mk_ndarray shp (replicate (foldr Nat.mul 1 shp) false).

(** [np.any(a, axis=0)] and [np.all(a, axis=0)] : a 2D array loses its
    first axis, a 1D array becomes a 0-d array (the kernel answers with
    no other kind of array). *)
Definition reduce_axis0 (f : list bool -> bool) (a : ndarray bool) : ndarray bool :=
  match shape a with
  | [n] => mk_ndarray [] [f (data a)]
  | [r; c] => mk_ndarray [c] ((fun j => f (column r c (data a) j)) <$> seq 0 c)
  | _ => a
  end.
Definition any_axis0 : ndarray bool -> ndarray bool :=
  reduce_axis0 (existsb (fun b => b)).
Definition all_axis0 : ndarray bool -> ndarray bool :=
  reduce_axis0 (forallb (fun b => b)).

(** [ind[ii,:] = v] for [ind] of shape (n,c) : [v] is broadcast to the
    row, which its shape must allow once leading axes of length 1 are
    dropped. *)
Fixpoint drop_ones (shp : list nat) : list nat :=
  match shp with
  | 1 :: (_ :: _) as shp' => drop_ones shp'
  | _ => shp
  end.

Definition broadcast_row {A} (c : nat) (v : ndarray A) : option (list A) :=
  match drop_ones (shape v) with
  | [] => (fun x => replicate c x) <$> head (data v)
  | [k] => if k =? c then Some (data v)
           else if k =? 1 then (fun x => replicate c x) <$> head (data v)
           else None
  | _ => None
  end.

Definition set_row {A} (a : ndarray A) (ii : nat) (v : ndarray A) : option (ndarray A) :=
  match shape a with
  | [n; c] =>
      r ← broadcast_row c v;
      Some (mk_ndarray [n; c] (take (ii * c) (data a) ++ r ++ drop ((ii + 1) * c) (data a)))
  | _ => None
  end.

Section Numeric.
Context {F : Type} `{Numeric F}.

Definition isnan (a : ndarray F) : ndarray bool :=
  mk_ndarray (shape a) (f_is_nan <$> data a).
Definition isinf (a : ndarray F) : ndarray bool :=
  mk_ndarray (shape a) (f_is_inf <$> data a).

(** [a**2] *)
Definition square (a : ndarray F) : ndarray F :=
  mk_ndarray (shape a) ((fun x => fmul x x) <$> data a).

(** [np.sqrt(a)] *)
Definition sqrt (a : ndarray F) : ndarray F :=
  mk_ndarray (shape a) (fsqrt <$> data a).

(** Sum of the entries of a list, added from the first one on. *)
Definition fsum (l : list F) : F :=
  match l with
  | [] => fzero
  | x :: l' => foldl fadd x l'
  end.

(** [np.sum(a, axis=0)] of a 2D array *)
Definition sum_axis0 (a : ndarray F) : ndarray F :=
  match shape a with
  | [r; c] => mk_ndarray [c] ((fun j => fsum (column r c (data a) j)) <$> seq 0 c)
  | _ => a
  end.

(** [a / v[np.newaxis,:]] for [a] of shape (r,c) and [v] of shape (c,) *)
Definition div_rowvec (a v : ndarray F) : ndarray F :=
  match shape a with
  | [r; c] =>
      mk_ndarray [r; c]
        (mjoin ((fun i => zip_with fdiv (row c (data a) i) (data v)) <$> seq 0 r))
  | _ => a
  end.

(** [p[:,np.newaxis] - a] for [p] of shape (r,) and [a] of shape (r,c) *)
Definition colvec_sub (p a : ndarray F) : ndarray F :=
  match shape a with
  | [r; c] =>
      mk_ndarray [r; c]
        (mjoin (zip_with (fun pi i => fsub pi <$> row c (data a) i) (data p) (seq 0 r)))
  | _ => a
  end.

(** [u/np.sqrt(np.sum(u**2,axis=0))[np.newaxis,:]] *)
Definition normalize (u : ndarray F) : ndarray F :=
  div_rowvec u (sqrt (sum_axis0 (square u))).

End Numeric.

End np.
Import np.

(** ** Python values *)

Inductive pyobj (F : Type) : Type :=
| PyNone
| PyBool (b : bool)
| PyInt (n : nat)
| PyFloat (x : F)
| PyArr (a : ndarray F).
Arguments PyNone {F}.
Arguments PyBool {F} b.
Arguments PyInt {F} n.
Arguments PyFloat {F} x.
Arguments PyArr {F} a.

Section PyObj.
Context {F : Type} `{Numeric F}.

(** [hasattr(o, '__iter__')] : lists, tuples and arrays have it, [None],
    booleans and numbers do not. *)
Definition hasattr_iter (o : pyobj F) : bool :=
  match o with
  | PyArr _ => true
  | _ => false
  end.

Definition is_None (o : pyobj F) : bool :=
  match o with
  | PyNone => true
  | _ => false
  end.

(** [type(o) is bool] *)
Definition type_is_bool (o : pyobj F) : bool :=
  match o with
  | PyBool _ => true
  | _ => false
  end.

(** [o is False] *)
Definition is_False (o : pyobj F) : bool :=
  match o with
  | PyBool false => true
  | _ => false
  end.

(** [o is True] *)
Definition is_True (o : pyobj F) : bool :=
  match o with
  | PyBool true => true
  | _ => false
  end.

(** [np.asarray(o).astype(float)] and [np.asarray(o, dtype=float)] :
    scalars become 0-d arrays, [None] becomes the 0-d array holding NaN. *)
Definition asarray_float (o : pyobj F) : ndarray F :=
  match o with
  | PyArr a => a
  | PyFloat x => mk_ndarray [] [x]
  | PyInt n => mk_ndarray [] [f_of_nat n]
  | PyBool b => mk_ndarray [] [f_of_nat (if b then 1 else 0)]
  | PyNone => mk_ndarray [] [fnan]
  end.

End PyObj.

(** [s in l] for a string and a list of strings *)
Definition str_in (s : string) (l : list string) : bool :=
  existsb (String.eqb s) l.

Definition nl : string := String (Ascii.ascii_of_nat 10) EmptyString.

(** ** Struct *)

Module Struct.
Section Struct.
Context {F : Type} `{Numeric F}.

(** [Struct._ddef['dgeom']] *)
Definition ddef_Type : string := "Tor".
Definition ddef_Lim : ndarray F := mk_ndarray [0] [].
Definition ddef_arrayorder : string := "C".

(** The [Lim] part of [_checkformat_inputs_dgeom] (l.235-242), once
    [Lim] is an array. *)
Definition checkformat_Lim (Lim : ndarray F) : result (ndarray F) :=
  py_assert (bool_decide (ndim Lim ∈ [1; 2])
             && (in_shape 2 Lim || in_shape 0 Lim)) None;;
  if ndim Lim =? 1 then
    py_assert (bool_decide (size Lim ∈ [0; 2])) None;;
    mret (if size Lim =? 2 then reshape Lim [1; 2] else Lim)
  else
    mret (if shape_ne 1 2 Lim then T Lim else Lim).

(** [Struct._checkformat_inputs_dgeom] *)
Definition _checkformat_inputs_dgeom
    (Poly Lim mobile : pyobj F) (Type_ : option string)
    (Clock : pyobj F) (arrayorder : option string)
  : result (ndarray F * ndarray F * string * string) :=
  py_assert (type_is_bool Clock) None;;
  py_assert (type_is_bool mobile) None;;
  let arrayorder := default ddef_arrayorder arrayorder in
  py_assert (str_in arrayorder ["C"; "F"]) None;;
  py_assert (negb (is_None Poly) && hasattr_iter Poly) None;;
  let Poly := asarray_float Poly in
  py_assert ((ndim Poly =? 2) && in_shape 2 Poly) None;;
  let Poly := if shape_ne 0 2 Poly then T Poly else Poly in
  let Type_ := default ddef_Type Type_ in
  py_assert (str_in Type_ ["Tor"; "Lin"]) None;;
  let Lim := if is_None Lim then PyArr ddef_Lim else Lim in
  py_assert (hasattr_iter Lim) None;;
  Lim ← checkformat_Lim (asarray_float Lim);
  (if String.eqb Type_ "Lin" then py_assert (0 <? size Lim) None else mret tt);;
  mret (Poly, Lim, Type_, arrayorder).

(** *** The polygon model

    [_comp._Struct_set_Poly], which [Struct._set_dgeom] calls on the
    checked polygon and whose result it stores, is not part of the
    sources at hand.  What follows is section 4.1 of the
    specification. *)

Context `{Compare F}.

(** The points of a (2,N) polygon, in order: its columns. *)
Definition vertices (Poly : ndarray F) : list (F * F) :=
  zip (row (shape1 Poly) (data Poly) 0) (row (shape1 Poly) (data Poly) 1).

(** The (2,N) array of a list of points. *)
Definition of_vertices (vs : list (F * F)) : ndarray F :=
  mk_ndarray [2; length vs] (vs.*1 ++ vs.*2).

Definition same_point (p q : F * F) : bool :=
  feqb p.1 q.1 && feqb p.2 q.2.

(** Modelled from the spec: the closing step of
    [_comp._Struct_set_Poly], which is missing.  "Closing: if first ≠
    last point, appended copy of first point for edge-walking
    purposes". *)
Definition closed_contour (vs : list (F * F)) : list (F * F) :=
  match vs, last vs with
  | v0 :: _, Some vl => if same_point v0 vl then vs else vs ++ [v0]
  | _, _ => vs
  end.

(** Modelled from the spec: the area [_comp._Struct_set_Poly], which
    is missing, orients the polygon by.  "compute signed area via the
    shoelace formula" : half the sum, over the segments of the
    closed contour, of x1*y2 - x2*y1, which is positive when the
    contour runs counter-clockwise.  The terms are added from the
    first segment on. *)
Fixpoint shoelace_terms (contour : list (F * F)) : list F :=
  match contour with
  | p :: (q :: _) as rest =>
      fsub (fmul p.1 q.2) (fmul q.1 p.2) :: shoelace_terms rest
  | _ => []
  end.

Definition signed_area (contour : list (F * F)) : F :=
  fdiv (fsum (shoelace_terms contour)) (f_of_nat 2).

(** Modelled from the spec: the test of the orientation in
    [_comp._Struct_set_Poly], which is missing.  "if requested
    orientation (clockwise flag) disagrees with computed sign" : a
    clockwise contour is asked for and the area is positive, or a
    counter-clockwise one and the area is negative.  An area that is
    zero (or NaN) has no sign to disagree with. *)
Definition disagrees (Clock : bool) (area : F) : bool :=
  if Clock then fltb fzero area else fltb area fzero.

(** Modelled from the spec: [_comp._Struct_set_Poly], which is
    missing, as far as the polygon it stores goes.  The steps are
    those of section 4.1, in its order: the contour is closed; "if
    requested orientation (clockwise flag) disagrees with computed
    sign, reverse point order"; the stored open polygon "never
    duplicates" the closing point.  It "rejects degenerate input
    (ndim≠2, fewer than 3 vertices, or a dimension not matching 2)",
    the vertices being the points of the open polygon, of which
    section 3 wants 3 at least. *)
Definition _Struct_set_Poly (Poly : ndarray F) (Clock : bool) : result (ndarray F) :=
  py_assert ((ndim Poly =? 2) && in_shape 2 Poly) None;;
  let contour := closed_contour (vertices Poly) in
  py_assert (3 <=? length (removelast contour)) None;;
  let contour := if disagrees Clock (signed_area contour)
                 then reverse contour else contour in
  mret (of_vertices (removelast contour)).

End Struct.
End Struct.

(** ** Ves : the override of the check *)

Module Ves.
Section Ves.
Context {F : Type} `{Numeric F}.

Definition _checkformat_inputs_dgeom
    (Poly Lim mobile : pyobj F) (Type_ : option string)
    (Clock : pyobj F) (arrayorder : option string)
  : result (ndarray F * ndarray F * string * string) :=
  out ← Struct._checkformat_inputs_dgeom Poly Lim mobile Type_ Clock arrayorder;
  let '(Poly', Lim', Type', arrayorder') := out in
  py_assert (is_False mobile) (Some "Ves instances cannot be mobile !");;
  (if String.eqb Type' "Tor"
   then py_assert (size Lim' =? 0) (Some "There cannot be Lim if Type='Tor' !")
   else mret tt);;
  mret out.

End Ves.
End Ves.

(** The classes of structures, and the check each of them resolves to:
    only [Ves] overrides it, [PlasmaDomain] inherits from [Ves]. *)
Inductive cls : Type := CStruct | CVes | CPlasmaDomain | CPFC | CCoilPF | CCoilCS.

Definition checkformat_inputs_dgeom {F : Type} `{Numeric F} (c : cls) :=
  match c with
  | CVes | CPlasmaDomain => Ves._checkformat_inputs_dgeom (F:=F)
  | CStruct | CPFC | CCoilPF | CCoilCS => Struct._checkformat_inputs_dgeom (F:=F)
  end.

(** [Struct._set_dgeom] (l.324-337), up to the polygon it stores: the
    check of the class, called without [arrayorder], then
    [_comp._Struct_set_Poly] on the checked polygon, with the flag
    [Clock] the check has found to be a [bool]. *)
Definition _set_dgeom_Poly {F : Type} `{Numeric F} `{Compare F} (c : cls)
    (Poly Lim mobile : pyobj F) (Type_ : option string) (Clock : pyobj F)
  : result (ndarray F) :=
  out ← checkformat_inputs_dgeom c Poly Lim mobile Type_ Clock None;
  let '(Poly', Lim', Type', arrayorder') := out in
  Struct._Struct_set_Poly Poly' (is_True Clock).

(** ** Structures as seen by Config and Rays *)

(** What [Config.isInside] and [Rays._compute_dgeom] read of a structure. *)
Record struct_obj (F : Type) : Type := mk_struct
  { Id_Cls : string;
    Id_Type : string;
    Poly : ndarray F;
    Poly_closed : ndarray F;
    VIn : ndarray F;
    Lim : ndarray F;
    nLim : nat;
    get_compute : bool }.
Arguments mk_struct {F}.
Arguments Id_Cls {F} _.
Arguments Id_Type {F} _.
Arguments Poly {F} _.
Arguments Poly_closed {F} _.
Arguments VIn {F} _.
Arguments Lim {F} _.
Arguments nLim {F} _.
Arguments get_compute {F} _.

(** What is read of a [Config] instance:
    [_dstruct['nStruct']], the property [lStruct],
    [list(_dstruct['dStruct']['PlasmaDomain'].values())] and the
    structures selected by [Rays.lStruct_compute]. *)
Record config (F : Type) : Type := mk_config
  { nStruct : nat;
    lStruct : list (struct_obj F);
    PlasmaDomain_values : list (struct_obj F);
    lStruct_compute : list (struct_obj F) }.
Arguments mk_config {F}.
Arguments nStruct {F} _.
Arguments lStruct {F} _.
Arguments PlasmaDomain_values {F} _.
Arguments lStruct_compute {F} _.

(** ** Config.isInside *)

Module Config.
Section Config.
Context {F : Type} `{Numeric F}.

(** The containment kernel [_GG._Ves_isInside(pts, Poly, Lim=, nLim=,
    VType=, In=, Test=True)] is compiled code outside the sources;
    it is a parameter of the model. *)
Variable _Ves_isInside :
  ndarray F -> ndarray F -> ndarray F -> nat -> string -> string ->
  result (ndarray bool).

(** One turn of the loop over the structures (l.1714-1725). *)
Definition isInside_step (pts : ndarray F) (In log : string)
    (lS : list (struct_obj F)) (ind : ndarray bool) (ii : nat)
  : result (ndarray bool) :=
  S ← from_option Ok (Raise IndexError) (lS !! ii);
  indi ← _Ves_isInside pts (Poly S) (Lim S) (nLim S) (Id_Type S) In;
  let indi :=
    if 1 <? nLim S then
      if String.eqb log "any" then any_axis0 indi else all_axis0 indi
    else indi in
  from_option Ok (Raise ValueError) (set_row ind ii indi).

Fixpoint isInside_loop (pts : ndarray F) (In log : string)
    (lS : list (struct_obj F)) (ind : ndarray bool) (iis : list nat)
  : result (ndarray bool) :=
  match iis with
  | [] => mret ind
  | ii :: iis' =>
      ind' ← isInside_step pts In log lS ind ii;
      isInside_loop pts In log lS ind' iis'
  end.

(** [Config.isInside(pts, In, log)] ; [pts] is an [np.ndarray] when it
    is a [PyArr]. *)
Definition isInside (self : config F) (pts : pyobj F) (In log : string)
  : result (ndarray bool) :=
  py_assert (hasattr_iter pts && bool_decide (ndim (asarray_float pts) ∈ [1; 2]))
    (Some "Arg pts must be a 1D or 2D np.ndarray !");;
  py_assert (str_in log ["any"; "all"]) (Some "Arg log must be in ['any','all']");;
  let pts := asarray_float pts in
  pts ← (if ndim pts =? 1 then
           py_assert (bool_decide (size pts ∈ [2; 3]))
             (Some "Arg pts must contain the coordinates of a point !");;
           mret (reshape pts [size pts; 1])
         else
           (if bool_decide (nth 0 (shape pts) 0 ∈ [2; 3]) then Ok tt
            else Raise (AssertionError_of pts));;
           mret pts);
  let nP := shape1 pts in
  let ind := zeros_bool [nStruct self; nP] in
  isInside_loop pts In log (lStruct self) ind (seq 0 (nStruct self)).

End Config.
End Config.

(** ** Rays *)

Module Rays.
Section Rays.
Context {F : Type} `{Numeric F}.

(** *** Checking the geometry given at construction *)

(** The argument [dgeom] : a dict, a tuple, or something else. *)
Inductive dgeom_arg : Type :=
| DgNone
| DgDict (d : gmap string (pyobj F))
| DgTuple (t : list (pyobj F)).

Definition Du_msg (name : string) : string :=
  "Arg " +:+ name +:+ " must be an iterable convertible into either:"
  +:+ nl +:+ "    - a 1D np.ndarray of size=3"
  +:+ nl +:+ "    - a 2D np.ndarray of shape (3,N)".

(** The inner function [_checkformat_Du(arr, name)] *)
Definition _checkformat_Du (arr : pyobj F) (name : string) : result (ndarray F) :=
  let arr := asarray_float arr in
  let msg := Du_msg name in
  py_assert (bool_decide (ndim arr ∈ [1; 2])) (Some msg);;
  if ndim arr =? 1 then
    py_assert (size arr =? 3) (Some msg);;
    mret (reshape arr [3; 1])
  else
    py_assert (in_shape 3 arr) (Some msg);;
    mret (if shape_ne 0 3 arr then T arr else arr).

Definition has_keys (dgeom : dgeom_arg) (ks : list string) : bool :=
  match dgeom with
  | DgDict d => forallb (fun k => bool_decide (is_Some (d !! k))) ks
  | _ => false
  end.

(** [dgeom[k]] for a dict *)
Definition dict_get (dgeom : dgeom_arg) (k : string) : result (pyobj F) :=
  match dgeom with
  | DgDict d => from_option Ok (Raise (KeyError k)) (d !! k)
  | _ => Raise TypeError
  end.

(** [dgeom[i]] for a tuple *)
Definition tuple_get (dgeom : dgeom_arg) (i : nat) : result (pyobj F) :=
  match dgeom with
  | DgTuple t => from_option Ok (Raise IndexError) (t !! i)
  | _ => Raise TypeError
  end.

Definition ambiguous_msg : string :=
  "The number of rays is ambiguous from D and u shapes !".

(** [Rays._checkformat_inputs_dgeom] *)
Definition _checkformat_inputs_dgeom (dgeom : dgeom_arg)
  : result (gmap string (pyobj F)) :=
  py_assert (negb (match dgeom with DgNone => true | _ => false end)) None;;
  let C0 := has_keys dgeom ["D"; "u"] in
  let C1 := has_keys dgeom ["D"; "pinhole"] in
  let C2 := match dgeom with DgTuple t => length t =? 2 | _ => false end in
  py_assert (C0 || C1 || C2) (Some "Arg dgeom must be a dict or a tuple of len=2");;
  D ← (if C2 then tuple_get dgeom 0 else dict_get dgeom "D");
  D ← _checkformat_Du D "D";
  if C1 then
    pinhole ← dict_get dgeom "pinhole";
    pinhole ← _checkformat_Du pinhole "pinhole";
    let nD := shape1 D in
    let npinhole := shape1 pinhole in
    py_assert (npinhole =? 1) None;;
    let pinhole := ravel pinhole in
    let nRays := nD in
    mret (<["D" := PyArr D]> (<["pinhole" := PyArr pinhole]>
            (<["nRays" := PyInt nRays]> ∅)))
  else
    u ← (if C2 then tuple_get dgeom 1 else dict_get dgeom "u");
    u ← _checkformat_Du u "u";
    let u := normalize u in
    let nD := shape1 D in
    let nu := shape1 u in
    let C0 := (nD =? 1) && (1 <? nu) in
    let C1 := (1 <? nD) && (nu =? 1) in
    let C2 := nD =? nu in
    py_assert (C0 || C1 || C2) (Some ambiguous_msg);;
    let nRays := Nat.max nD nu in
    mret (<["D" := PyArr D]> (<["u" := PyArr u]>
            (<["nRays" := PyInt nRays]> ∅))).

(** *** The instance and its properties *)

(** The parts of a [Rays] instance the embedded methods touch, and the
    warnings issued so far. *)
Record state : Type := mk_state
  { _dgeom : gmap string (pyobj F);
    _dconfig_config : option (config F);
    warned : list string }.

Definition _get_keys_dgeom : list string :=
  ["D"; "u"; "pinhole";
   "kMin"; "kMax"; "PkMin"; "PkMax"; "vperp"; "indout";
   "kRMin"; "PRMin"; "RMin";
   "Etendues"; "Surfaces"].

(** [dict.fromkeys(keys)] *)
Definition dict_fromkeys (ks : list string) : gmap string (pyobj F) :=
  list_to_map ((fun k => (k, PyNone)) <$> ks).

(** [Rays._reset] *)
Definition _reset (s : state) : state :=
  mk_state (dict_fromkeys _get_keys_dgeom) None (warned s).

(** [d.update(d')] *)
Definition dict_update (d d' : gmap string (pyobj F)) : gmap string (pyobj F) :=
  d' ∪ d.

(** The dictionary of the instance once [_reset] and
    [self._dgeom.update(dgeom)] have run. *)
Definition updated (d0 : gmap string (pyobj F)) : gmap string (pyobj F) :=
  dict_update (dict_fromkeys _get_keys_dgeom) d0.

(** [d[k]] *)
Definition getitem (d : gmap string (pyobj F)) (k : string) : result (pyobj F) :=
  from_option Ok (Raise (KeyError k)) (d !! k).

(** Use of an object as an array ([o.shape], arithmetic on it). *)
Definition as_array (o : pyobj F) : result (ndarray F) :=
  match o with
  | PyArr a => Ok a
  | _ => Raise TypeError
  end.

Definition as_int (o : pyobj F) : result nat :=
  match o with
  | PyInt n => Ok n
  | _ => Raise TypeError
  end.

(** The property [Rays.isPinhole] *)
Definition isPinhole (d : gmap string (pyobj F)) : result bool :=
  is_None <$> getitem d "u".

(** The property [Rays.D] *)
Definition prop_D (d : gmap string (pyobj F)) : result (ndarray F) :=
  D ← getitem d "D" ≫= as_array;
  nRays ← getitem d "nRays" ≫= as_int;
  mret (if shape1 D <? nRays then tile D nRays else D).

(** The property [Rays.u] *)
Definition prop_u (d : gmap string (pyobj F)) : result (ndarray F) :=
  pin ← isPinhole d;
  if (pin : bool) then
    pinhole ← getitem d "pinhole" ≫= as_array;
    D ← getitem d "D" ≫= as_array;
    let u := colvec_sub pinhole D in
    mret (normalize u)
  else
    u ← getitem d "u" ≫= as_array;
    nRays ← getitem d "nRays" ≫= as_int;
    mret (if shape1 u <? nRays then tile u nRays else u).

(** *** Computing the intersections *)

(** Names bound at the top level of [_core.py] : its imports, its
    three constants and its classes and function.  A name a function
    loads without ever assigning it is looked up here (and then among
    the builtins, none of which is called [plotdebug]). *)
Definition module_globals : list string :=
  ["os"; "warnings"; "ABCMeta"; "abstractmethod"; "copy";
   "np"; "mpl"; "dtm"; "pd"; "tfpf"; "utils";
   "_def"; "_GG"; "_comp"; "_plot";
   "__all__"; "_arrayorder"; "_Clock"; "_Type";
   "Struct"; "Ves"; "PlasmaDomain"; "PFC"; "CoilPF"; "CoilCS";
   "Config"; "Rays"; "_Rays_check_fromdict"; "LOSCam1D"; "LOSCam2D"].

(** Methods run on the instance and may raise; what they did before
    raising (warnings, updates of the instance) remains. *)
Definition M (A : Type) : Type := state -> result A * state.

#[global] Instance M_ret : MRet M := fun _ a s => (Ok a, s).
#[global] Instance M_bind : MBind M := fun _ _ f m s =>
  match m s with
  | (Ok a, s') => f a s'
  | (Raise e, s') => (Raise e, s')
  end.

Definition lift {A} (r : result A) : M A := fun s => (r, s).

(** [warnings.warn(msg)] *)
Definition warn (msg : string) : M unit :=
  fun s => (Ok tt, mk_state (_dgeom s) (_dconfig_config s) (warned s ++ [msg])).

Definition get_dgeom : M (gmap string (pyobj F)) := fun s => (Ok (_dgeom s), s).
Definition get_config : M (option (config F)) := fun s => (Ok (_dconfig_config s), s).

(** [self._dgeom.update(dd)] *)
Definition update_dgeom (dd : gmap string (pyobj F)) : M unit :=
  fun s => (Ok tt, mk_state (dict_update (_dgeom s) dd) (_dconfig_config s) (warned s)).

(** Loading a global name, here only to test its truth value. *)
Definition load_global (name : string) : M unit :=
  lift (if str_in name module_globals then Ok tt else Raise (NameError name)).

(** What [_GG.LOS_Calc_PInOut_VesStruct] returns *)
Record PInOut : Type := mk_PInOut
  { PIn : pyobj F; POut : pyobj F;
    kMin : ndarray F; kMax : ndarray F;
    VperpIn : pyobj F; vperp : pyobj F;
    IIn : pyobj F; indout : pyobj F }.

(** The intersection kernel [_GG.LOS_Calc_PInOut_VesStruct(D, u, VPoly,
    VVIn, Lim=, nLim=, LSPoly=, LSLim=, lSnLim=, LSVIn=, VType=, ...)]
    is compiled code outside the sources, and so are the helpers of
    [_compute_dgeom_kRMin], [_compute_dgeom_extra1] and
    [_compute_dgeom_extra2D], run last when [extra] is set: they are
    parameters of the model. *)
Variable LOS_Calc_PInOut_VesStruct :
  ndarray F -> ndarray F -> ndarray F -> ndarray F -> ndarray F -> nat ->
  list (ndarray F) -> list (ndarray F) -> list nat -> list (ndarray F) ->
  string -> result PInOut.
Variable _compute_dgeom_extras : M unit.

Definition no_config_msg : string :=
  "The dgeom cannot be computed without a config !".
Definition no_visibility_msg : string :=
  "Some LOS have no visibility inside the plasma domain !".

(** [Rays._compute_dgeom(extra)].  On the branch taken when some
    [kMax] is NaN or infinite, the test [if plotdebug:] comes right
    after the warning: the name is loaded before anything can be done
    with its value, and the debugging plot it guards is never
    reached. *)
Definition _compute_dgeom (extra : bool) : M unit :=
  cfg ← get_config;
  match cfg with
  | None => warn no_config_msg
  | Some config =>
      d ← get_dgeom;
      D ← lift (prop_D d);
      u ← lift (prop_u d);
      S ← lift (from_option Ok (Raise IndexError) (head (PlasmaDomain_values config)));
      lift (py_assert (get_compute S) None);;
      let VPoly := Poly_closed S in
      let VVIn := VIn S in
      let lS := filter (fun ss => negb (String.eqb (Id_Cls ss) "PlasmaDomain"))
                       (lStruct_compute config) in
      let lSPoly := Poly_closed <$> lS in
      let lSVIn := VIn <$> lS in
      let lSLim := Lim <$> lS in
      let lSnLim := nLim <$> lS in
      out ← lift (LOS_Calc_PInOut_VesStruct D u VPoly VVIn (Lim S) (nLim S)
                    lSPoly lSLim lSnLim lSVIn (Id_Type S));
      let ind := isnan (kMin out) in
      let kMin := setmask (kMin out) ind fzero in
      let ind := lor (isnan (kMax out)) (isinf (kMax out)) in
      kMax ← (if any ind then
                let kMax := setmask (kMax out) ind fnan in
                warn no_visibility_msg;;
                load_global "plotdebug";;
                mret kMax
              else mret (kMax out));
      update_dgeom (<["kMin" := PyArr kMin]> (<["kMax" := PyArr kMax]>
                     (<["vperp" := vperp out]> (<["indout" := indout out]> ∅))));;
      if extra then _compute_dgeom_extras else mret tt
  end.

(** [Rays._set_dgeom], up to the call of [_compute_dgeom] *)
Definition _set_dgeom (dgeom : dgeom_arg) (extra : bool) : M unit :=
  dgeom ← lift (_checkformat_inputs_dgeom dgeom);
  update_dgeom dgeom;;
  _compute_dgeom extra.

End Rays.
End Rays.

(** ** Exact arithmetic

    The same interface over the extended reals: the special values of
    IEEE 754 (infinities, NaN) and the rules that produce them are kept,
    rounding and the sign of zero are not.  It is the reading under which
    a normalised vector has length exactly one. *)

Module Exact.
Import Reals.
Local Open Scope R_scope.

Inductive ereal : Type :=
| Fin (r : R)
| PInf
| NInf
| NaN.

Definition neg (a : ereal) : ereal :=
  match a with
  | Fin x => Fin (- x)
  | PInf => NInf
  | NInf => PInf
  | NaN => NaN
  end.

Definition add (a b : ereal) : ereal :=
  match a, b with
  | NaN, _ | _, NaN => NaN
  | Fin x, Fin y => Fin (x + y)
  | PInf, NInf | NInf, PInf => NaN
  | PInf, _ | _, PInf => PInf
  | NInf, _ | _, NInf => NInf
  end.

Definition sub (a b : ereal) : ereal := add a (neg b).

(** An infinity times (or divided by) a finite [y] *)
Definition signed_inf (positive : bool) (y : R) : ereal :=
  if Rlt_dec 0 y then (if positive then PInf else NInf)
  else (if positive then NInf else PInf).

Definition mul (a b : ereal) : ereal :=
  match a, b with
  | NaN, _ | _, NaN => NaN
  | Fin x, Fin y => Fin (x * y)
  | PInf, Fin y | Fin y, PInf => if Req_dec_T y 0 then NaN else signed_inf true y
  | NInf, Fin y | Fin y, NInf => if Req_dec_T y 0 then NaN else signed_inf false y
  | PInf, PInf | NInf, NInf => PInf
  | PInf, NInf | NInf, PInf => NInf
  end.

Definition div (a b : ereal) : ereal :=
  match a, b with
  | NaN, _ | _, NaN => NaN
  | Fin x, Fin y =>
      if Req_dec_T y 0
      then (if Req_dec_T x 0 then NaN else signed_inf true x)
      else Fin (x / y)
  | Fin _, (PInf | NInf) => Fin 0
  | (PInf | NInf), (PInf | NInf) => NaN
  | PInf, Fin y => if Req_dec_T y 0 then PInf else signed_inf true y
  | NInf, Fin y => if Req_dec_T y 0 then NInf else signed_inf false y
  end.

Definition sqrt (a : ereal) : ereal :=
  match a with
  | Fin x => if Rlt_dec x 0 then NaN else Fin (R_sqrt.sqrt x)
  | PInf => PInf
  | NInf | NaN => NaN
  end.

Definition is_nan (a : ereal) : bool :=
  match a with
  | NaN => true
  | _ => false
  end.

Definition is_inf (a : ereal) : bool :=
  match a with
  | PInf | NInf => true
  | _ => false
  end.

#[global] Instance exact : Numeric ereal :=
  {| fzero := Fin 0;
     fnan := NaN;
     f_of_nat := fun n => Fin (INR n);
     fadd := add;
     fsub := sub;
     fmul := mul;
     fdiv := div;
     fsqrt := sqrt;
     f_is_nan := is_nan;
     f_is_inf := is_inf |}.

(** Euclidean length of a vector of finite reals, and its being a unit
    vector. *)
Definition norm2 (v : list R) : R := foldr (fun x acc => x * x + acc) 0 v.
Definition norm (v : list R) : R := R_sqrt.sqrt (norm2 v).
Definition is_unit (v : list ereal) : Prop :=
  exists w : list R, v = Fin <$> w /\ norm w = 1.

End Exact.

(** ** Vocabulary of the properties *)

(** The array [Lim] stands for: the default when it is [None]. *)
Definition Lim_array {F : Type} `{Numeric F} (Lim : pyobj F) : ndarray F :=
  asarray_float (if is_None Lim then PyArr Struct.ddef_Lim else Lim).

(** The value [Lim] is normalised to, when it is accepted. *)
Definition Lim_normal_form {F : Type} (a : ndarray F) : ndarray F :=
  if ndim a =? 1 then (if size a =? 2 then reshape a [1; 2] else a)
  else (if shape_ne 1 2 a then T a else a).

(** The shapes [Lim] is normalised to: the empty 1D array, or rows of
    two bounds. *)
Definition canonical_Lim {F : Type} (L : ndarray F) : Prop :=
  shape L = [0] \/ exists n, shape L = [n; 2].

(** The polygon the check returns. *)
Definition Poly_normal_form {F : Type} (a : ndarray F) : ndarray F :=
  if shape_ne 0 2 a then T a else a.

(** What the check asks of the arguments other than the polygon. *)
Definition others_ok {F : Type} `{Numeric F} (Lim mobile : pyobj F)
    (Type_ : option string) (Clock : pyobj F) (arrayorder : option string)
    (L : ndarray F) : Prop :=
  type_is_bool Clock = true /\ type_is_bool mobile = true
  /\ str_in (default Struct.ddef_arrayorder arrayorder) ["C"; "F"] = true
  /\ str_in (default Struct.ddef_Type Type_) ["Tor"; "Lin"] = true
  /\ (Lim = PyNone \/ hasattr_iter Lim = true)
  /\ Struct.checkformat_Lim (Lim_array Lim) = Ok L
  /\ (default Struct.ddef_Type Type_ = "Lin" -> 0 < size L).

(** The arguments other than the polygon are acceptable: with some
    polygon, the check succeeds. *)
Definition others_accepted {F : Type} `{Numeric F} (c : cls) (Lim mobile : pyobj F)
    (Type_ : option string) (Clock : pyobj F) (ao : option string) : Prop :=
  exists P0, is_Ok (checkformat_inputs_dgeom c P0 Lim mobile Type_ Clock ao).

(** The two ways of giving origins and directions. *)
Definition Du_arg {F : Type} (D u : ndarray F) (dgeom : Rays.dgeom_arg) : Prop :=
  dgeom = Rays.DgTuple [PyArr D; PyArr u]
  \/ dgeom = Rays.DgDict (<["D" := PyArr D]> (<["u" := PyArr u]> ∅)).

(** The number of rays is known: as many origins as directions, or one
    of the two is single and the other is not missing. *)
Definition unambiguous (nD nu : nat) : Prop :=
  nD = nu \/ (nD = 1 /\ 1 <= nu) \/ (nu = 1 /\ 1 <= nD).

(** A list divided by the Euclidean norm numpy computes for it. *)
Definition normalised {F : Type} `{Numeric F} (v : list F) : list F :=
  (fun x => fdiv x (fsqrt (fsum ((fun y => fmul y y) <$> v)))) <$> v.

(** The call of the kernel made by [_compute_dgeom] on an instance. *)
Definition kernel_call {F : Type} `{Numeric F}
    (engine : ndarray F -> ndarray F -> ndarray F -> ndarray F -> ndarray F -> nat ->
              list (ndarray F) -> list (ndarray F) -> list nat -> list (ndarray F) ->
              string -> result (Rays.PInOut (F:=F)))
    (s : Rays.state (F:=F)) (out : Rays.PInOut (F:=F)) : Prop :=
  exists config D u S,
    Rays._dconfig_config s = Some config
    /\ Rays.prop_D (Rays._dgeom s) = Ok D
    /\ Rays.prop_u (Rays._dgeom s) = Ok u
    /\ head (PlasmaDomain_values config) = Some S
    /\ get_compute S = true
    /\ engine D u (Poly_closed S) (VIn S) (Lim S) (nLim S)
         (Poly_closed <$> filter (fun ss => negb (String.eqb (Id_Cls ss) "PlasmaDomain"))
                                 (lStruct_compute config))
         (Lim <$> filter (fun ss => negb (String.eqb (Id_Cls ss) "PlasmaDomain"))
                         (lStruct_compute config))
         (nLim <$> filter (fun ss => negb (String.eqb (Id_Cls ss) "PlasmaDomain"))
                          (lStruct_compute config))
         (VIn <$> filter (fun ss => negb (String.eqb (Id_Cls ss) "PlasmaDomain"))
                         (lStruct_compute config))
         (Id_Type S) = Ok out.

(** The rays without a valid crossing: [kMax] is NaN or infinite. *)
Definition no_crossing {F : Type} `{Numeric F} (out : Rays.PInOut (F:=F)) : ndarray bool :=
  lor (isnan (Rays.kMax out)) (isinf (Rays.kMax out)).

(** What [_compute_dgeom] stores when it gets that far. *)
Definition stored {F : Type} `{Numeric F} (out : Rays.PInOut (F:=F))
  : gmap string (pyobj F) :=
  <["kMin" := PyArr (setmask (Rays.kMin out) (isnan (Rays.kMin out)) fzero)]>
    (<["kMax" := PyArr (Rays.kMax out)]>
       (<["vperp" := Rays.vperp out]> (<["indout" := Rays.indout out]> ∅))).

(** The contract of the containment kernel (section 4.3 of the
    specification): for [N] points it answers with an array of shape
    (N,) when the structure has at most one occurrence, of shape
    (nLim,N) otherwise. *)
Definition kernel_contract {F : Type}
    (kernel : ndarray F -> ndarray F -> ndarray F -> nat -> string -> string ->
              result (ndarray bool))
    (pts : ndarray F) (In : string) (N : nat)
    (S : struct_obj F) (r : ndarray bool) : Prop :=
  kernel pts (Poly S) (Lim S) (nLim S) (Id_Type S) In = Ok r
  /\ wf r
  /\ shape r = if nLim S <=? 1 then [N] else [nLim S; N].

(** The row [Config.isInside] keeps for a structure. *)
Definition collapse {F : Type} (log : string) (S : struct_obj F) (indi : ndarray bool)
  : ndarray bool :=
  if 1 <? nLim S then
    if String.eqb log "any" then any_axis0 indi else all_axis0 indi
  else indi.

(** The row of structure [i], once collapsed. *)
Definition kept_row {F : Type}
    (kernel : ndarray F -> ndarray F -> ndarray F -> nat -> string -> string ->
              result (ndarray bool))
    (pts : ndarray F) (In log : string) (lS : list (struct_obj F)) (i : nat)
  : list bool :=
  match lS !! i with
  | Some st =>
      match kernel pts (Poly st) (Lim st) (nLim st) (Id_Type st) In with
      | Ok r => data (collapse log st r)
      | Raise _ => []
      end
  | None => []
  end.

(** *** A small camera, to run the code on *)

Definition triangle : ndarray PrimFloat.float :=
  mk_ndarray [2; 3] [0; 1; 0; 0; 0; 1]%float.

Module Example.

(** A plasma domain with a triangular cross-section, alone in its
  configuration. *)
Definition plasma : struct_obj float :=
mk_struct "PlasmaDomain" "Tor" triangle
  (mk_ndarray [2; 4] [0; 1; 0; 0; 0; 0; 1; 0]%float)
  (mk_ndarray [2; 3] [0; -1; 1; 1; -1; 0]%float)
  (mk_ndarray [0] []) 0 true.

Definition conf : config float := mk_config 1 [plasma] [plasma] [plasma].

(** Two rays leaving from (2,0,0.5) and (2,0,0.75) along -X. *)
Definition D2 : ndarray float := mk_ndarray [3; 2] [2; 2; 0; 0; 0.5; 0.75]%float.
Definition u1 : ndarray float := mk_ndarray [3; 1] [-1; 0; 0]%float.

(** A kernel that answers with the given [kMin] and [kMax]. *)
Definition kernel (kMin kMax : list float)
  (D u VPoly VVIn Lim : ndarray float) (nLim : nat)
  (LSPoly LSLim : list (ndarray float)) (lSnLim : list nat)
  (LSVIn : list (ndarray float)) (VType : string)
: result (Rays.PInOut (F:=float)) :=
Ok (Rays.mk_PInOut PyNone PyNone
      (mk_ndarray [length kMin] kMin) (mk_ndarray [length kMax] kMax)
      PyNone PyNone PyNone PyNone).

(** A fresh instance with its configuration set, as [_init] has it
  when it calls [_set_dgeom]. *)
Definition fresh : Rays.state (F:=float) :=
Rays.mk_state (Rays.dict_fromkeys Rays._get_keys_dgeom) (Some conf) [].

(** The fresh instance once it holds the two rays. *)
Definition ready : Rays.state (F:=float) :=
snd (Rays.update_dgeom
       (<["D" := PyArr D2]> (<["u" := PyArr u1]> (<["nRays" := PyInt 2]> ∅)))
       fresh).

(** [_set_dgeom] on the fresh instance, for the two rays and the kernel
  answering [kMin], [kMax]. *)
Definition construct (kMin kMax : list float) : result unit * Rays.state :=
Rays._set_dgeom (kernel kMin kMax) (mret tt)
  (Rays.DgTuple [PyArr D2; PyArr u1]) false fresh.

(** A limiter present in two toroidal sectors, and the configuration of
  the plasma domain and the limiter. *)
Definition bumper : struct_obj float :=
mk_struct "PFC" "Tor" triangle
  (mk_ndarray [2; 4] [0; 1; 0; 0; 0; 0; 1; 0]%float)
  (mk_ndarray [2; 3] [0; -1; 1; 1; -1; 0]%float)
  (mk_ndarray [2; 2] [0; 1; 2; 3]%float) 2 true.

Definition conf2 : config float :=
mk_config 2 [plasma; bumper] [plasma] [plasma; bumper].

(** A containment kernel answering in the shapes of its contract: every
  point inside a structure with at most one occurrence, and inside the
  first occurrence only of the others. *)
Definition inside_kernel (pts Poly Lim : ndarray float) (nLim : nat)
  (VType In : string) : result (ndarray bool) :=
Ok (if nLim <=? 1
    then mk_ndarray [shape1 pts] (replicate (shape1 pts) true)
    else mk_ndarray [nLim; shape1 pts]
           (replicate (shape1 pts) true
            ++ replicate ((nLim - 1) * shape1 pts) false)%list).

(** Two points, in (R,Z) coordinates. *)
Definition pts2 : ndarray float := mk_ndarray [2; 2] [0.25; 1.5; 0.25; 0.5]%float.

End Example.

(** ** More of numpy *)

(** [a[:, lo:hi]] of a 2D array, for [lo <= hi] (the embedded code
    slices 2D arrays only). *)
Definition np_cols {A} (a : ndarray A) (lo hi : nat) : ndarray A :=
  match shape a with
  | [r; c] =>
      mk_ndarray [r; Nat.min hi c - lo]
        (mjoin ((fun i => take (hi - lo) (drop lo (row c (data a) i))) <$> seq 0 r))
  | _ => a
  end.

(** [np.hstack((a, b))] of two 2D arrays: row by row, the entries of [b]
    follow those of [a]; the numbers of rows must agree.  (The embedded
    code stacks 2D arrays only.) *)
Definition np_hstack {A} (a b : ndarray A) : result (ndarray A) :=
  match shape a, shape b with
  | [r; c], [r'; c'] =>
      if r =? r' then
        Ok (mk_ndarray [r; c + c']
              (mjoin ((fun i => row c (data a) i ++ row c' (data b) i)%list <$> seq 0 r)))
      else Raise ValueError
  | _, _ => Ok a
  end.

(** [np.vstack(rows)] of a list of 1D arrays: there must be one at
    least, and all of one length. *)
Definition np_vstack {A} (rows : list (list A)) : result (ndarray A) :=
  match rows with
  | [] => Raise ValueError
  | r :: _ =>
      if forallb (fun r' => length r' =? length r) rows
      then Ok (mk_ndarray [length rows; length r] (mjoin rows))
      else Raise ValueError
  end.

(** [np.sum(C)] of a list of booleans: how many are true *)
Definition np_sum_bool (C : list bool) : nat :=
  foldr (fun (b : bool) n => if b then S n else n) 0 C.

(** [~a] on a boolean array *)
Definition np_lnot (a : ndarray bool) : ndarray bool :=
  mk_ndarray (shape a) (negb <$> data a).

(** [np.ones((n,), dtype=bool)] *)
Definition np_ones_bool (n : nat) : ndarray bool :=
  mk_ndarray [n] (replicate n true).

(** [a.nonzero()[0]] of a 1D boolean array: the positions of its true
    entries, in increasing order. *)
Fixpoint nonzero_from (i : nat) (l : list bool) : list nat :=
  match l with
  | [] => []
  | b :: l' => if b then i :: nonzero_from (S i) l' else nonzero_from (S i) l'
  end.
Definition np_nonzero (a : ndarray bool) : list nat := nonzero_from 0 (data a).

(** ** More of Python *)

(** The character ['_'] *)
Definition underscore : Ascii.ascii := Ascii.ascii_of_nat 95.

(** [c in s] for a character and a string *)
Fixpoint has_char (c : Ascii.ascii) (s : string) : bool :=
  match s with
  | EmptyString => false
  | String a s' => Ascii.eqb a c || has_char c s'
  end.

(** [s.split(c)] for a one-character separator *)
Fixpoint str_split (c : Ascii.ascii) (s : string) : list string :=
  match s with
  | EmptyString => [EmptyString]
  | String a s' =>
      if Ascii.eqb a c then EmptyString :: str_split c s'
      else match str_split c s' with
           | h :: t => String a h :: t
           | [] => [String a EmptyString]
           end
  end.

(** [type(o) in [int,float,np.int64,np.float64]] *)
Definition is_number {F : Type} (o : pyobj F) : bool :=
  match o with
  | PyInt _ | PyFloat _ => true
  | _ => false
  end.

(** [type(o) in [list,tuple,np.ndarray]] *)
Definition is_list_tuple_array {F : Type} (o : pyobj F) : bool :=
  match o with
  | PyArr _ => true
  | _ => false
  end.

(** [type(o) is int and o>0] *)
Definition is_positive_int {F : Type} (o : pyobj F) : bool :=
  match o with
  | PyInt n => 0 <? n
  | _ => false
  end.

(** ** Struct : the closed polygon and the reference point *)

Module StructProps.
Section StructProps.
Context {F : Type} `{Numeric F}.

(** The property [Struct.Poly_closed] (l.475-477), from the polygon
stored in [_dgeom['Poly']]. *)
Definition Poly_closed (Poly : ndarray F) : result (ndarray F) :=
np_hstack Poly (np_cols Poly 0 1).

Definition RefPt_msg : string := "RefPt must be of size=2 !".

(** [Struct._checkformat_inputs_dsino] (l.247-254) *)
Definition _checkformat_inputs_dsino (_dgeom : gmap string (pyobj F))
(RefPt nP : pyobj F) : result (ndarray F) :=
py_assert (is_positive_int nP) None;;
py_assert (is_None RefPt || hasattr_iter RefPt) None;;
RefPt ← (if is_None RefPt then Rays.getitem _dgeom "BaryS" else mret RefPt);
let RefPt := ravel (asarray_float RefPt) in
py_assert (size RefPt =? 2) (Some RefPt_msg);;
mret RefPt.

End StructProps.
End StructProps.

(** ** Config : the reference point *)

Module ConfigChecks.
Section ConfigChecks.
Context {F : Type} `{Numeric F}.

(** [Config._checkformat_inputs_dsino] (l.1278-1283) *)
Definition _checkformat_inputs_dsino (RefPt nP : pyobj F) : result (ndarray F) :=
py_assert (is_positive_int nP) None;;
py_assert (hasattr_iter RefPt) None;;
let RefPt := ravel (asarray_float RefPt) in
py_assert (size RefPt =? 2) (Some StructProps.RefPt_msg);;
mret RefPt.

End ConfigChecks.
End ConfigChecks.

(** ** CoilPF : the current *)

Module CoilPF.
Section CoilPF.
Context {F : Type} `{Numeric F}.

Definition _get_keys_dmag : list string :=
["nturns"; "superconducting"; "active"; "I"; "nI"].

(** The part of [CoilPF._reset] that sets [_dmag] (l.960-961) *)
Definition _reset : gmap string (pyobj F) :=
<["nI" := PyInt 0]> (Rays.dict_fromkeys _get_keys_dmag).

Definition I_msg : string := "Arg I must be None, a float or an 1D np.ndarray !".

(** [CoilPF.set_I] (l.1092-1106), on [_dmag] *)
Definition set_I (_dmag : gmap string (pyobj F)) (I : pyobj F)
: result (gmap string (pyobj F)) :=
let C0 := is_None I in
let C1 := is_number I in
let C2 := is_list_tuple_array I in
py_assert (C0 || C1 || C2) (Some I_msg);;
let I := if C1 then PyArr (mk_ndarray [1] (data (asarray_float I)))
       else if C2 then PyArr (ravel (asarray_float I))
       else I in
let _dmag := <["I" := I]> _dmag in
mret (if C0 then <["nI" := PyInt 0]> _dmag
    else <["nI" := PyInt (size (asarray_float I))]> _dmag).

End CoilPF.
End CoilPF.

(** ** Rays : etendues, surfaces, reference point and channels *)

Module RaysChecks.
Section RaysChecks.
Context {F : Type} `{Numeric F}.

(** [val.size==self._dgeom['nRays']] *)
Definition size_is (val : ndarray F) (nRays : pyobj F) : bool :=
match nRays with
| PyInt n => size val =? n
| _ => false
end.

(** [Rays._checkformat_inputs_dES] (l.1951-1959) *)
Definition _checkformat_inputs_dES (_dgeom : gmap string (pyobj F))
(val : pyobj F) : result (pyobj F) :=
if negb (is_None val) then
let C0 := is_number val in
let C1 := hasattr_iter val in
py_assert (C0 || C1) None;;
if C1 then
  let val := ravel (asarray_float val) in
  nRays ← Rays.getitem _dgeom "nRays";
  py_assert (size_is val nRays) None;;
  mret (PyArr val)
else mret val
else mret val.

(** [self._dgeom[k] = v] *)
Definition setitem_dgeom (k : string) (v : pyobj F) : Rays.M unit :=
fun s => (Ok tt, Rays.mk_state (<[k := v]> (Rays._dgeom s))
                 (Rays._dconfig_config s) (Rays.warned s)).

(** [Rays.set_Etendues] and [Rays.set_Surfaces] (l.2231-2237) *)
Definition set_Etendues (val : pyobj F) : Rays.M unit :=
d ← Rays.get_dgeom;
val ← Rays.lift (_checkformat_inputs_dES d val);
setitem_dgeom "Etendues" val.

Definition set_Surfaces (val : pyobj F) : Rays.M unit :=
d ← Rays.get_dgeom;
val ← Rays.lift (_checkformat_inputs_dES d val);
setitem_dgeom "Surfaces" val.

(** The kernels of [_compute_dgeom] and the method [set_dsino], which
ends in the compiled [_GG.LOS_sino], are parameters. *)
Variable LOS_Calc_PInOut_VesStruct :
ndarray F -> ndarray F -> ndarray F -> ndarray F -> ndarray F -> nat ->
list (ndarray F) -> list (ndarray F) -> list nat -> list (ndarray F) ->
string -> result (Rays.PInOut (F:=F)).
Variable _compute_dgeom_extras : Rays.M (F:=F) unit.
Variable set_dsino : pyobj F -> Rays.M (F:=F) unit.

(** [Rays._set_dgeom] in full (l.2239-2248) *)
Definition _set_dgeom (dgeom : Rays.dgeom_arg) (Etendues Surfaces sino_RefPt : pyobj F)
(extra sino : bool) : Rays.M unit :=
dgeom ← Rays.lift (Rays._checkformat_inputs_dgeom dgeom);
Rays.update_dgeom dgeom;;
Rays._compute_dgeom LOS_Calc_PInOut_VesStruct _compute_dgeom_extras extra;;
set_Etendues Etendues;;
set_Etendues Surfaces;;
if sino then set_dsino sino_RefPt else mret tt.

(** [Rays._checkformat_inputs_dsino] (l.2027-2032) *)
Definition _checkformat_inputs_dsino (RefPt : pyobj F) : result (pyobj F) :=
py_assert (is_None RefPt || hasattr_iter RefPt) None;;
if negb (is_None RefPt) then
let RefPt := ravel (asarray_float RefPt) in
py_assert (size RefPt =? 2) (Some StructProps.RefPt_msg);;
mret (PyArr RefPt)
else mret RefPt.

(** The argument [dchans] : [None], a dict (its items in the order of
its keys), or something else. *)
Inductive dchans_arg : Type :=
| DcNone
| DcDict (d : list (string * pyobj F))
| DcOther.

(** The loop of [_checkformat_inputs_dchans] over the keys.  The
assertion compares [arr.size] with [self_dgeom['nRays']] : the name
[self_dgeom] is loaded first, and nothing can be done with its value
when it is not bound.  ([np.asarray] is called without a dtype; the
entries of [arr] are never read.) *)
Fixpoint dchans_loop (keys : list (string * pyobj F))
(dchans : list (string * ndarray F)) : result (list (string * ndarray F)) :=
match keys with
| [] => mret dchans
| (k, v) :: keys' =>
  let arr := ravel (asarray_float v) in
  (if str_in "self_dgeom" Rays.module_globals then Ok tt
   else Raise (NameError "self_dgeom"));;
  dchans_loop keys' (dchans ++ [(k, arr)])%list
end.

(** [Rays._checkformat_inputs_dchans] (l.2034-2042) *)
Definition _checkformat_inputs_dchans (dchans : dchans_arg)
: result (list (string * ndarray F)) :=
py_assert (match dchans with DcOther => false | _ => true end) None;;
let dchans := match dchans with DcDict d => d | _ => [] end in
dchans_loop dchans [].

End RaysChecks.
End RaysChecks.

(** ** Rays.select *)

Module RaysSelect.
Section RaysSelect.
Context {F : Type} `{Numeric F}.

(** The channel arrays of [_dchans] hold values of one kind [V] (names,
or numbers), and [arr == v] compares each entry with a value of that
kind. *)
Context {V : Type} (eqb : V -> V -> bool).

(** The argument [key] : [None], a [str], or something else. *)
Inductive key_arg : Type := KNone | KStr (s : string) | KOther.

(** The argument [val] : a value (of a type in [ltypes]), a list, tuple
or array of such values, a list, tuple or array with an entry of
another type, or something else. *)
Inductive val_arg : Type :=
| ValScalar (v : V)
| ValSeq (l : list V)
| ValBadSeq
| ValOther.

(** The argument [out] : [int], [bool], or something else. *)
Inductive out_arg : Type := OutInt | OutBool | OutOther.

(** An entry of the argument [touch] when it is a list or a tuple: a
[str], an [int], a list, tuple or array (of its entries, only
whether each is an [int] is looked at), or something else. *)
Inductive touch_elem : Type :=
| EStr (s : string)
| EInt (n : nat)
| ESeq (ints : list bool)
| EOther.

(** The argument [touch] : a [str], an [int], a list ([tup = false]) or
a tuple ([tup = true]), or something else. *)
Inductive touch_arg : Type :=
| TStr (s : string)
| TInt (n : nat)
| TSeq (tup : bool) (l : list touch_elem)
| TOther.

(** What [select] returns: a boolean array, or the indices. *)
Inductive selection : Type :=
| SelBool (ind : ndarray bool)
| SelInt (ind : list nat).

(** [arr == v] *)
Definition arr_eq (arr : list V) (v : V) : list bool :=
(fun x => eqb x v) <$> arr.

(** The branch [key is not None] (l.2569-2585) *)
Definition select_key (_dchans : gmap string (list V))
(key : key_arg) (val : val_arg) (log : string) : result (ndarray bool) :=
py_assert (match key with
         | KStr s => bool_decide (is_Some (_dchans !! s))
         | _ => false
         end) None;;
let C0 := match val with ValScalar _ => true | _ => false end in
let C1 := match val with ValSeq _ | ValBadSeq => true | _ => false end in
py_assert (C0 || C1) None;;
val ← (match val with
     | ValScalar v => Ok [v]
     | ValSeq l => Ok l
     | ValBadSeq => py_assert false None;; Ok []
     | ValOther => Ok []
     end : result (list V));
arr ← (match key with
     | KStr s => from_option Ok (Raise (KeyError s)) (_dchans !! s)
     | _ => Raise TypeError
     end : result (list V));
ind ← np_vstack (arr_eq arr <$> (val : list V));
mret (if String.eqb log "any" then any_axis0 ind
    else if String.eqb log "all" then all_axis0 ind
    else np_lnot (any_axis0 ind)).

(** [touch[i] = v] : tuples do not support it. *)
Definition touch_setitem (tup : bool) (l : list touch_elem) (i : nat) (v : touch_elem)
: result (list touch_elem) :=
if tup then Raise TypeError else mret (<[i := v]> l).

Definition is_lint (e : option touch_elem) : bool :=
match e with
| Some (EInt _) => true
| _ => false
end.

Definition is_larr_of_lint (e : option touch_elem) : bool :=
match e with
| Some (ESeq ints) => forallb (fun b => b) ints
| _ => false
end.

Definition is_str_with_underscore (e : option touch_elem) : bool :=
match e with
| Some (EStr s) => has_char underscore s
| _ => false
end.

(** The branch [touch is not None] (l.2587-2627).  [lS] is what
evaluating [self.lStruct_compute] gives, each structure as its
[(Id.Cls, Id.Name)], and [nRays] what evaluating [self.nRays] gives.
In the loops that end the branch, [for n in len(touch[i])] asks for
the length of [touch[0]] and then iterates over that length. *)
Definition select_touch (lS : result (list (string * string))) (nRays : result nat)
(touch : touch_arg) (log : string) : result (ndarray bool) :=
let C0 := match touch with TStr s => has_char underscore s | _ => false end in
let C1 := match touch with TInt _ => true | _ => false end in
let C2 := match touch with
        | TSeq _ l => bool_decide (length l ∈ [2; 3])
        | _ => false
        end in
py_assert (C0 || C1 || C2) None;;
touch ← (match touch with
       | TStr s => Ok (false, [EStr s])
       | TInt n => Ok (false, [EInt n])
       | TSeq tup l =>
           let C0 := is_str_with_underscore (l !! 0) in
           let C1a := is_lint (l !! 1) in
           let C1b := is_larr_of_lint (l !! 1) in
           py_assert (C0 && (C1a || C1b)) None;;
           l ← (if C1a then touch_setitem tup l 1 (ESeq [true]) else mret l);
           l ← (if length l =? 3 then
                  let C2a := is_lint (l !! 2) in
                  let C2b := is_larr_of_lint (l !! 2) in
                  py_assert (C2a || C2b) None;;
                  if C2a then touch_setitem tup l 2 (ESeq [true]) else mret l
                else mret l);
           mret (tup, l)
       | TOther => Raise (AssertionError None)
       end : result (bool * list touch_elem));
let '(tup, touch) := touch in
let ntouch := length touch in
touch ← (match touch !! 0 with
       | Some (EStr s) =>
           lS ← lS;
           k ← (match str_split underscore s with
                | [k0; k1] => Ok (k0, k1)
                | _ => Raise ValueError
                end : result (string * string));
           let ind := filter (fun ii => bool_decide (lS !! ii = Some k))
                             (seq 0 (length lS)) in
           py_assert (length ind =? 1) None;;
           touch_setitem tup touch 0 (EInt (hd 0 ind))
       | _ => Ok touch
       end : result (list touch_elem));
nRays ← nRays;
let ind := zeros_bool [ntouch; nRays] in
ind ← (match touch with
     | [] => Ok ind
     | _ :: _ => Raise TypeError
     end : result (ndarray bool));
let ind := all_axis0 ind in
mret (if String.eqb log "not" then np_lnot ind else ind).

(** [Rays.select] (l.2516-2630) : [_dgeom] and [_dchans] are those of
the instance. *)
Definition select (_dgeom : gmap string (pyobj F)) (_dchans : gmap string (list V))
(lS : result (list (string * string)))
(key : key_arg) (val : val_arg) (touch : option touch_arg)
(log : string) (out : out_arg) : result selection :=
py_assert (match out with OutOther => false | _ => true end) None;;
py_assert (str_in log ["any"; "all"; "not"]) None;;
let C := [match key with KNone => true | _ => false end;
        match touch with None => true | _ => false end] in
py_assert (1 <=? np_sum_bool C) None;;
let nRays := Rays.getitem _dgeom "nRays" ≫= Rays.as_int in
ind ← (if np_sum_bool C =? 2 then
       n ← nRays;
       mret (np_ones_bool n)
     else
       match key, touch with
       | KNone, Some touch => select_touch lS nRays touch log
       | KNone, None => Raise (NameError "ind")
       | _, _ => select_key _dchans key val log
       end);
mret (match out with
    | OutInt => SelInt (np_nonzero ind)
    | _ => SelBool ind
    end).

(** What the branch of the key asks of one entry [x] of the channel,
for the values [vals] : to equal any of them, all of them, or none
of them. *)
Definition matching (log : string) (vals : list V) (x : V) : bool :=
if String.eqb log "any" then existsb (eqb x) vals
else if String.eqb log "all" then forallb (eqb x) vals
else negb (existsb (eqb x) vals).

End RaysSelect.
End RaysSelect.

(** ** _Rays_check_fromdict *)

Module FromDict.

(** A value of the dictionary, as far as the check looks at it: [None],
  a dict, a list, the types [dict] and [list] themselves, or a value
  of another type (whose [str(type(v))] is kept for the message) that
  equals neither [None] nor a type. *)
Inductive value : Type :=
| VNone
| VDict
| VList
| VTypeDict
| VTypeList
| VOther (type_str : string).

(** The right-hand sides of [k0] : a type, or a list of [None] and a
  type.  The loop [for kk in k0] visits the keys in the order of the
  dict literal. *)
Inductive expected : Type :=
| IsDict
| NoneOrDict
| NoneOrList.

Definition k0 : list (string * expected) :=
[("Id", IsDict); ("geom", IsDict); ("sino", IsDict);
 ("dchans", NoneOrDict); ("Ves", NoneOrDict); ("LStruct", NoneOrList)].

(** [str(type(v))] *)
Definition type_str (v : value) : string :=
match v with
| VNone => "<class 'NoneType'>"
| VDict => "<class 'dict'>"
| VList => "<class 'list'>"
| VTypeDict | VTypeList => "<class 'type'>"
| VOther s => s
end.

(** [typ is e or typ in e or v in e], for [typ = type(v)] : the test
  [typ in dict] is one no type supports. *)
Definition matches (v : value) (e : expected) : result bool :=
match e with
| IsDict =>
    match v with
    | VDict => Ok true
    | _ => Raise TypeError
    end
| NoneOrDict =>
    Ok (match v with
        | VDict | VNone | VTypeDict => true
        | _ => false
        end)
| NoneOrList =>
    Ok (match v with
        | VList | VNone | VTypeList => true
        | _ => false
        end)
end.

Definition missing_msg (kk : string) : string := kk +:+ " must be a key of fromdict".
Definition wrong_msg (kk : string) (v : value) : string :=
"Wrong type of fromdict[" +:+ kk +:+ "]: " +:+ type_str v.

Fixpoint check_loop (fd : gmap string value) (ks : list (string * expected))
: result unit :=
match ks with
| [] => mret tt
| (kk, e) :: ks' =>
    py_assert (bool_decide (is_Some (fd !! kk))) (Some (missing_msg kk));;
    v ← from_option Ok (Raise (KeyError kk)) (fd !! kk);
    C ← matches v e;
    py_assert C (Some (wrong_msg kk v));;
    check_loop fd ks'
end.

(** [_Rays_check_fromdict(fd)] (l.3113-3123) : [fd] is [None] here when
  it is not a dict. *)
Definition _Rays_check_fromdict (fd : option (gmap string value)) : result unit :=
py_assert (bool_decide (is_Some fd)) (Some "Arg from dict must be a dict !");;
match fd with
| Some fd => check_loop fd k0
| None => Raise TypeError
end.

End FromDict.

(** ** Struct._set_dgeom and the array order *)

Module StructSet.
Section StructSet.
Context {F : Type} `{Numeric F}.

(** [_comp._Struct_set_Poly(Poly, Lim=, arrayorder=, Type=, Clock=)]
is not part of the sources at hand: it is a parameter here, and
returns the dictionary of the computed geometry. *)
Variable _Struct_set_Poly :
ndarray F -> ndarray F -> string -> string -> pyobj F ->
result (gmap string (pyobj F)).

(** The [_dgeom] of a structure: what [_Struct_set_Poly] computed, and
the two entries [_set_dgeom] adds. *)
Record dgeom : Type := mk_dgeom
{ computed : gmap string (pyobj F);
arrayorder : string;
mobile : pyobj F }.

(** [Struct._set_dgeom(Poly, Lim, mobile, Clock, arrayorder, sino=False)]
(l.328-341) on an instance of class [c] whose [Id.Type] is
[Id_Type] : the check is called without the argument [arrayorder],
whose name is then bound again to what the check returns. *)
Definition _set_dgeom (c : cls) (Id_Type : string)
(Poly Lim mobile Clock : pyobj F) (arrayorder : string) : result dgeom :=
out ← checkformat_inputs_dgeom c Poly Lim mobile (Some Id_Type) Clock None;
let '(Poly, Lim, Type_, arrayorder) := out in
dgeom ← _Struct_set_Poly Poly Lim arrayorder Id_Type Clock;
mret (mk_dgeom dgeom arrayorder mobile).

(** [isMobile()] (l.505-507, 870-872 and 923-924) on an instance of
class [c] : [Struct] returns the stored flag, [Ves] asserts that it
is [False] and returns [False], and [PFC] calls the method of
[Struct] without returning what it gives. *)
Definition isMobile (c : cls) (self : dgeom) : result (pyobj F) :=
match c with
| CVes | CPlasmaDomain =>
  py_assert (is_False (mobile self)) None;;
  mret (PyBool false)
| CPFC =>
  let _ := mobile self in
  mret PyNone
| CStruct | CCoilPF | CCoilCS => mret (mobile self)
end.

End StructSet.
End StructSet.

(** ** Ordered arithmetic

    The comparisons and the sign change of numpy, for [_poly_utils]. *)

Class Ordered (F : Type) `{Numeric F} : Type :=
  { fneg : F -> F;
    fmaximum : F -> F -> F;
    fminimum : F -> F -> F }.

(** [np.maximum] and [np.minimum] return their first argument when it
    is NaN or strictly on the required side of the second, and the
    second otherwise, which makes them return NaN as soon as an argument
    is NaN; of two entries that compare equal, such as the two zeros,
    they return the second. *)
#[global] Instance float64_ordered : Ordered PrimFloat.float :=
  {| fneg := PrimFloat.opp;
     fmaximum := fun a b =>
       if PrimFloat.is_nan a then a else if PrimFloat.ltb b a then a else b;
     fminimum := fun a b =>
       if PrimFloat.is_nan a then a else if PrimFloat.ltb a b then a else b |}.

Module ExactOrd.
Import Reals Exact.
Local Open Scope R_scope.

(** [a <= b] on the extended reals; false when one of them is NaN. *)
Definition le (a b : ereal) : bool :=
match a, b with
| NaN, _ | _, NaN => false
| NInf, _ | _, PInf => true
| PInf, _ | _, NInf => false
| Fin x, Fin y => if Rle_dec x y then true else false
end.

#[global] Instance exact_ordered : Ordered ereal :=
{| fneg := neg;
   fmaximum := fun a b => if le b a || is_nan a then a else b;
   fminimum := fun a b => if le a b || is_nan a then a else b |}.

End ExactOrd.

(** ** _poly_utils *)

Module PolyUtils.

(** [str(n)] for a natural number *)
Definition str_nat (n : nat) : string :=
DecimalString.NilEmpty.string_of_uint (Nat.to_uint n).

(** [str(shp)] for a tuple of natural numbers *)
Fixpoint str_items (shp : list nat) : string :=
match shp with
| [] => ""
| [n] => str_nat n
| n :: shp' => str_nat n +:+ ", " +:+ str_items shp'
end.
Definition str_shape (shp : list nat) : string :=
match shp with
| [n] => "(" +:+ str_nat n +:+ ",)"
| _ => "(" +:+ str_items shp +:+ ")"
end.

Definition dim_msg (shp : list nat) : string :=
"Poly should be of dim 2 (expected shape=(2,Npoints), got " +:+ str_shape shp +:+ ")".

Section PolyUtils.
Context {F : Type} `{Ordered F}.

(** [a.max()] and [a.min()] of the entries [l] of an array *)
Definition np_max (l : list F) : result F :=
match l with
| [] => Raise ValueError
| x :: l' => Ok (foldl fmaximum x l')
end.
Definition np_min (l : list F) : result F :=
match l with
| [] => Raise ValueError
| x :: l' => Ok (foldl fminimum x l')
end.

(** The entries of [a[i,:]], for an array of two dimensions or more *)
Definition entries_at (a : ndarray F) (i : nat) : result (list F) :=
if ndim a <? 2 then Raise IndexError
else Ok (row (foldr Nat.mul 1 (tail (shape a))) (data a) i).

(** [get_bbox_poly_extruded(lpoly)] (l.8-58) ; the result is
[(xmin, ymin, zmin, xmax, ymax, zmax)]. *)
Definition get_bbox_poly_extruded (lpoly : ndarray F)
: result (F * F * F * F * F * F) :=
dim ← from_option Ok (Raise IndexError) (shape lpoly !! 0);
py_assert (dim =? 2) (Some (dim_msg (shape lpoly)));;
ymax ← entries_at lpoly 0 ≫= np_max;
let ymin := fadd (fneg ymax) fzero in
let xmin := fadd (fneg ymax) fzero in
let xmax := fadd ymax fzero in
zmin ← entries_at lpoly 1 ≫= np_min;
zmax ← entries_at lpoly 1 ≫= np_max;
mret (xmin, ymin, zmin, xmax, ymax, zmax).

End PolyUtils.
End PolyUtils.

(** ** Rays : construction *)

Module RaysInit.
Section RaysInit.
Context {F : Type} `{Numeric F}.

(** The kernel and the helpers of [_compute_dgeom], as in [Rays]. *)
Variable LOS_Calc_PInOut_VesStruct :
ndarray F -> ndarray F -> ndarray F -> ndarray F -> ndarray F -> nat ->
list (ndarray F) -> list (ndarray F) -> list nat -> list (ndarray F) ->
string -> result (Rays.PInOut (F:=F)).
Variable _compute_dgeom_extras : Rays.M (F:=F) unit.

(** What [set_dsino] does once it has read [self.config.Id.Type]
(l.2273-2287) : with a reference point, [config.set_dsino] and the
compiled [_GG.LOS_sino], then [_compute_dsino_extra]; all of it
reads [_dgeom] and writes to [_dsino] and to the configuration.  It
is a parameter. *)
Variable sino_tail : config F -> pyobj F -> Rays.M (F:=F) unit.

(** [Rays._set_dmisc(color)] (l.2300-2301) checks the colour with
matplotlib and stores it in [_dmisc] and [_dplot] : a parameter. *)
Variable _set_dmisc : Rays.M (F:=F) unit.

(** [Rays.set_dconfig(config, calcdgeom=False)] (l.2109-2113), for a
[Config] instance that has a plasma domain, which is what
[_checkformat_inputs_dconfig] asks for. *)
Definition set_dconfig (config : config F) : Rays.M (F:=F) unit :=
fun s => (Ok tt, Rays.mk_state (Rays._dgeom s) (Some config) (Rays.warned s)).

(** [Rays.set_dsino(RefPt)] (l.2269-2287).  The checked reference point
goes to [_dsino], which is not part of the state; then
[self.config.Id.Type] is read, where [self.config] is
[self._dconfig['config']] : [None] has no attribute [Id]. *)
Definition set_dsino (RefPt : pyobj F) : Rays.M (F:=F) unit :=
RefPt ← Rays.lift (RaysChecks._checkformat_inputs_dsino RefPt);
cfg ← Rays.get_config;
match cfg with
| None => Rays.lift (Raise AttributeError)
| Some config => sino_tail config RefPt
end.

(** [Rays.set_dchans(dchans)] (l.2289-2291) : the checked channels go to
[_dchans], which is not part of the state. *)
Definition set_dchans (dchans : RaysChecks.dchans_arg (F:=F)) : Rays.M (F:=F) unit :=
Rays.lift (RaysChecks._checkformat_inputs_dchans dchans);;
mret tt.

(** [Rays._set_dgeom] (l.2239-2248) with [set_dsino] as above. *)
Definition _set_dgeom (dgeom : Rays.dgeom_arg) (Etendues Surfaces sino_RefPt : pyobj F)
(extra sino : bool) : Rays.M (F:=F) unit :=
RaysChecks._set_dgeom LOS_Calc_PInOut_VesStruct _compute_dgeom_extras set_dsino
dgeom Etendues Surfaces sino_RefPt extra sino.

(** [Rays._init] (l.2089-2103), which the constructor runs on the
instance [_reset] has prepared: the configuration is set without
computing anything, then the geometry with [sino=True] and the
default [extra=True], then the channels and the colour. *)
Definition _init (dgeom : Rays.dgeom_arg) (config : config F)
(Etendues Surfaces sino_RefPt : pyobj F) (dchans : RaysChecks.dchans_arg (F:=F))
: Rays.M (F:=F) unit :=
set_dconfig config;;
_set_dgeom dgeom Etendues Surfaces sino_RefPt true true;;
set_dchans dchans;;
_set_dmisc.

End RaysInit.
End RaysInit.

(** A method leaves alone the entries of [_dgeom] under the keys [ks],
    whether it returns or raises. *)
Definition keeps {F : Type} `{Numeric F} {A : Type} (ks : list string)
    (m : Rays.M (F:=F) A) : Prop :=
  forall s r s', m s = (r, s') ->
    forall k, k ∈ ks -> Rays._dgeom s' !! k = Rays._dgeom s !! k.

(** The keys of the geometry given at construction. *)
Definition given_keys : list string := ["D"; "u"; "pinhole"; "nRays"].

(** *** Lengths of binary64 vectors *)

(** The length numpy computes for a vector: [np.sqrt(np.sum(v**2))]. *)
Definition computed_norm {F : Type} `{Numeric F} (v : list F) : F :=
  fsqrt (fsum ((fun y => fmul y y) <$> v)).

(** The value of a finite binary64 number, as [(m, e)] for [m * 2^e]. *)
Definition dyadic (x : PrimFloat.float) : option (Z * Z) :=
  match FloatOps.Prim2SF x with
  | SpecFloat.S754_zero _ => Some (0, 0)%Z
  | SpecFloat.S754_finite s m e => Some (if s then Z.neg m else Z.pos m, e)
  | _ => None
  end.

(** Whether the squares of the entries of a vector of finite binary64
    numbers add up to 1 exactly, that is, whether the vector has length 1
    over the reals: with [E] the least of 0 and of the exponents of the
    squares, the sum is [N * 2^E] for the integer [N] computed here. *)
Definition unit_length (v : list PrimFloat.float) : option bool :=
  ds ← mapM dyadic v;
  let E := foldr Z.min 0%Z ((fun d : Z * Z => 2 * d.2)%Z <$> ds) in
  let N := foldr Z.add 0%Z ((fun d : Z * Z => d.1 * d.1 * 2 ^ (2 * d.2 - E))%Z <$> ds) in
  Some (N =? 2 ^ (- E))%Z.

(** *** The small camera, built in full *)

Module Built.

(** Helpers of [_compute_dgeom] that store the given values under the
  keys [_compute_dgeom_kRMin] and [_compute_dgeom_extra1] write. *)
Definition extras (kRMin PkMin PkMax PRMin RMin : pyobj float)
: Rays.M (F:=float) unit :=
Rays.update_dgeom
  (<["kRMin" := kRMin]> (<["PkMin" := PkMin]> (<["PkMax" := PkMax]>
     (<["PRMin" := PRMin]> (<["RMin" := RMin]> ∅))))).

(** Without a reference point [set_dsino] computes nothing, and the
  colour is kept out of the state. *)
Definition sino_tail (c : config float) (RefPt : pyobj float)
: Rays.M (F:=float) unit := mret tt.
Definition _set_dmisc : Rays.M (F:=float) unit := mret tt.

(** [_init] on a reset instance, for the two origins of the example and
  the direction [u], in the configuration of the example, with no
  etendues, surfaces, reference point and channels; the kernel answers
  [kMin = (1, 1.5)] and [kMax = (3, 4)]. *)
Definition camera (u : ndarray float) : result unit * Rays.state (F:=float) :=
RaysInit._init (Example.kernel [1; 1.5]%float [3; 4]%float)
  (extras PyNone PyNone PyNone PyNone PyNone) sino_tail _set_dmisc
  (Rays.DgTuple [PyArr Example.D2; PyArr u]) Example.conf
  PyNone PyNone PyNone RaysChecks.DcNone
  (Rays._reset Example.fresh).

(** The same with a pinhole in place of the directions. *)
Definition pinhole_camera (p : ndarray float) : result unit * Rays.state (F:=float) :=
RaysInit._init (Example.kernel [1; 1.5]%float [3; 4]%float)
  (extras PyNone PyNone PyNone PyNone PyNone) sino_tail _set_dmisc
  (Rays.DgDict (<["D" := PyArr Example.D2]> (<["pinhole" := PyArr p]> ∅)))
  Example.conf PyNone PyNone PyNone RaysChecks.DcNone
  (Rays._reset Example.fresh).

End Built.

(** * Properties *)

(** ** Results *)

Lemma is_Ok_not_Raise {A} (r : result A) : is_Ok r -> ~ is_Raise r.
Proof. intros [a ->] [e He]. discriminate. Qed.

Lemma result_cases {A} (r : result A) : is_Ok r \/ is_Raise r.
Proof. destruct r; [left | right]; eexists; reflexivity. Qed.

Lemma bind_assert {A} (c : bool) msg (k : result A) :
  (py_assert c msg;; k) = if c then k else Raise (AssertionError msg).
Proof. destruct c; reflexivity. Qed.

Lemma bind_Ok {A B} (a : A) (k : A -> result B) : (Ok a ≫= k) = k a.
Proof. reflexivity. Qed.

Lemma bind_Raise {A B} e (k : A -> result B) : (Raise e ≫= k) = Raise e.
Proof. reflexivity. Qed.

Lemma bind_is_Raise {A B} (r : result A) (k : A -> result B) :
  is_Raise r -> is_Raise (r ≫= k).
Proof. intros [e ->]. exists e. reflexivity. Qed.

Lemma bind_inv_Ok {A B} (r : result A) (k : A -> result B) b :
  r ≫= k = Ok b -> exists a, r = Ok a /\ k a = Ok b.
Proof. destruct r as [a|e]; [eauto | discriminate]. Qed.

Lemma assert_inv_Ok {A} (c : bool) msg (k : result A) a :
  (py_assert c msg;; k) = Ok a -> c = true /\ k = Ok a.
Proof. rewrite bind_assert. destruct c; [auto | discriminate]. Qed.

(** Peels the assertions and binds off a hypothesis stating that a
    computation succeeded. *)
Ltac inv_Ok H :=
  repeat
    (let Hc := fresh "Hc" in
     first
       [ apply assert_inv_Ok in H as [Hc H]
       | let a := fresh "a" in apply bind_inv_Ok in H as (a & Hc & H) ]).

(** ** Arrays *)

Lemma elem_of_pair {A} (x a b : A) : x ∈ [a; b] <-> x = a \/ x = b.
Proof. rewrite !elem_of_cons, elem_of_nil. tauto. Qed.

Section ArrayFacts.
Context {A : Type}.

Lemma size_shape1 (a : ndarray A) n : shape a = [n] -> size a = n.
Proof. unfold size. intros ->. simpl. lia. Qed.

Lemma size_shape2 (a : ndarray A) r c : shape a = [r; c] -> size a = r * c.
Proof. unfold size. intros ->. simpl. lia. Qed.

Lemma ndim_2_inv (a : ndarray A) : ndim a = 2 -> exists r c, shape a = [r; c].
Proof.
  unfold ndim. destruct (shape a) as [|r [|c [|]]]; simpl; try discriminate.
  eauto.
Qed.

Lemma ndim_1_inv (a : ndarray A) : ndim a = 1 -> exists n, shape a = [n].
Proof.
  unfold ndim. destruct (shape a) as [|n [|]]; simpl; try discriminate.
  eauto.
Qed.

Lemma in_shape_true n (a : ndarray A) : in_shape n a = true <-> n ∈ shape a.
Proof. unfold in_shape. rewrite bool_decide_eq_true. reflexivity. Qed.

Lemma shape_ne_false k n (a : ndarray A) :
  shape_ne k n a = false <-> shape a !! k = Some n.
Proof.
  unfold shape_ne. rewrite negb_false_iff, bool_decide_eq_true. reflexivity.
Qed.

Lemma shape_T (a : ndarray A) r c : shape a = [r; c] -> shape (T a) = [c; r].
Proof. unfold T. intros ->. reflexivity. Qed.

Lemma size_T (a : ndarray A) : ndim a = 2 -> size (T a) = size a.
Proof.
  intros (r & c & Hs)%ndim_2_inv.
  rewrite (size_shape2 _ _ _ (shape_T _ _ _ Hs)), (size_shape2 _ _ _ Hs). lia.
Qed.

(** Filtering a range through a function that succeeds on it. *)
Lemma omap_seq_lookup {B} (f : nat -> option B) s n i :
  (forall k, s <= k < s + n -> is_Some (f k)) ->
  i < n -> omap f (seq s n) !! i = f (s + i).
Proof.
  revert s i. induction n as [|n IH]; intros s i Hf Hi; [lia|].
  simpl. destruct (Hf s ltac:(lia)) as [x Hx]. rewrite Hx.
  destruct i as [|i]; simpl.
  - rewrite Nat.add_0_r. symmetry. exact Hx.
  - rewrite IH by (try (intros; apply Hf); lia). f_equal. lia.
Qed.

Lemma omap_seq_length {B} (f : nat -> option B) s n :
  (forall k, s <= k < s + n -> is_Some (f k)) ->
  length (omap f (seq s n)) = n.
Proof.
  revert s. induction n as [|n IH]; intros s Hf; [reflexivity|].
  simpl. destruct (Hf s ltac:(lia)) as [x ->]. simpl.
  rewrite IH; [reflexivity|]. intros; apply Hf; lia.
Qed.

Lemma get2_is_Some r c (d : list A) i j :
  length d = r * c -> i < r -> j < c -> is_Some (get2 c d i j).
Proof.
  intros Hl Hi Hj. unfold get2. apply lookup_lt_is_Some. nia.
Qed.

Lemma column_lookup r c (d : list A) i j :
  length d = r * c -> i < r -> j < c -> column r c d j !! i = get2 c d i j.
Proof.
  intros Hl Hi Hj. unfold column.
  rewrite omap_seq_lookup; [reflexivity | | lia].
  intros k Hk. apply (get2_is_Some r); [assumption | lia | assumption].
Qed.

Lemma column_length r c (d : list A) j :
  length d = r * c -> j < c -> length (column r c d j) = r.
Proof.
  intros Hl Hj. unfold column. apply omap_seq_length.
  intros k Hk. apply (get2_is_Some r); [assumption | lia | assumption].
Qed.

(** Entry [j] of row [i] of a list of [n] rows of length [c]. *)
Lemma lookup_rows (f : nat -> list A) n c i j :
  (forall k, k < n -> length (f k) = c) ->
  i < n -> j < c ->
  get2 c (mjoin (f <$> seq 0 n)) i j = f i !! j.
Proof.
  intros Hlen Hi Hj. unfold get2.
  assert (Hall : Forall (fun l => length l = c) (f <$> seq 0 n)).
  { apply Forall_fmap, Forall_forall. intros k Hk%elem_of_seq. apply Hlen. lia. }
  assert (Hrow : (f <$> seq 0 n) !! i = Some (f i)).
  { rewrite list_lookup_fmap, lookup_seq_lt by lia. reflexivity. }
  destruct (f i !! j) as [x|] eqn:Hx.
  - apply (join_lookup_Some_same_length' c); [assumption | assumption |].
    exists (f i). split; assumption.
  - apply lookup_ge_None in Hx. rewrite (Hlen i Hi) in Hx. lia.
Qed.

(** The transpose of a well-formed (r,c) array holds at (j,i) what the
    array holds at (i,j). *)
Lemma T_get2 (a : ndarray A) r c i j :
  shape a = [r; c] -> wf a -> i < r -> j < c ->
  get2 r (data (T a)) j i = get2 c (data a) i j.
Proof.
  intros Hs Hwf Hi Hj. unfold wf in Hwf. rewrite (size_shape2 _ _ _ Hs) in Hwf.
  unfold T. rewrite Hs. simpl.
  rewrite (lookup_rows _ c r) by
    (try (intros; apply column_length); assumption || lia).
  apply column_lookup; assumption.
Qed.

End ArrayFacts.

(** ** Struct and Ves : the check of the inputs *)

Section StructFacts.
Context {F : Type} `{Numeric F}.


Lemma checkformat_Lim_Ok (a L : ndarray F) :
  Struct.checkformat_Lim a = Ok L <->
  (ndim a = 1 /\ (size a = 0 \/ size a = 2) \/ ndim a = 2)
  /\ (2 ∈ shape a \/ 0 ∈ shape a)
  /\ L = Lim_normal_form a.
Proof.
  unfold Struct.checkformat_Lim, Lim_normal_form. rewrite bind_assert.
  destruct (bool_decide (ndim a ∈ [1; 2])) eqn:Hnd; simpl.
  2: { apply bool_decide_eq_false in Hnd. split; [discriminate|].
       intros ([[Hn _]|Hn] & _); exfalso; apply Hnd, elem_of_pair; auto. }
  apply bool_decide_eq_true, elem_of_pair in Hnd.
  destruct (in_shape 2 a || in_shape 0 a) eqn:Hin; simpl.
  2: { apply orb_false_iff in Hin as [H2 H0]. split; [discriminate|].
       intros (_ & [Hi|Hi] & _); exfalso; apply in_shape_true in Hi; congruence. }
  apply orb_true_iff in Hin. rewrite !in_shape_true in Hin.
  destruct (ndim a =? 1) eqn:H1.
  - apply Nat.eqb_eq in H1. rewrite bind_assert.
    destruct (bool_decide (size a ∈ [0; 2])) eqn:Hsz.
    + apply bool_decide_eq_true, elem_of_pair in Hsz.
      split; [intros [= <-]|intros (_ & _ & ->)]; auto.
    + apply bool_decide_eq_false in Hsz. split; [discriminate|].
      intros ([[_ [Hs|Hs]]|Hn] & _); exfalso; [| |lia]; apply Hsz, elem_of_pair; auto.
  - apply Nat.eqb_neq in H1.
    assert (ndim a = 2) by (destruct Hnd; [contradiction|assumption]).
    split; [intros [= <-]|intros (_ & _ & ->)]; auto.
Qed.

Lemma size_Lim_normal_form (a : ndarray F) :
  (ndim a = 1 \/ ndim a = 2) -> size (Lim_normal_form a) = size a.
Proof.
  intros Hnd. unfold Lim_normal_form.
  destruct (ndim a =? 1) eqn:H1.
  - destruct (size a =? 2) eqn:H2; [|reflexivity].
    apply Nat.eqb_eq in H2. rewrite H2. reflexivity.
  - apply Nat.eqb_neq in H1. destruct (shape_ne 1 2 a); [|reflexivity].
    apply size_T. lia.
Qed.




Lemma Struct_checkformat_Ok Poly Lim mobile Type_ Clock arrayorder P L T' o :
  Struct._checkformat_inputs_dgeom Poly Lim mobile Type_ Clock arrayorder
    = Ok (P, L, T', o) <->
  others_ok Lim mobile Type_ Clock arrayorder L
  /\ hasattr_iter Poly = true
  /\ ndim (asarray_float Poly) = 2 /\ 2 ∈ shape (asarray_float Poly)
  /\ P = Poly_normal_form (asarray_float Poly)
  /\ T' = default Struct.ddef_Type Type_
  /\ o = default Struct.ddef_arrayorder arrayorder.
Proof.
  unfold Struct._checkformat_inputs_dgeom, others_ok, Lim_array, Poly_normal_form.
  cbv zeta. split.
  - intros Hok. inv_Ok Hok.
    apply andb_true_iff in Hc2 as [_ Hit].
    apply andb_true_iff in Hc3 as [Hnd Hin].
    apply Nat.eqb_eq in Hnd. apply in_shape_true in Hin.
    injection Hok as <- <- <- <-.
    repeat split; try assumption.
    + destruct Lim; simpl in *; auto.
    + intros Hlin. rewrite Hlin in Hc7. simpl in Hc7. unfold py_assert in Hc7.
      destruct (0 <? size a) eqn:Hs; [|discriminate].
      apply Nat.ltb_lt in Hs. exact Hs.
  - intros ((HC & Hm & Ho & HT & HL & HLim & Hlin) & Hit & Hnd & Hin & -> & -> & ->).
    rewrite !bind_assert, HC, Hm, Ho, HT, Hit.
    assert (is_None Poly = false) as -> by (destruct Poly; simpl in *; congruence).
    simpl. apply Nat.eqb_eq in Hnd. apply in_shape_true in Hin.
    rewrite Hnd, Hin. simpl.
    assert (hasattr_iter (if is_None Lim then PyArr Struct.ddef_Lim else Lim) = true)
      as -> by (destruct HL as [->|HL]; [reflexivity|destruct Lim; simpl in *; congruence]).
    rewrite HLim. simpl.
    destruct (String.eqb (default Struct.ddef_Type Type_) "Lin") eqn:E.
    + apply String.eqb_eq in E. rewrite bind_assert.
      apply Hlin, Nat.ltb_lt in E. rewrite E. reflexivity.
    + reflexivity.
Qed.

(** The check of [Ves] succeeds when that of [Struct] does, [mobile]
    is [False] and a toroidal vessel has no [Lim]. *)
Lemma Ves_checkformat_Ok Poly Lim mobile Type_ Clock arrayorder P L T' o :
  Ves._checkformat_inputs_dgeom Poly Lim mobile Type_ Clock arrayorder
    = Ok (P, L, T', o) <->
  Struct._checkformat_inputs_dgeom Poly Lim mobile Type_ Clock arrayorder
    = Ok (P, L, T', o)
  /\ is_False mobile = true
  /\ (T' = "Tor" -> size L = 0).
Proof.
  unfold Ves._checkformat_inputs_dgeom.
  destruct (Struct._checkformat_inputs_dgeom _ _ _ _ _ _) as [[[[P1 L1] T1] o1]|e];
    simpl.
  2: { split; [discriminate|intros [? _]; discriminate]. }
  rewrite bind_assert. destruct (is_False mobile); simpl.
  2: { split; [discriminate|intros (_ & ? & _); discriminate]. }
  destruct (String.eqb T1 "Tor") eqn:E.
  - apply String.eqb_eq in E. rewrite bind_assert.
    destruct (size L1 =? 0) eqn:Hs.
    + apply Nat.eqb_eq in Hs. split.
      * intros [= <- <- <- <-]. auto.
      * intros ([= <- <- <- <-] & _). reflexivity.
    + apply Nat.eqb_neq in Hs. split; [discriminate|].
      intros ([= <- <- <- <-] & _ & Hz). specialize (Hz E). contradiction.
  - apply String.eqb_neq in E. split.
    + intros [= <- <- <- <-]. repeat split; auto. intros; contradiction.
    + intros ([= <- <- <- <-] & _). reflexivity.
Qed.

Lemma Ves_checkformat_Struct Poly Lim mobile Type_ Clock arrayorder out :
  Ves._checkformat_inputs_dgeom Poly Lim mobile Type_ Clock arrayorder = Ok out ->
  Struct._checkformat_inputs_dgeom Poly Lim mobile Type_ Clock arrayorder = Ok out.
Proof.
  destruct out as [[[P L] T'] o]. intros Hok%Ves_checkformat_Ok. tauto.
Qed.

(** Whatever the class, an accepted call is accepted by [Struct]'s check,
    with the same result. *)
Lemma checkformat_Struct c Poly Lim mobile Type_ Clock arrayorder out :
  checkformat_inputs_dgeom c Poly Lim mobile Type_ Clock arrayorder = Ok out ->
  Struct._checkformat_inputs_dgeom Poly Lim mobile Type_ Clock arrayorder = Ok out.
Proof.
  destruct c; simpl; auto using Ves_checkformat_Struct.
Qed.

End StructFacts.

Section NormalForms.
Context {F : Type} `{Numeric F}.

Lemma Poly_normal_form_fix (a : ndarray F) n :
  shape a = [2; n] -> Poly_normal_form a = a.
Proof.
  intros Hs. unfold Poly_normal_form.
  assert (shape_ne 0 2 a = false) as ->; [|reflexivity].
  apply shape_ne_false. rewrite Hs. reflexivity.
Qed.

Lemma Poly_normal_form_T (a : ndarray F) n :
  shape a = [n; 2] -> n <> 2 -> Poly_normal_form a = T a.
Proof.
  intros Hs Hn. unfold Poly_normal_form.
  destruct (shape_ne 0 2 a) eqn:E; [reflexivity|].
  apply shape_ne_false in E. rewrite Hs in E. simpl in E. congruence.
Qed.

Lemma shape_2_cases (a : ndarray F) :
  ndim a = 2 -> 2 ∈ shape a ->
  (exists n, shape a = [2; n]) \/ (exists n, shape a = [n; 2] /\ n <> 2).
Proof.
  intros (r & c & Hs)%ndim_2_inv Hin. rewrite Hs in Hin |- *.
  apply elem_of_pair in Hin.
  destruct (decide (r = 2)) as [->|Hr]; [left; eauto|].
  right. exists r. destruct Hin as [Hin|Hin]; [congruence|]. subst c. auto.
Qed.

Lemma Poly_normal_form_shape (a : ndarray F) :
  ndim a = 2 -> 2 ∈ shape a -> exists n, shape (Poly_normal_form a) = [2; n].
Proof.
  intros Hnd Hin. destruct (shape_2_cases a Hnd Hin) as [[n Hs]|(n & Hs & Hn)].
  - rewrite (Poly_normal_form_fix a n Hs). eauto.
  - rewrite (Poly_normal_form_T a n Hs Hn). exists n. apply shape_T, Hs.
Qed.


Lemma canonical_Lim_fix (L : ndarray F) :
  canonical_Lim L -> Struct.checkformat_Lim L = Ok L.
Proof.
  intros [Hs|[n Hs]]; apply checkformat_Lim_Ok;
    unfold Lim_normal_form, ndim, size, shape_ne; rewrite Hs; simpl.
  - split; [left; auto|]. split; [|reflexivity].
    right. apply list_elem_of_singleton. reflexivity.
  - split; [right; reflexivity|]. split; [left; apply elem_of_pair; auto|].
    reflexivity.
Qed.

Lemma Lim_normal_form_canonical (a L : ndarray F) :
  Struct.checkformat_Lim a = Ok L ->
  ndim a = 1 \/ 2 ∈ shape a ->
  canonical_Lim L.
Proof.
  intros (Hnd & Hin & ->)%checkformat_Lim_Ok Hdom. unfold Lim_normal_form, canonical_Lim.
  destruct Hnd as [[Hnd Hsz]|Hnd].
  - rewrite Hnd. simpl. destruct (size a =? 2) eqn:E; simpl.
    + right. exists 1. reflexivity.
    + apply Nat.eqb_neq in E. destruct Hsz as [Hsz|Hsz]; [|contradiction].
      left. destruct (ndim_1_inv a Hnd) as [n Hs].
      rewrite (size_shape1 a n Hs) in Hsz. subst n. exact Hs.
  - rewrite Hnd. simpl. destruct Hdom as [Hdom|Hdom]; [lia|].
    right. destruct (ndim_2_inv a Hnd) as (r & c & Hs).
    destruct (shape_ne 1 2 a) eqn:E.
    + exists c. rewrite (shape_T a r c Hs). f_equal. f_equal.
      rewrite Hs in Hdom. apply elem_of_pair in Hdom as [Hr|Hc]; [auto|].
      exfalso. apply not_false_iff_true in E. apply E, shape_ne_false.
      rewrite Hs. simpl. congruence.
    + apply shape_ne_false in E. rewrite Hs in E. injection E as ->. eauto.
Qed.

Lemma checkformat_Lim_size (a L : ndarray F) :
  Struct.checkformat_Lim a = Ok L -> size L = size a.
Proof.
  intros (Hnd & _ & ->)%checkformat_Lim_Ok. apply size_Lim_normal_form. tauto.
Qed.

End NormalForms.

(** ** Linear structures need a Lim *)

Section Claims_Struct.
Context {F : Type} `{Numeric F}.

Lemma Lin_accepted_nonempty c (Poly Lim mobile Clock : pyobj F) ao out :
  checkformat_inputs_dgeom c Poly Lim mobile (Some "Lin") Clock ao = Ok out ->
  0 < size (Lim_array Lim).
Proof.
  destruct out as [[[P L] T'] o].
  intros Hok%checkformat_Struct%Struct_checkformat_Ok.
  destruct Hok as ((_ & _ & _ & _ & _ & HLim & Hlin) & _).
  rewrite <- (checkformat_Lim_size _ _ HLim). apply Hlin. reflexivity.
Qed.

Lemma accepted_intro c (P a : ndarray F) (b : bool) Type_ ao L :
  ndim P = 2 -> 2 ∈ shape P ->
  str_in (default Struct.ddef_arrayorder ao) ["C"; "F"] = true ->
  str_in (default Struct.ddef_Type Type_) ["Tor"; "Lin"] = true ->
  Struct.checkformat_Lim a = Ok L ->
  (default Struct.ddef_Type Type_ = "Lin" -> 0 < size L) ->
  (default Struct.ddef_Type Type_ = "Tor" ->
   c = CVes \/ c = CPlasmaDomain -> size L = 0) ->
  checkformat_inputs_dgeom c (PyArr P) (PyArr a) (PyBool false) Type_ (PyBool b) ao
  = Ok (Poly_normal_form P, L, default Struct.ddef_Type Type_,
        default Struct.ddef_arrayorder ao).
Proof.
  intros Hnd Hin Hao HT HLim Hlin Htor.
  assert (HS : Struct._checkformat_inputs_dgeom (PyArr P) (PyArr a) (PyBool false)
                 Type_ (PyBool b) ao
               = Ok (Poly_normal_form P, L, default Struct.ddef_Type Type_,
                     default Struct.ddef_arrayorder ao)).
  { apply Struct_checkformat_Ok. unfold others_ok, Lim_array. simpl.
    repeat split; auto. }
  destruct c; simpl; try exact HS;
    apply Ves_checkformat_Ok; (split; [exact HS|]); (split; [reflexivity|]);
    intros HT'; apply Htor; auto.
Qed.

End Claims_Struct.

(** C4: with Type='Lin', whatever the class and the other arguments, an
    empty [Lim] ([None], which stands for the default [[]], or any array of
    size zero) makes the check raise; and a [Lim] that is not empty and has
    a valid shape (1D of size 2, or 2D with a dimension equal to 2) is
    accepted, along with a polygon of valid shape and well-typed flags. *)
Theorem C4_Lin_requires_nonempty_Lim {F : Type} `{Numeric F} (c : cls) :
  (forall (Poly Lim mobile Clock : pyobj F) ao,
      Lim = PyNone \/ (exists a, Lim = PyArr a /\ size a = 0) ->
      is_Raise (checkformat_inputs_dgeom c Poly Lim mobile (Some "Lin") Clock ao))
  /\ (forall (P a : ndarray F) (b : bool) ao,
         ndim P = 2 -> 2 ∈ shape P ->
         ao ∈ [None; Some "C"; Some "F"] ->
         0 < size a ->
         (ndim a = 1 /\ size a = 2) \/ (ndim a = 2 /\ 2 ∈ shape a) ->
         exists P' L o,
           checkformat_inputs_dgeom c (PyArr P) (PyArr a) (PyBool false)
             (Some "Lin") (PyBool b) ao = Ok (P', L, "Lin", o)
           /\ size L = size a).
Proof.
  split.
  - intros Poly Lim mobile Clock ao Hempty.
    destruct (result_cases
                (checkformat_inputs_dgeom c Poly Lim mobile (Some "Lin") Clock ao))
      as [[out Hok]|Hr]; [|exact Hr].
    exfalso. apply Lin_accepted_nonempty in Hok.
    destruct Hempty as [->|(a & -> & Hz)]; unfold Lim_array in Hok; simpl in Hok.
    + unfold size in Hok. simpl in Hok. lia.
    + lia.
  - intros P a b ao Hnd Hin Hao Hpos Hshape.
    assert (HLim : Struct.checkformat_Lim a = Ok (Lim_normal_form a)).
    { apply checkformat_Lim_Ok. destruct Hshape as [[H1 H2]|[H1 H2]].
      - split; [left; auto|]. split; [left|reflexivity].
        destruct (ndim_1_inv a H1) as [n Hs].
        rewrite (size_shape1 a n Hs) in H2. subst n. rewrite Hs.
        apply list_elem_of_here.
      - split; [right; exact H1|]. split; [left; exact H2|reflexivity]. }
    exists (Poly_normal_form P), (Lim_normal_form a), (default Struct.ddef_arrayorder ao).
    split.
    + apply (accepted_intro c P a b (Some "Lin") ao); auto.
      * rewrite !elem_of_cons, elem_of_nil in Hao.
        destruct Hao as [->|[->|[->|[]]]]; reflexivity.
      * intros _. rewrite (checkformat_Lim_size _ _ HLim). exact Hpos.
      * simpl. discriminate.
    + apply (checkformat_Lim_size _ _ HLim).
Qed.


Lemma C4_witness :
  is_Raise (checkformat_inputs_dgeom CPFC (PyArr triangle) PyNone (PyBool false)
              (Some "Lin") (PyBool false) None)
  /\ exists P' L o,
      checkformat_inputs_dgeom CPFC (PyArr triangle)
        (PyArr (mk_ndarray [2] [0; 10]%float)) (PyBool false)
        (Some "Lin") (PyBool false) None = Ok (P', L, "Lin", o)
      /\ size L = 2.
Proof.
  split.
  - apply (proj1 (C4_Lin_requires_nonempty_Lim CPFC)). left. reflexivity.
  - apply (proj2 (C4_Lin_requires_nonempty_Lim CPFC) triangle
             (mk_ndarray [2] [0; 10]%float) false None).
    + reflexivity.
    + vm_compute. apply list_elem_of_here.
    + apply list_elem_of_here.
    + vm_compute. lia.
    + left. split; reflexivity.
Defined.

(** ** A toroidal vessel has no Lim *)

(** C10: for [Ves] and [PlasmaDomain] with Type='Tor' (given, or by
    default), a [Lim] that is not empty makes the check raise, so that an
    accepted vessel of toroidal type has an empty [Lim]; the other classes
    accept a toroidal structure with a non-empty [Lim] of valid shape. *)
Theorem C10_Tor_Ves_has_no_Lim {F : Type} `{Numeric F}
    (c : cls) (Poly Lim mobile Clock : pyobj F) (Type_ ao : option string) :
  c = CVes \/ c = CPlasmaDomain ->
  Type_ = Some "Tor" \/ Type_ = None ->
  (forall a, Lim = PyArr a -> size a <> 0 ->
             is_Raise (checkformat_inputs_dgeom c Poly Lim mobile Type_ Clock ao))
  /\ (forall P L T' o,
         checkformat_inputs_dgeom c Poly Lim mobile Type_ Clock ao = Ok (P, L, T', o) ->
         T' = "Tor" /\ size L = 0 /\ size (Lim_array Lim) = 0)
  /\ (forall c' (P a : ndarray F) (b : bool),
         c' <> CVes -> c' <> CPlasmaDomain ->
         ndim P = 2 -> 2 ∈ shape P -> ndim a = 2 -> 2 ∈ shape a ->
         is_Ok (checkformat_inputs_dgeom c' (PyArr P) (PyArr a) (PyBool false)
                  Type_ (PyBool b) None)).
Proof.
  intros Hc HT.
  assert (Hdef : default Struct.ddef_Type Type_ = "Tor")
    by (destruct HT as [->| ->]; reflexivity).
  assert (Hacc : forall P L T' o,
             checkformat_inputs_dgeom c Poly Lim mobile Type_ Clock ao = Ok (P, L, T', o) ->
             T' = "Tor" /\ size L = 0 /\ size (Lim_array Lim) = 0).
  { intros P L T' o Hok.
    assert (HV : Ves._checkformat_inputs_dgeom Poly Lim mobile Type_ Clock ao
                 = Ok (P, L, T', o)) by (destruct Hc as [->| ->]; exact Hok).
    apply Ves_checkformat_Ok in HV as (HS & _ & Hsz).
    apply Struct_checkformat_Ok in HS as ((_ & _ & _ & _ & _ & HLim & _) & _ & _ & _ & _ & -> & _).
    rewrite Hdef in *. split; [reflexivity|]. split; [auto|].
    rewrite <- (checkformat_Lim_size _ _ HLim). auto. }
  split; [|split; [exact Hacc|]].
  - intros a -> Hsz.
    destruct (result_cases
                (checkformat_inputs_dgeom c Poly (PyArr a) mobile Type_ Clock ao))
      as [[[[[P L] T'] o] Hok]|Hr]; [|exact Hr].
    exfalso. apply Hacc in Hok as (_ & _ & Hz). apply Hsz, Hz.
  - intros c' P a b Hc1 Hc2 HndP HinP Hnda Hina.
    eexists. apply (accepted_intro c' P a b Type_ None (Lim_normal_form a)); auto.
    + rewrite Hdef. reflexivity.
    + apply checkformat_Lim_Ok. repeat split; auto.
    + rewrite Hdef. discriminate.
    + intros _ [->| ->]; contradiction.
Qed.

Lemma C10_witness :
  is_Raise (checkformat_inputs_dgeom CVes (PyArr triangle)
              (PyArr (mk_ndarray [2] [0; 1]%float)) (PyBool false)
              (Some "Tor") (PyBool false) None).
Proof.
  apply (proj1 (C10_Tor_Ves_has_no_Lim CVes (PyArr triangle)
                  (PyArr (mk_ndarray [2] [0; 1]%float)) (PyBool false) (PyBool false)
                  (Some "Tor") None (or_introl eq_refl) (or_introl eq_refl))
           (mk_ndarray [2] [0; 1]%float) eq_refl).
  vm_compute. lia.
Defined.

(** ** Normalising Lim twice *)

(** C8, as stated, fails: a 2D array of size zero none of whose dimensions
    is 2, here of shape (0,5), is accepted for a toroidal structure and is
    transposed each time it goes through the check. *)
Lemma C8_counterexample :
  checkformat_inputs_dgeom CStruct (PyArr triangle)
    (PyArr (mk_ndarray [0; 5] [])) (PyBool false) (Some "Tor") (PyBool false) (Some "C")
  = Ok (triangle, mk_ndarray [5; 0] [], "Tor", "C")
  /\ checkformat_inputs_dgeom CStruct (PyArr triangle)
       (PyArr (mk_ndarray [5; 0] [])) (PyBool false) (Some "Tor") (PyBool false) (Some "C")
     = Ok (triangle, mk_ndarray [0; 5] [], "Tor", "C")
  /\ mk_ndarray [0; 5] ([] : list float) <> mk_ndarray [5; 0] [].
Proof.
  split; [vm_compute; reflexivity|]. split; [vm_compute; reflexivity|].
  discriminate.
Qed.

(** C8 (amended): when [Lim] is [None], a 1D array, or an array with a
    dimension equal to 2, what the check returns is returned unchanged when
    it goes through the check again, and the normalised [Lim] is the empty
    1D array or has shape (nLim,2). *)
Theorem C8_Lim_normalisation_idempotent {F : Type} `{Numeric F}
    (c : cls) (Poly Lim mobile Clock : pyobj F) (Type_ ao : option string)
    (P L : ndarray F) (T' o : string) :
  ndim (Lim_array Lim) = 1 \/ 2 ∈ shape (Lim_array Lim) ->
  checkformat_inputs_dgeom c Poly Lim mobile Type_ Clock ao = Ok (P, L, T', o) ->
  checkformat_inputs_dgeom c (PyArr P) (PyArr L) mobile (Some T') Clock (Some o)
  = Ok (P, L, T', o)
  /\ canonical_Lim L.
Proof.
  intros Hdom Hok.
  assert (HS := checkformat_Struct _ _ _ _ _ _ _ _ Hok).
  apply Struct_checkformat_Ok in HS
    as ((HC & Hm & Ho & HT & _ & HLim & Hlin) & _ & Hnd & Hin & HP & HT' & Ho').
  assert (Hcan := Lim_normal_form_canonical _ _ HLim Hdom).
  split; [|exact Hcan].
  destruct (Poly_normal_form_shape _ Hnd Hin) as [n Hn]. rewrite <- HP in Hn.
  assert (HS2 : Struct._checkformat_inputs_dgeom (PyArr P) (PyArr L) mobile
                  (Some T') Clock (Some o) = Ok (P, L, T', o)).
  { apply Struct_checkformat_Ok. unfold others_ok, Lim_array. simpl.
    rewrite <- HT', <- Ho' in *.
    repeat split; auto using canonical_Lim_fix.
    - unfold ndim. rewrite Hn. reflexivity.
    - rewrite Hn. apply list_elem_of_here.
    - symmetry. apply (Poly_normal_form_fix P n Hn). }
  destruct c; simpl in *; try exact HS2;
    apply Ves_checkformat_Ok in Hok as (_ & Hf & Hz);
    apply Ves_checkformat_Ok; auto.
Qed.

Lemma C8_witness :
  checkformat_inputs_dgeom CPFC (PyArr triangle)
    (PyArr (mk_ndarray [1; 2] [0; 10]%float)) (PyBool false) (Some "Lin")
    (PyBool false) (Some "C")
  = Ok (triangle, mk_ndarray [1; 2] [0; 10]%float, "Lin", "C")
  /\ canonical_Lim (mk_ndarray [1; 2] [0; 10]%float).
Proof.
  apply (C8_Lim_normalisation_idempotent CPFC (PyArr triangle)
           (PyArr (mk_ndarray [2] [0; 10]%float)) (PyBool false) (PyBool false)
           (Some "Lin") None).
  - left. reflexivity.
  - vm_compute. reflexivity.
Defined.

(** ** The layout of the polygon *)

Section Claims_Poly.
Context {F : Type} `{Numeric F}.


Lemma accepted_change_Poly c P0 (a : ndarray F) Lim mobile Type_ Clock ao P L T' o :
  checkformat_inputs_dgeom c P0 Lim mobile Type_ Clock ao = Ok (P, L, T', o) ->
  ndim a = 2 -> 2 ∈ shape a ->
  checkformat_inputs_dgeom c (PyArr a) Lim mobile Type_ Clock ao
  = Ok (Poly_normal_form a, L, T', o).
Proof.
  intros Hok Hnd Hin.
  assert (HS := checkformat_Struct _ _ _ _ _ _ _ _ Hok).
  apply Struct_checkformat_Ok in HS as (Hoth & _ & _ & _ & _ & HT' & Ho').
  assert (HS2 : Struct._checkformat_inputs_dgeom (PyArr a) Lim mobile Type_ Clock ao
                = Ok (Poly_normal_form a, L, T', o)).
  { apply Struct_checkformat_Ok. simpl. split; [exact Hoth|]. repeat split; auto. }
  destruct c; simpl in *; try exact HS2;
    apply Ves_checkformat_Ok in Hok as (_ & Hf & Hz);
    apply Ves_checkformat_Ok; auto.
Qed.

Lemma Poly_rejected c (a : ndarray F) Lim mobile Type_ Clock ao :
  ndim a <> 2 \/ 2 ∉ shape a ->
  is_Raise (checkformat_inputs_dgeom c (PyArr a) Lim mobile Type_ Clock ao).
Proof.
  intros Hbad.
  destruct (result_cases
              (checkformat_inputs_dgeom c (PyArr a) Lim mobile Type_ Clock ao))
    as [[[[[P L] T'] o] Hok]|Hr]; [|exact Hr].
  exfalso. apply checkformat_Struct, Struct_checkformat_Ok in Hok.
  simpl in Hok. destruct Hok as (_ & _ & Hnd & Hin & _).
  destruct Hbad; contradiction.
Qed.

End Claims_Poly.

(** ** Rays : computing the intersections *)

Section ComputeFacts.
Context {F : Type} `{Numeric F}.
Variable engine :
  ndarray F -> ndarray F -> ndarray F -> ndarray F -> ndarray F -> nat ->
  list (ndarray F) -> list (ndarray F) -> list nat -> list (ndarray F) ->
  string -> result (Rays.PInOut (F:=F)).
Variable extras : Rays.M (F:=F) unit.




Lemma compute_dgeom_run s out extra :
  kernel_call engine s out ->
  Rays._compute_dgeom engine extras extra s =
  if any (no_crossing out) then
    (Raise (NameError "plotdebug"),
     Rays.mk_state (Rays._dgeom s) (Rays._dconfig_config s)
       (Rays.warned s ++ [Rays.no_visibility_msg])%list)
  else
    (if extra then extras else mret tt)
      (Rays.mk_state (Rays.dict_update (Rays._dgeom s) (stored out))
         (Rays._dconfig_config s) (Rays.warned s)).
Proof.
  intros (config & D & u & S & Hcfg & HD & Hu & HS & Hcomp & Hout).
  destruct s as [dg cf w]. simpl in Hcfg, HD, Hu. subst cf.
  unfold Rays._compute_dgeom, no_crossing, stored.
  cbn [Rays._dgeom Rays._dconfig_config Rays.warned].
  unfold mbind, Rays.M_bind, Rays.get_config, Rays.get_dgeom, Rays.lift.
  cbn [Rays._dgeom Rays._dconfig_config Rays.warned].
  rewrite HD, Hu, HS. cbn [from_option]. rewrite Hcomp. cbn [py_assert].
  rewrite Hout.
  destruct (any (lor (isnan (Rays.kMax out)) (isinf (Rays.kMax out)))); reflexivity.
Qed.

(** Entries of a masked array *)
Lemma setmask_lookup {A} (arr : ndarray A) (ind : ndarray bool) (v : A)
    (i : nat) (x : A) (m : bool) :
  data arr !! i = Some x -> data ind !! i = Some m ->
  data (setmask arr ind v) !! i = Some (if m then v else x).
Proof.
  intros Hx Hm. unfold setmask. simpl.
  rewrite lookup_zip_with, Hx, Hm. reflexivity.
Qed.

Lemma setmask_isnan_lookup (arr : ndarray F) (v : F) (i : nat) (x : F) :
  data arr !! i = Some x ->
  data (setmask arr (isnan arr) v) !! i = Some (if f_is_nan x then v else x).
Proof.
  intros Hx. apply setmask_lookup; [exact Hx|].
  unfold isnan. simpl. rewrite list_lookup_fmap, Hx. reflexivity.
Qed.

Lemma any_false_lookup (a : ndarray bool) (i : nat) (b : bool) :
  any a = false -> data a !! i = Some b -> b = false.
Proof.
  unfold any. intros Hany Hb. destruct b; [|reflexivity].
  apply list_elem_of_lookup_2, list_elem_of_In in Hb.
  assert (existsb (fun b => b) (data a) = true)
    by (apply existsb_exists; exists true; auto).
  congruence.
Qed.

(** Without a ray lacking a crossing, the instance receives [kMin] with
    its NaN entries set to 0 and [kMax] as the kernel gave it, and no
    warning is issued. *)
Lemma compute_dgeom_stores s out :
  kernel_call engine s out ->
  any (no_crossing out) = false ->
  exists kMin',
    Rays._compute_dgeom engine extras false s
    = (Ok tt, Rays.mk_state
                (<["kMin" := PyArr kMin']> (<["kMax" := PyArr (Rays.kMax out)]>
                   (<["vperp" := Rays.vperp out]> (<["indout" := Rays.indout out]>
                      (Rays._dgeom s)))))
                (Rays._dconfig_config s) (Rays.warned s))
    /\ shape kMin' = shape (Rays.kMin out)
    /\ forall (i : nat) (x : F), data (Rays.kMin out) !! i = Some x ->
                   data kMin' !! i = Some (if f_is_nan x then fzero else x).
Proof.
  intros Hcall Hany.
  exists (setmask (Rays.kMin out) (isnan (Rays.kMin out)) fzero).
  rewrite (compute_dgeom_run s out false Hcall), Hany.
  split; [|split; [reflexivity|intros; apply setmask_isnan_lookup; assumption]].
  unfold mret, Rays.M_ret. f_equal. f_equal.
  unfold Rays.dict_update, stored.
  rewrite <- !insert_union_l, (left_id_L ∅ (∪)). reflexivity.
Qed.

End ComputeFacts.


(** C1: where no entry of [kMax] is NaN or infinite, the NaN entries of
    [kMin] are stored as 0 and the other entries of [kMin] and [kMax] are
    stored as they are, without a warning; where the second ray has an
    infinite [kMax], the warning is issued and then the undefined name
    [plotdebug] is loaded: NameError is raised and the instance receives
    neither [kMin] nor [kMax].  (Run with [extra=False], on two rays.) *)
Theorem C1_sentinels_lost_on_NameError :
  (fst (Example.construct [nan; 1.5]%float [3; 4]%float) = Ok tt
   /\ Rays.warned (snd (Example.construct [nan; 1.5]%float [3; 4]%float)) = []
   /\ Rays._dgeom (snd (Example.construct [nan; 1.5]%float [3; 4]%float)) !! "kMin"
      = Some (PyArr (mk_ndarray [2] [0; 1.5]%float))
   /\ Rays._dgeom (snd (Example.construct [nan; 1.5]%float [3; 4]%float)) !! "kMax"
      = Some (PyArr (mk_ndarray [2] [3; 4]%float)))
  /\ fst (Example.construct [nan; 1.5]%float [3; infinity]%float)
     = Raise (NameError "plotdebug")
  /\ Rays.warned (snd (Example.construct [nan; 1.5]%float [3; infinity]%float))
     = [Rays.no_visibility_msg]
  /\ Rays._dgeom (snd (Example.construct [nan; 1.5]%float [3; infinity]%float)) !! "kMin"
     = Some PyNone
  /\ Rays._dgeom (snd (Example.construct [nan; 1.5]%float [3; infinity]%float)) !! "kMax"
     = Some PyNone.
Proof.
  repeat split; vm_compute; reflexivity.
Qed.

(** C2: a bundle of two rays the first of which never crosses the plasma
    domain ([kMin] and [kMax] are NaN): the warning is issued, and
    [_compute_dgeom] then raises NameError on the undefined name
    [plotdebug] instead of returning; [kMax] is not stored. *)
Theorem C2_no_crossing_raises_NameError :
  fst (Example.construct [nan; 1]%float [nan; 2]%float) = Raise (NameError "plotdebug")
  /\ Rays.warned (snd (Example.construct [nan; 1]%float [nan; 2]%float))
     = [Rays.no_visibility_msg]
  /\ Rays._dgeom (snd (Example.construct [nan; 1]%float [nan; 2]%float)) !! "kMax"
     = Some PyNone.
Proof.
  repeat split; vm_compute; reflexivity.
Qed.

(** C3, as stated, fails: the first ray alone without a crossing, or the
    second one alone, leave the same warnings behind. *)
Lemma C3_counterexample :
  no_crossing (Rays.mk_PInOut PyNone PyNone
                 (mk_ndarray [2] [nan; 1]%float) (mk_ndarray [2] [nan; 2]%float)
                 PyNone PyNone PyNone PyNone)
  <> no_crossing (Rays.mk_PInOut PyNone PyNone
                    (mk_ndarray [2] [1; nan]%float) (mk_ndarray [2] [2; nan]%float)
                    PyNone PyNone PyNone PyNone)
  /\ Rays.warned (snd (Example.construct [nan; 1]%float [nan; 2]%float))
     = Rays.warned (snd (Example.construct [1; nan]%float [2; nan]%float)).
Proof.
  split; [vm_compute; discriminate | vm_compute; reflexivity].
Qed.

(** C3 (amended): when some ray has no valid crossing, [_compute_dgeom]
    issues one warning, the fixed message "Some LOS have no visibility
    inside the plasma domain !", whichever rays are concerned. *)
Theorem C3_warning_is_generic {F : Type} `{Numeric F}
    engine extras (extra : bool) (s : Rays.state (F:=F)) (out : Rays.PInOut) :
  kernel_call engine s out ->
  any (no_crossing out) = true ->
  Rays.warned (snd (Rays._compute_dgeom engine extras extra s))
  = (Rays.warned s ++ ["Some LOS have no visibility inside the plasma domain !"])%list.
Proof.
  intros Hcall Hany.
  rewrite (compute_dgeom_run engine extras s out extra Hcall), Hany.
  reflexivity.
Qed.

Lemma C3_witness :
  Rays.warned
    (snd (Rays._compute_dgeom (Example.kernel [1; nan]%float [2; nan]%float) (mret tt) false
            Example.ready))
  = (Rays.warned Example.ready
     ++ ["Some LOS have no visibility inside the plasma domain !"])%list.
Proof.
  apply (C3_warning_is_generic (Example.kernel [1; nan]%float [2; nan]%float) (mret tt) false
           Example.ready
           (Rays.mk_PInOut PyNone PyNone
              (mk_ndarray [2] [1; nan]%float) (mk_ndarray [2] [2; nan]%float)
              PyNone PyNone PyNone PyNone)).
  - exists Example.conf, Example.D2, (tile Example.u1 2), Example.plasma.
    repeat split; vm_compute; reflexivity.
  - vm_compute. reflexivity.
Defined.

(** ** Rays : the number of rays *)

Section RaysFacts.
Context {F : Type} `{Numeric F}.

Lemma checkformat_Du_3n (a : ndarray F) n name :
  shape a = [3; n] -> Rays._checkformat_Du (PyArr a) name = Ok a.
Proof.
  intros Hs. unfold Rays._checkformat_Du. simpl.
  unfold ndim, in_shape, shape_ne. rewrite Hs. reflexivity.
Qed.

Lemma shape_normalize (a : ndarray F) r c :
  shape a = [r; c] -> shape (normalize a) = [r; c].
Proof. intros Hs. unfold normalize, div_rowvec. rewrite Hs. reflexivity. Qed.



Lemma checkformat_Du_pair (D u : ndarray F) nD nu dgeom :
  shape D = [3; nD] -> shape u = [3; nu] -> Du_arg D u dgeom ->
  Rays._checkformat_inputs_dgeom dgeom =
  if (nD =? 1) && (1 <? nu) || (1 <? nD) && (nu =? 1) || (nD =? nu)
  then Ok (<["D" := PyArr D]> (<["u" := PyArr (normalize u)]>
             (<["nRays" := PyInt (Nat.max nD nu)]> ∅)))
  else Raise (AssertionError (Some Rays.ambiguous_msg)).
Proof.
  intros HD Hu [-> | ->]; unfold Rays._checkformat_inputs_dgeom; cbn zeta.
  - cbn [negb length Nat.eqb orb Rays.has_keys py_assert mbind result_bind
           Rays.tuple_get lookup list_lookup from_option].
    rewrite (checkformat_Du_3n D nD _ HD). cbn [mbind result_bind].
    rewrite (checkformat_Du_3n u nu _ Hu). cbn [mbind result_bind].
    unfold shape1. rewrite (shape_normalize u 3 nu Hu), HD. cbn [nth].
    destruct ((nD =? 1) && (1 <? nu) || (1 <? nD) && (nu =? 1) || (nD =? nu));
      reflexivity.
  - assert (HkD : (<["D" := PyArr D]> (<["u" := PyArr u]> (∅ : gmap string (pyobj F))))
                    !! "D" = Some (PyArr D)) by apply lookup_insert_eq.
    assert (Hku : (<["D" := PyArr D]> (<["u" := PyArr u]> (∅ : gmap string (pyobj F))))
                    !! "u" = Some (PyArr u))
      by (rewrite lookup_insert_ne by discriminate; apply lookup_insert_eq).
    assert (Hkp : (<["D" := PyArr D]> (<["u" := PyArr u]> (∅ : gmap string (pyobj F))))
                    !! "pinhole" = None)
      by (rewrite !lookup_insert_ne by discriminate; apply lookup_empty).
    unfold Rays.has_keys, Rays.dict_get. cbn [forallb].
    rewrite HkD, Hku, Hkp.
    rewrite !bool_decide_eq_true_2 by (eexists; reflexivity).
    rewrite bool_decide_eq_false_2 by (intros [? ?]; discriminate).
    cbn [negb andb orb py_assert mbind result_bind from_option].
    rewrite (checkformat_Du_3n D nD _ HD). cbn [mbind result_bind].
    rewrite (checkformat_Du_3n u nu _ Hu). cbn [mbind result_bind].
    unfold shape1. rewrite (shape_normalize u 3 nu Hu), HD. cbn [nth].
    destruct ((nD =? 1) && (1 <? nu) || (1 <? nD) && (nu =? 1) || (nD =? nu));
      reflexivity.
Qed.

Lemma unambiguous_test nD nu :
  (nD =? 1) && (1 <? nu) || (1 <? nD) && (nu =? 1) || (nD =? nu) = true
  <-> unambiguous nD nu.
Proof.
  unfold unambiguous.
  rewrite !orb_true_iff, !andb_true_iff, !Nat.eqb_eq, !Nat.ltb_lt. lia.
Qed.

End RaysFacts.

(** C5, as stated, fails: a single origin with an empty array of
    directions, of shape (3,0), is refused although nD is 1. *)
Lemma C5_counterexample :
  Rays._checkformat_inputs_dgeom
    (Rays.DgTuple [PyArr (mk_ndarray [3; 1] [2; 0; 0.5]%float);
                   PyArr (mk_ndarray [3; 0] ([] : list float))])
  = Raise (AssertionError (Some "The number of rays is ambiguous from D and u shapes !")).
Proof. vm_compute. reflexivity. Qed.

(** C5 (amended): for origins of shape (3,nD) and directions of shape
    (3,nu), given as a tuple or as a dict, the check succeeds, with
    nRays = max(nD,nu), the origins as given and the directions
    normalised, exactly when nD = nu, or one of nD and nu is 1 and the
    other is at least 1; otherwise it raises the assertion error that
    says the number of rays is ambiguous. *)
Theorem C5_ray_count {F : Type} `{Numeric F}
    (D u : ndarray F) (nD nu : nat) (dgeom : Rays.dgeom_arg) :
  shape D = [3; nD] -> shape u = [3; nu] -> Du_arg D u dgeom ->
  (unambiguous nD nu ->
   Rays._checkformat_inputs_dgeom dgeom
   = Ok (<["D" := PyArr D]> (<["u" := PyArr (normalize u)]>
           (<["nRays" := PyInt (Nat.max nD nu)]> ∅))))
  /\ (~ unambiguous nD nu ->
      Rays._checkformat_inputs_dgeom dgeom
      = Raise (AssertionError
                 (Some "The number of rays is ambiguous from D and u shapes !")))
  /\ (is_Ok (Rays._checkformat_inputs_dgeom dgeom) <-> unambiguous nD nu).
Proof.
  intros HD Hu Harg.
  rewrite (checkformat_Du_pair D u nD nu dgeom HD Hu Harg).
  destruct ((nD =? 1) && (1 <? nu) || (1 <? nD) && (nu =? 1) || (nD =? nu)) eqn:E.
  - apply unambiguous_test in E. repeat split; auto.
    + intros Hn. contradiction.
    + intros _. eexists. reflexivity.
  - assert (Hn : ~ unambiguous nD nu).
    { intros Hu'. apply unambiguous_test in Hu'. congruence. }
    repeat split; auto.
    + intros Hu'. contradiction.
    + intros [d Hd]. discriminate.
    + intros Hu'. contradiction.
Qed.

Lemma C5_witness :
  Rays._checkformat_inputs_dgeom (Rays.DgTuple [PyArr Example.D2; PyArr Example.u1])
  = Ok (<["D" := PyArr Example.D2]> (<["u" := PyArr (normalize Example.u1)]>
          (<["nRays" := PyInt (Nat.max 2 1)]> ∅))).
Proof.
  apply (proj1 (C5_ray_count Example.D2 Example.u1 2 1 _ eq_refl eq_refl
                  (or_introl eq_refl))).
  right. right. split; [reflexivity | lia].
Defined.

(** ** Columns of the arrays built for the directions *)

Section ColumnFacts.
Context {A : Type}.

Lemma row_lookup (c : nat) (d : list A) (i j : nat) :
  j < c -> row c d i !! j = get2 c d i j.
Proof.
  intros Hj. unfold row, get2. rewrite lookup_take, lookup_drop.
  destruct (decide (j < c)); [reflexivity | contradiction].
Qed.

Lemma row_length (r c : nat) (d : list A) (i : nat) :
  length d = r * c -> i < r -> length (row c d i) = c.
Proof.
  intros Hl Hi. unfold row. rewrite length_take, length_drop. nia.
Qed.

Lemma column_eq_intro (r c : nat) (d : list A) (j : nat) (l : list A) :
  length d = r * c -> j < c -> length l = r ->
  (forall i, i < r -> l !! i = get2 c d i j) ->
  column r c d j = l.
Proof.
  intros Hl Hj Hlen Hent. apply list_eq. intros i.
  destruct (decide (i < r)) as [Hi|Hi].
  - rewrite (column_lookup r c d i j Hl Hi Hj). symmetry. apply Hent, Hi.
  - rewrite !lookup_ge_None_2; [reflexivity | lia |].
    rewrite (column_length r c d j Hl Hj). lia.
Qed.

Lemma column_fmap {B} (f : A -> B) (r c : nat) (d : list A) (j : nat) :
  column r c (f <$> d) j = f <$> column r c d j.
Proof.
  unfold column, get2. induction (seq 0 r) as [|i l IH]; [reflexivity|].
  simpl. rewrite list_lookup_fmap. destruct (d !! (i * c + j)); simpl;
    [f_equal|]; exact IH.
Qed.

Lemma length_join_replicate (n : nat) (l : list A) :
  length (mjoin (replicate n l)) = n * length l.
Proof.
  induction n as [|n IH]; [reflexivity|].
  change (replicate (S n) l) with ([l] ++ replicate n l)%list.
  rewrite join_app, length_app, IH. simpl. rewrite length_app. simpl. lia.
Qed.

Lemma length_join_rows (f : nat -> list A) (r c : nat) :
  (forall i, i < r -> length (f i) = c) ->
  length (mjoin (f <$> seq 0 r)) = r * c.
Proof.
  intros Hf. induction r as [|r' IH]; [reflexivity|].
  rewrite seq_S, fmap_app, join_app, length_app.
  rewrite IH by (intros; apply Hf; lia).
  simpl. rewrite length_app, (Hf r') by lia. simpl. lia.
Qed.

Lemma lookup_join_replicate_singleton (n k : nat) (x : A) :
  k < n -> mjoin (replicate n [x]) !! k = Some x.
Proof.
  revert k. induction n as [|m IH]; intros k Hk; [lia|].
  change (replicate (S m) [x]) with ([[x]] ++ replicate m [x])%list.
  rewrite join_app. destruct k as [|k]; [reflexivity|].
  simpl. apply IH. lia.
Qed.

(** A column of a column vector tiled [n] times is the vector. *)
Lemma col_tile (a : ndarray A) (r n k : nat) :
  shape a = [r; 1] -> wf a -> k < n ->
  shape (tile a n) = [r; 1 * n] /\ col (tile a n) k = col a 0.
Proof.
  intros Hs Hwf Hk. unfold wf in Hwf. rewrite (size_shape2 a r 1 Hs) in Hwf.
  unfold tile, col. rewrite Hs. cbn [shape data]. split; [reflexivity|].
  assert (Hrow : forall i, i < r ->
            length (mjoin (replicate n (row 1 (data a) i))) = 1 * n).
  { intros i Hi. rewrite length_join_replicate, (row_length r 1 _ i Hwf Hi). lia. }
  apply column_eq_intro; [apply length_join_rows; exact Hrow | lia | |].
  - apply column_length; [exact Hwf | lia].
  - intros i Hi.
    rewrite (lookup_rows _ r (1 * n)) by (assumption || lia).
    rewrite (column_lookup r 1 (data a) i 0 Hwf Hi) by lia.
    destruct (get2_is_Some r 1 (data a) i 0 Hwf Hi ltac:(lia)) as [x Hx].
    rewrite Hx. rewrite <- (row_lookup 1 (data a) i 0) in Hx by lia.
    assert (Hr1 : row 1 (data a) i = [x]).
    { pose proof (row_length r 1 (data a) i Hwf Hi) as Hl1.
      destruct (row 1 (data a) i) as [|y [|]]; simpl in Hl1; try discriminate.
      simpl in Hx. congruence. }
    rewrite Hr1. symmetry. apply lookup_join_replicate_singleton, Hk.
Qed.

End ColumnFacts.

Section DirectionFacts.
Context {F : Type} `{Numeric F}.


Lemma length_normalize (a : ndarray F) r c :
  shape a = [r; c] -> wf a -> wf (normalize a).
Proof.
  intros Hs Hwf. unfold wf in *. rewrite (size_shape2 a r c Hs) in Hwf.
  rewrite (size_shape2 _ r c (shape_normalize a r c Hs)).
  unfold normalize, div_rowvec. rewrite Hs. cbn [data].
  unfold sqrt, sum_axis0, square. cbn [shape data]. rewrite Hs. cbn [data].
  set (dv := fsqrt <$> _).
  assert (Hdv : length dv = c) by (unfold dv; rewrite !length_fmap, length_seq; reflexivity).
  assert (Hrow : forall i, i < r -> length (zip_with fdiv (row c (data a) i) dv) = c).
  { intros i Hi. rewrite length_zip_with, (row_length r c _ i Hwf Hi), Hdv. lia. }
  apply length_join_rows. exact Hrow.
Qed.

(** Column [j] of the normalised array is column [j] divided by its
    norm. *)
Lemma col_normalize (a : ndarray F) (r c j : nat) :
  shape a = [r; c] -> wf a -> j < c ->
  col (normalize a) j = normalised (col a j).
Proof.
  intros Hs Hwf Hj. pose proof (length_normalize a r c Hs Hwf) as Hwfn.
  unfold wf in Hwf, Hwfn. rewrite (size_shape2 a r c Hs) in Hwf.
  rewrite (size_shape2 _ r c (shape_normalize a r c Hs)) in Hwfn.
  unfold col. rewrite (shape_normalize a r c Hs), Hs.
  apply column_eq_intro; [exact Hwfn | exact Hj | |].
  - unfold normalised. rewrite length_fmap. apply column_length; assumption.
  - intros i Hi. unfold normalised.
    rewrite list_lookup_fmap, (column_lookup r c (data a) i j Hwf Hi Hj).
    revert Hwfn. unfold normalize, div_rowvec. rewrite Hs. cbn [data].
    unfold sqrt, sum_axis0, square. cbn [shape data]. rewrite Hs. cbn [data].
    intros Hwfn.
    set (dv := fsqrt <$> _).
    assert (Hdv : length dv = c) by (unfold dv; rewrite !length_fmap, length_seq; reflexivity).
    rewrite (lookup_rows _ r c).
    + rewrite lookup_zip_with, (row_lookup c (data a) i j Hj).
      destruct (get2 c (data a) i j) as [x|]; [|reflexivity]. cbn [mbind option_bind].
      unfold dv. rewrite !list_lookup_fmap, lookup_seq_lt by lia. cbn [fmap option_fmap option_map mbind option_bind].
      rewrite column_fmap. reflexivity.
    + intros k Hk. rewrite length_zip_with, (row_length r c _ k Hwf Hk), Hdv. lia.
    + exact Hi.
    + exact Hj.
Qed.

End DirectionFacts.

Section PinholeFacts.
Context {F : Type} `{Numeric F}.

Lemma zip_with_seq {A B} (g : A -> nat -> list B) (p : list A) (r : nat) :
  length p = r ->
  zip_with g p (seq 0 r) = (fun i => from_option (fun x => g x i) [] (p !! i)) <$> seq 0 r.
Proof.
  intros Hp. apply list_eq. intros i.
  rewrite lookup_zip_with, list_lookup_fmap.
  destruct (decide (i < r)) as [Hi|Hi].
  - rewrite lookup_seq_lt by exact Hi.
    destruct (lookup_lt_is_Some_2 p i ltac:(lia)) as [x Hx].
    rewrite Hx. simpl. rewrite Hx. reflexivity.
  - rewrite (lookup_ge_None_2 p) by lia.
    rewrite (lookup_ge_None_2 (seq 0 r)) by (rewrite length_seq; lia).
    reflexivity.
Qed.

Lemma shape_colvec_sub (p a : ndarray F) r c :
  shape a = [r; c] -> shape (colvec_sub p a) = [r; c].
Proof. intros Hs. unfold colvec_sub. rewrite Hs. reflexivity. Qed.

(** Column [j] of [p[:,np.newaxis] - a] is [p] minus column [j] of [a]. *)
Lemma col_colvec_sub (p a : ndarray F) (r c j : nat) :
  shape a = [r; c] -> wf a -> length (data p) = r -> j < c ->
  wf (colvec_sub p a)
  /\ col (colvec_sub p a) j = zip_with fsub (data p) (col a j).
Proof.
  intros Hs Hwf Hp Hj. unfold wf in *.
  rewrite (size_shape2 a r c Hs) in Hwf.
  rewrite (size_shape2 _ r c (shape_colvec_sub p a r c Hs)).
  unfold col. rewrite (shape_colvec_sub p a r c Hs), Hs.
  unfold colvec_sub. rewrite Hs. cbn [data].
  rewrite (zip_with_seq _ (data p) r Hp).
  assert (Hrow : forall i, i < r ->
            length (from_option (fun x => fsub x <$> row c (data a) i) []
                      (data p !! i)) = c).
  { intros i Hi. destruct (lookup_lt_is_Some_2 (data p) i ltac:(lia)) as [x ->].
    simpl. rewrite length_fmap. apply (row_length r); assumption. }
  assert (Hlen := length_join_rows _ r c Hrow).
  split; [exact Hlen|].
  apply column_eq_intro; [exact Hlen | exact Hj | |].
  - rewrite length_zip_with, Hp, (column_length r c _ j Hwf Hj). lia.
  - intros i Hi. rewrite (lookup_rows _ r c) by assumption.
    rewrite lookup_zip_with, (column_lookup r c _ i j Hwf Hi Hj).
    destruct (lookup_lt_is_Some_2 (data p) i ltac:(lia)) as [x ->].
    simpl. rewrite list_lookup_fmap, (row_lookup c _ i j Hj).
    destruct (get2 c (data a) i j); reflexivity.
Qed.

Lemma fromkeys_u : Rays.dict_fromkeys (F:=F) Rays._get_keys_dgeom !! "u" = Some PyNone.
Proof. reflexivity. Qed.

End PinholeFacts.

(** ** Dividing by the length, in exact arithmetic *)

Module Directions.
Import Reals Lra Exact.
Local Open Scope R_scope.

Lemma norm2_nonneg (v : list R) : 0 <= norm2 v.
Proof.
  induction v as [|x v IH]; simpl; [lra|]. pose proof (Rle_0_sqr x) as Hx.
  unfold Rsqr in Hx. lra.
Qed.

Lemma foldl_add_squares (acc : R) (l : list R) :
  foldl add (Fin acc) ((fun y => mul y y) <$> (Fin <$> l)) = Fin (acc + norm2 l).
Proof.
  revert acc. induction l as [|a l IH]; intros acc; simpl.
  - f_equal. lra.
  - rewrite IH. f_equal. lra.
Qed.

Lemma fsum_squares (v : list R) :
  fsum ((fun y => fmul y y) <$> (Fin <$> v)) = Fin (norm2 v).
Proof.
  destruct v as [|x v]; [reflexivity|].
  cbn [fmap list_fmap fsum]. change fadd with add. change fmul with mul.
  cbn [mul]. rewrite foldl_add_squares. reflexivity.
Qed.

Lemma norm2_scaled (v : list R) (n : R) :
  n <> 0 -> norm2 ((fun x => x / n) <$> v) = norm2 v / (n * n).
Proof.
  intros Hn. unfold norm2. induction v as [|x v IH]; simpl in *.
  - field. exact Hn.
  - change (list_fmap R R (fun x0 => x0 / n) v) with ((fun x0 => x0 / n) <$> v).
    rewrite IH. field. exact Hn.
Qed.

(** A vector of finite reals other than zero, divided by its norm the
    way numpy does it, is that vector over its length, and a unit
    vector. *)
Lemma normalised_unit (v : list R) :
  norm v <> 0 ->
  normalised (Fin <$> v) = Fin <$> ((fun x => x / norm v) <$> v)
  /\ is_unit (normalised (Fin <$> v)).
Proof.
  intros Hn.
  assert (Heq : normalised (Fin <$> v) = Fin <$> ((fun x => x / norm v) <$> v)).
  { unfold normalised. rewrite fsum_squares. change fsqrt with sqrt.
    change fdiv with div. cbn [sqrt].
    destruct (Rlt_dec (norm2 v) 0) as [Hlt|_].
    { pose proof (norm2_nonneg v). lra. }
    rewrite <- !list_fmap_compose. apply list_fmap_ext. intros _ x _. simpl.
    fold (norm v). destruct (Req_dec_T (norm v) 0); [contradiction|reflexivity]. }
  split; [exact Heq|]. rewrite Heq.
  exists ((fun x => x / norm v) <$> v). split; [reflexivity|].
  unfold norm at 1. rewrite (norm2_scaled v (norm v) Hn).
  unfold norm. rewrite sqrt_sqrt by apply norm2_nonneg.
  replace (norm2 v / norm2 v) with 1; [apply sqrt_1|].
  field. intros Hz. apply Hn. unfold norm. rewrite Hz. apply sqrt_0.
Qed.

End Directions.

(** ** Config.isInside *)

Section IsInsideFacts.
Context {F : Type} `{Numeric F}.
Variable kernel :
  ndarray F -> ndarray F -> ndarray F -> nat -> string -> string ->
  result (ndarray bool).


Lemma existsb_column (r N : nat) (d : list bool) (j : nat) :
  length d = r * N -> j < N ->
  existsb (fun b => b) (column r N d j) = true
  <-> exists k, k < r /\ get2 N d k j = Some true.
Proof.
  intros Hl Hj. rewrite existsb_exists. split.
  - intros (b & Hin & ->). apply list_elem_of_In, list_elem_of_lookup in Hin as [k Hk].
    assert (Hkr : k < r).
    { apply lookup_lt_Some in Hk. rewrite (column_length r N d j Hl Hj) in Hk. exact Hk. }
    exists k. split; [exact Hkr|].
    rewrite <- (column_lookup r N d k j Hl Hkr Hj). exact Hk.
  - intros (k & Hk & Hg). exists true. split; [|reflexivity].
    apply list_elem_of_In, list_elem_of_lookup. exists k.
    rewrite (column_lookup r N d k j Hl Hk Hj). exact Hg.
Qed.

Lemma forallb_column (r N : nat) (d : list bool) (j : nat) :
  length d = r * N -> j < N ->
  forallb (fun b => b) (column r N d j) = true
  <-> forall k, k < r -> get2 N d k j = Some true.
Proof.
  intros Hl Hj. rewrite forallb_forall. split.
  - intros Hall k Hk.
    destruct (get2_is_Some r N d k j Hl Hk Hj) as [b Hb].
    rewrite Hb. f_equal. apply Hall, list_elem_of_In, list_elem_of_lookup.
    exists k. rewrite (column_lookup r N d k j Hl Hk Hj). exact Hb.
  - intros Hall b Hin.
    apply list_elem_of_In, list_elem_of_lookup in Hin as [k Hk].
    assert (Hkr : k < r).
    { apply lookup_lt_Some in Hk. rewrite (column_length r N d j Hl Hj) in Hk. exact Hk. }
    rewrite (column_lookup r N d k j Hl Hkr Hj), (Hall k Hkr) in Hk. congruence.
Qed.


Lemma collapse_shape (log : string) (S : struct_obj F) (r : ndarray bool) (N : nat) :
  wf r -> shape r = (if nLim S <=? 1 then [N] else [nLim S; N]) ->
  shape (collapse log S r) = [N] /\ length (data (collapse log S r)) = N.
Proof.
  intros Hwf Hs. unfold collapse.
  destruct (nLim S <=? 1) eqn:E.
  - apply Nat.leb_le in E.
    assert ((1 <? nLim S) = false) as -> by (apply Nat.ltb_ge; exact E).
    split; [exact Hs|]. unfold wf in Hwf. rewrite (size_shape1 r N Hs) in Hwf. exact Hwf.
  - apply Nat.leb_gt in E.
    assert ((1 <? nLim S) = true) as -> by (apply Nat.ltb_lt; exact E).
    destruct (String.eqb log "any"); unfold any_axis0, all_axis0, reduce_axis0;
      rewrite Hs; cbn [shape data]; rewrite length_fmap, length_seq; auto.
Qed.

Lemma set_row_shaped (ind v : ndarray bool) (n N ii : nat) :
  shape ind = [n; N] -> shape v = [N] ->
  set_row ind ii v
  = Some (mk_ndarray [n; N]
            (take (ii * N) (data ind) ++ data v ++ drop ((ii + 1) * N) (data ind))%list).
Proof.
  intros Hi Hv. unfold set_row, broadcast_row. rewrite Hi, Hv.
  assert (drop_ones [N] = [N]) as -> by (destruct N as [|[|N']]; reflexivity).
  rewrite Nat.eqb_refl. reflexivity.
Qed.

Section Loop.
Variables (pts : ndarray F) (In log : string) (lS : list (struct_obj F)) (N : nat).
Hypothesis Hkernel :
  forall S, S ∈ lS -> exists r, kernel_contract kernel pts In N S r.


Lemma kept_row_length i : i < length lS -> length (kept_row kernel pts In log lS i) = N.
Proof.
  intros Hi. unfold kept_row.
  destruct (lookup_lt_is_Some_2 lS i Hi) as [S HS]. rewrite HS.
  destruct (Hkernel S (list_elem_of_lookup_2 _ _ _ HS)) as (r & Hr & Hwf & Hs).
  rewrite Hr. apply (collapse_shape log S r N Hwf Hs).
Qed.

Lemma isInside_step_run (ind : ndarray bool) (n i : nat) :
  shape ind = [n; N] -> i < length lS ->
  Config.isInside_step kernel pts In log lS ind i
  = Ok (mk_ndarray [n; N]
          (take (i * N) (data ind) ++ kept_row kernel pts In log lS i
           ++ drop ((i + 1) * N) (data ind))%list).
Proof.
  intros Hs Hi. unfold Config.isInside_step, kept_row.
  destruct (lookup_lt_is_Some_2 lS i Hi) as [S HS]. rewrite HS.
  destruct (Hkernel S (list_elem_of_lookup_2 _ _ _ HS)) as (r & Hr & Hwf & Hsr).
  cbn [from_option mbind result_bind]. rewrite Hr. cbn [mbind result_bind].
  fold (collapse log S r).
  rewrite (set_row_shaped ind (collapse log S r) n N i Hs
             (proj1 (collapse_shape log S r N Hwf Hsr))).
  reflexivity.
Qed.

Lemma isInside_loop_run (n k m : nat) (pre : list bool) :
  m + k <= length lS -> length pre = m * N ->
  Config.isInside_loop kernel pts In log lS
    (mk_ndarray [n; N] (pre ++ replicate (k * N) false)%list) (seq m k)
  = Ok (mk_ndarray [n; N] (pre ++ mjoin (kept_row kernel pts In log lS <$> seq m k))%list).
Proof.
  revert m pre. induction k as [|k IH]; intros m pre Hm Hpre.
  - simpl. rewrite !app_nil_r. reflexivity.
  - cbn [seq Config.isInside_loop].
    rewrite (isInside_step_run
               (mk_ndarray [n; N] (pre ++ replicate (S k * N) false)%list)
               n m eq_refl) by lia.
    cbn [mbind result_bind data].
    rewrite take_app_length' by (rewrite Hpre; reflexivity).
    rewrite drop_app_ge by (rewrite Hpre; lia).
    replace ((m + 1) * N - length pre) with N by (rewrite Hpre; lia).
    rewrite drop_replicate.
    replace (S k * N - N) with (k * N) by lia.
    rewrite (app_assoc pre (kept_row kernel pts In log lS m)).
    rewrite (IH (S m) (pre ++ kept_row kernel pts In log lS m)%list)
      by (try rewrite length_app, Hpre, kept_row_length; lia).
    cbn [fmap list_fmap mjoin list_join]. rewrite <- app_assoc. reflexivity.
Qed.

End Loop.

End IsInsideFacts.

(** C9: for a batch of N points, given as a (2,N) or (3,N) array, and log
    'any' or 'all', [Config.isInside] returns a boolean array of shape
    (nStruct,N).  Its row for a structure with nLim > 1 holds, for each
    point, the OR over the occurrences of what the kernel answered when
    log is 'any', and the AND when log is 'all'; its row for a structure
    with nLim <= 1 is the answer of the kernel. *)
Theorem C9_isInside_collapse {F : Type} `{Numeric F}
    (kernel : ndarray F -> ndarray F -> ndarray F -> nat -> string -> string ->
              result (ndarray bool))
    (self : config F) (pts : ndarray F) (k N : nat) (In log : string) :
  shape pts = [k; N] -> k = 2 \/ k = 3 ->
  log = "any" \/ log = "all" ->
  nStruct self = length (lStruct self) ->
  (forall st, st ∈ lStruct self -> exists r, kernel_contract kernel pts In N st r) ->
  exists ind,
    Config.isInside kernel self (PyArr pts) In log = Ok ind
    /\ shape ind = [nStruct self; N]
    /\ wf ind
    /\ forall (ii : nat) (st : struct_obj F) (r : ndarray bool),
        lStruct self !! ii = Some st ->
        kernel pts (Poly st) (Lim st) (nLim st) (Id_Type st) In = Ok r ->
        forall j, j < N ->
          exists b : bool,
            get2 N (data ind) ii j = Some b
            /\ if 1 <? nLim st then
                 (log = "any" ->
                  (b = true <-> exists l, l < nLim st /\ get2 N (data r) l j = Some true))
                 /\ (log = "all" ->
                     (b = true <-> forall l, l < nLim st -> get2 N (data r) l j = Some true))
               else data r !! j = Some b.
Proof.
  intros Hpts Hk Hlog Hn Hkernel.
  set (n := nStruct self) in *.
  assert (Hrun : Config.isInside kernel self (PyArr pts) In log
                 = Ok (mk_ndarray [n; N]
                         (mjoin (kept_row kernel pts In log (lStruct self) <$> seq 0 n)))).
  { unfold Config.isInside. cbn [hasattr_iter asarray_float andb].
    unfold ndim, shape1. rewrite Hpts. cbn [length nth Nat.eqb].
    rewrite (bool_decide_eq_true_2 (2 ∈ [1; 2])) by (apply elem_of_pair; auto).
    assert (str_in log ["any"; "all"] = true) as ->
      by (destruct Hlog as [-> | ->]; reflexivity).
    rewrite (bool_decide_eq_true_2 (k ∈ [2; 3])) by (apply elem_of_pair; exact Hk).
    cbn [py_assert mbind result_bind mret result_ret]. fold n.
    unfold zeros_bool, shape1. rewrite Hpts. cbn [foldr nth].
    replace (n * (N * 1)) with (n * N) by lia.
    change (replicate (n * N) false) with ([] ++ replicate (n * N) false)%list.
    rewrite (isInside_loop_run kernel pts In log (lStruct self) N Hkernel n n 0 [])
      by (simpl; lia).
    reflexivity. }
  eexists. split; [exact Hrun|]. split; [reflexivity|].
  assert (Hlen : length (mjoin (kept_row kernel pts In log (lStruct self) <$> seq 0 n))
                 = n * N).
  { apply length_join_rows. intros i Hi.
    apply (kept_row_length kernel pts In log (lStruct self) N Hkernel). lia. }
  split.
  { unfold wf. cbn [data]. rewrite Hlen. unfold size. simpl. lia. }
  intros ii st r Hst Hr j Hj. cbn [data].
  assert (Hii : ii < n) by (apply lookup_lt_Some in Hst; lia).
  rewrite (lookup_rows _ n N)
    by (try (intros; apply (kept_row_length kernel pts In log (lStruct self) N Hkernel));
        lia).
  unfold kept_row. rewrite Hst, Hr.
  destruct (Hkernel st (list_elem_of_lookup_2 _ _ _ Hst)) as (r' & Hr' & Hwf & Hs).
  rewrite Hr in Hr'. injection Hr' as <-.
  unfold collapse. destruct (1 <? nLim st) eqn:E.
  - apply Nat.ltb_lt in E.
    assert ((nLim st <=? 1) = false) as Hle by (apply Nat.leb_gt; exact E).
    rewrite Hle in Hs. unfold wf in Hwf. rewrite (size_shape2 r _ _ Hs) in Hwf.
    destruct Hlog as [-> | ->]; cbn [String.eqb Ascii.eqb Bool.eqb andb];
      unfold any_axis0, all_axis0, reduce_axis0; rewrite Hs; cbn [data];
      rewrite list_lookup_fmap, lookup_seq_lt by exact Hj; cbn [fmap option_fmap option_map];
      eexists; (split; [reflexivity|]); split; intros Hl; try discriminate.
    + apply existsb_column; assumption.
    + apply forallb_column; assumption.
  - apply Nat.ltb_ge in E.
    assert ((nLim st <=? 1) = true) as Hle by (apply Nat.leb_le; exact E).
    rewrite Hle in Hs. unfold wf in Hwf. rewrite (size_shape1 r _ Hs) in Hwf.
    destruct (lookup_lt_is_Some_2 (data r) j ltac:(lia)) as [b Hb].
    exists b. split; exact Hb.
Qed.

Lemma C9_witness :
  exists ind,
    Config.isInside Example.inside_kernel Example.conf2 (PyArr Example.pts2)
      "(R,Z)" "all" = Ok ind
    /\ shape ind = [2; 2]
    /\ get2 2 (data ind) 0 1 = Some true
    /\ get2 2 (data ind) 1 1 = Some false.
Proof.
  destruct (C9_isInside_collapse Example.inside_kernel Example.conf2 Example.pts2
              2 2 "(R,Z)" "all" eq_refl (or_introl eq_refl) (or_intror eq_refl) eq_refl)
    as (ind & Hrun & Hshape & _ & _).
  - intros st Hst. eexists. unfold kernel_contract.
    split; [reflexivity|].
    apply elem_of_pair in Hst as [-> | ->]; split; reflexivity.
  - exists ind. split; [exact Hrun|]. split; [exact Hshape|].
    assert (Hind : Ok ind = Ok (mk_ndarray [2; 2] [true; true; false; false]))
      by (rewrite <- Hrun; vm_compute; reflexivity).
    injection Hind as ->. split; reflexivity.
Defined.

(** ** Rays : origins, pinhole and the layout of D and u *)

Section OriginFacts.
Context {F : Type} `{Numeric F}.

Lemma updated_Some (d0 : gmap string (pyobj F)) (k : string) (x : pyobj F) :
  d0 !! k = Some x -> Rays.updated d0 !! k = Some x.
Proof. intros Hk. unfold Rays.updated, Rays.dict_update. apply lookup_union_Some_l, Hk. Qed.

Lemma updated_None (d0 : gmap string (pyobj F)) (k : string) :
  d0 !! k = None ->
  Rays.updated d0 !! k = Rays.dict_fromkeys Rays._get_keys_dgeom !! k.
Proof. intros Hk. unfold Rays.updated, Rays.dict_update. apply lookup_union_r, Hk. Qed.

Lemma checkformat_Du_rejects (a : ndarray F) (name : string) :
  shape a <> [3] -> (forall N, shape a <> [3; N] /\ shape a <> [N; 3]) ->
  Rays._checkformat_Du (PyArr a) name
  = Raise (AssertionError (Some (Rays.Du_msg name))).
Proof.
  intros H1 H2. unfold Rays._checkformat_Du. cbn [asarray_float]. cbn zeta.
  unfold ndim, size, in_shape.
  destruct (shape a) as [|n [|m [|k l]]] eqn:Hs.
  - reflexivity.
  - cbn [length foldr].
    rewrite (bool_decide_eq_true_2 (1 ∈ [1; 2])) by (apply elem_of_pair; auto).
    cbn [py_assert mbind result_bind Nat.eqb].
    destruct (n * 1 =? 3) eqn:Hn; [|reflexivity].
    apply Nat.eqb_eq in Hn. exfalso. apply H1. f_equal. lia.
  - cbn [length].
    rewrite (bool_decide_eq_true_2 (2 ∈ [1; 2])) by (apply elem_of_pair; auto).
    cbn [py_assert mbind result_bind Nat.eqb].
    rewrite (bool_decide_eq_false_2 (3 ∈ [n; m])); [reflexivity|].
    intros Hin. apply elem_of_pair in Hin as [Hin | Hin]; subst.
    + destruct (H2 m) as [Ha _]. apply Ha. reflexivity.
    + destruct (H2 n) as [_ Hb]. apply Hb. reflexivity.
  - cbn [length].
    rewrite (bool_decide_eq_false_2 (S (S (S (length l))) ∈ [1; 2])); [reflexivity|].
    intros Hin. apply elem_of_pair in Hin as [Hin | Hin]; discriminate.
Qed.

(** X1.  The inner check [_checkformat_Du] of
    [Rays._checkformat_inputs_dgeom] puts what it accepts in the
    (3,N) layout: three coordinates become one column, a (3,N) array
    is kept as it is (a (3,3) array is therefore read as three columns,
    never transposed), an (N,3) array with N different from 3 is
    transposed, entry (i,j) of the result being entry (j,i) of the
    input.  Every other array, and everything that is not an array, is
    rejected with the AssertionError whose message names the
    argument. *)
Theorem X1_checkformat_Du_layout (a : ndarray F) (name : string) :
  (shape a = [3] ->
   Rays._checkformat_Du (PyArr a) name = Ok (mk_ndarray [3; 1] (data a)))
  /\ (forall N, shape a = [3; N] -> Rays._checkformat_Du (PyArr a) name = Ok a)
  /\ (forall N, shape a = [N; 3] -> N <> 3 ->
        exists b, Rays._checkformat_Du (PyArr a) name = Ok b
                  /\ shape b = [3; N]
                  /\ (wf a -> forall i j, i < 3 -> j < N ->
                                get2 N (data b) i j = get2 3 (data a) j i))
  /\ (shape a <> [3] -> (forall N, shape a <> [3; N] /\ shape a <> [N; 3]) ->
      Rays._checkformat_Du (PyArr a) name
      = Raise (AssertionError (Some (Rays.Du_msg name))))
  /\ (forall o : pyobj F, hasattr_iter o = false ->
        Rays._checkformat_Du o name
        = Raise (AssertionError (Some (Rays.Du_msg name)))).
Proof.
  split; [|split; [|split; [|split]]].
  - intros Hs. unfold Rays._checkformat_Du. cbn [asarray_float]. cbn zeta.
    unfold ndim, size, reshape. rewrite Hs. reflexivity.
  - intros N Hs. apply (checkformat_Du_3n a N name Hs).
  - intros N Hs HN. exists (T a). split; [|split].
    + unfold Rays._checkformat_Du. cbn [asarray_float]. cbn zeta.
      unfold ndim, in_shape, shape_ne. rewrite Hs.
      cbn [length lookup list_lookup].
      rewrite (bool_decide_eq_true_2 (2 ∈ [1; 2])) by (apply elem_of_pair; auto).
      cbn [py_assert mbind result_bind Nat.eqb].
      rewrite (bool_decide_eq_true_2 (3 ∈ [N; 3])) by (apply elem_of_pair; auto).
      rewrite (bool_decide_eq_false_2 (Some N = Some 3))
        by (intros Heq; injection Heq; exact HN).
      reflexivity.
    + apply (shape_T a N 3 Hs).
    + intros Hwf i j Hi Hj. apply (T_get2 a N 3 j i Hs Hwf Hj Hi).
  - apply checkformat_Du_rejects.
  - intros o Ho. destruct o; try discriminate Ho; reflexivity.
Qed.

(** X2.  When the dictionary given to [Rays._checkformat_inputs_dgeom]
    has the keys 'D' and 'pinhole', the pinhole branch is taken
    whatever else the dictionary holds: a value under 'u' is neither
    checked nor kept.  The pinhole must be a single point, given as
    three coordinates or as one column; it is stored flat, there are
    as many rays as origins, and the instance is then a pinhole camera.
    A pinhole of several columns is rejected by a bare
    AssertionError. *)
Theorem X2_pinhole_branch (d : gmap string (pyobj F)) (D p : ndarray F) (nD : nat) :
  d !! "D" = Some (PyArr D) -> d !! "pinhole" = Some (PyArr p) ->
  shape D = [3; nD] ->
  (shape p = [3] \/ shape p = [3; 1] ->
   Rays._checkformat_inputs_dgeom (Rays.DgDict d)
   = Ok (<["D" := PyArr D]> (<["pinhole" := PyArr (mk_ndarray [3] (data p))]>
           (<["nRays" := PyInt nD]> ∅)))
   /\ Rays.isPinhole
        (Rays.updated (<["D" := PyArr D]> (<["pinhole" := PyArr (mk_ndarray [3] (data p))]>
                         (<["nRays" := PyInt nD]> ∅)))) = Ok true)
  /\ (forall k, shape p = [3; k] -> k <> 1 ->
        Rays._checkformat_inputs_dgeom (Rays.DgDict d) = Raise (AssertionError None)).
Proof.
  intros HkD Hkp HD.
  assert (Hhead : forall pin,
             Rays._checkformat_Du (PyArr p) "pinhole" = Ok pin ->
             Rays._checkformat_inputs_dgeom (Rays.DgDict d)
             = (py_assert (shape1 pin =? 1) None;;
                mret (<["D" := PyArr D]> (<["pinhole" := PyArr (ravel pin)]>
                        (<["nRays" := PyInt nD]> ∅))))).
  { intros pin Hpin. unfold Rays._checkformat_inputs_dgeom. cbn zeta.
    unfold Rays.has_keys, Rays.dict_get. cbn [forallb].
    rewrite HkD, Hkp.
    rewrite !(bool_decide_eq_true_2 (is_Some (Some _))) by (eexists; reflexivity).
    cbn [andb].
    replace (bool_decide (is_Some (d !! "u")) && true || true || false) with true
      by (destruct (bool_decide (is_Some (d !! "u"))); reflexivity).
    cbn [negb py_assert mbind result_bind from_option].
    rewrite (checkformat_Du_3n D nD _ HD). cbn [mbind result_bind].
    rewrite Hpin. cbn [mbind result_bind].
    replace (shape1 D) with nD by (unfold shape1; rewrite HD; reflexivity).
    reflexivity. }
  split.
  - intros Hp. split.
    + destruct Hp as [Hp | Hp].
      * rewrite (Hhead (mk_ndarray [3; 1] (data p))).
        -- reflexivity.
        -- unfold Rays._checkformat_Du. cbn [asarray_float]. cbn zeta.
           unfold ndim, size, reshape. rewrite Hp. reflexivity.
      * rewrite (Hhead p).
        -- unfold shape1, ravel, size. rewrite Hp. reflexivity.
        -- apply (checkformat_Du_3n p 1 _ Hp).
    + unfold Rays.isPinhole, Rays.getitem.
      rewrite updated_None by (rewrite !lookup_insert_ne by discriminate; apply lookup_empty).
      reflexivity.
  - intros k Hp Hk.
    rewrite (Hhead p (checkformat_Du_3n p k _ Hp)).
    unfold shape1. rewrite Hp. cbn [nth].
    destruct (k =? 1) eqn:Hk1; [apply Nat.eqb_eq in Hk1; contradiction | reflexivity].
Qed.


(** X3.  After construction from origins [D] and directions [u], the
    property [Rays.D] has one column per ray: its shape is
    (3, nRays), and column [i] is the origin of ray [i], which is the
    single origin given when there is only one. *)
Theorem X3_D_one_column_per_ray (D u : ndarray F) (nD nu : nat)
    (dgeom : Rays.dgeom_arg) :
  shape D = [3; nD] -> shape u = [3; nu] -> wf D ->
  Du_arg D u dgeom -> unambiguous nD nu ->
  exists d0 Dp,
    Rays._checkformat_inputs_dgeom dgeom = Ok d0
    /\ Rays.prop_D (Rays.updated d0) = Ok Dp
    /\ shape Dp = [3; Nat.max nD nu]
    /\ forall i, i < Nat.max nD nu ->
                 col Dp i = col D (if nD =? 1 then 0 else i).
Proof.
  intros HD Hu Hwf Harg Hun.
  pose proof (checkformat_Du_pair D u nD nu dgeom HD Hu Harg) as Hck.
  rewrite (proj2 (unambiguous_test nD nu) Hun) in Hck.
  eexists. eexists. split; [exact Hck|].
  unfold Rays.prop_D, Rays.getitem.
  rewrite (updated_Some _ "D" (PyArr D)) by apply lookup_insert_eq.
  rewrite (updated_Some _ "nRays" (PyInt (Nat.max nD nu)))
    by (rewrite !lookup_insert_ne by discriminate; apply lookup_insert_eq).
  cbn [from_option mbind result_bind Rays.as_array Rays.as_int mret result_ret].
  split; [reflexivity|].
  unfold shape1. rewrite HD. cbn [nth].
  destruct (nD <? Nat.max nD nu) eqn:Hlt.
  - apply Nat.ltb_lt in Hlt.
    assert (HnD : nD = 1) by (destruct Hun as [Hq | [[Hq _] | [Hq Hq']]]; lia).
    subst nD.
    split.
    + destruct (col_tile D 3 (Nat.max 1 nu) 0 HD Hwf) as [Hs _]; [lia|].
      rewrite Hs. f_equal. f_equal. lia.
    + intros i Hi. cbn [Nat.eqb].
      destruct (col_tile D 3 (Nat.max 1 nu) i HD Hwf Hi) as [_ Hc]. exact Hc.
  - apply Nat.ltb_ge in Hlt.
    assert (Hmax : Nat.max nD nu = nD) by lia.
    split.
    + rewrite HD, Hmax. reflexivity.
    + intros i Hi. destruct (nD =? 1) eqn:H1; [|reflexivity].
      apply Nat.eqb_eq in H1. f_equal. lia.
Qed.


End OriginFacts.

Lemma X2_witness :
  Rays._checkformat_inputs_dgeom
    (Rays.DgDict (<["D" := PyArr Example.D2]>
                    (<["u" := PyNone]>
                       (<["pinhole" := PyArr (mk_ndarray [3] [2; 0; 0.5]%float)]> ∅))))
  = Ok (<["D" := PyArr Example.D2]>
          (<["pinhole" := PyArr (mk_ndarray [3] [2; 0; 0.5]%float)]>
             (<["nRays" := PyInt 2]> ∅))).
Proof.
  refine (proj1 (proj1 (X2_pinhole_branch (F:=float) _ Example.D2
                          (mk_ndarray [3] [2; 0; 0.5]%float) 2 _ _ _) _)).
  - reflexivity.
  - reflexivity.
  - reflexivity.
  - left. reflexivity.
Defined.

Lemma X3_witness :
  exists d0 Dp,
    Rays._checkformat_inputs_dgeom
      (Rays.DgTuple [PyArr (mk_ndarray [3; 1] [2; 0; 0.5]%float);
                     PyArr (mk_ndarray [3; 2] [-1; 0; 0; 1; 0; 0]%float)]) = Ok d0
    /\ Rays.prop_D (Rays.updated d0) = Ok Dp
    /\ shape Dp = [3; Nat.max 1 2]
    /\ forall i, i < Nat.max 1 2 ->
                 col Dp i = col (mk_ndarray [3; 1] [2; 0; 0.5]%float)
                                (if 1 =? 1 then 0 else i).
Proof.
  refine (X3_D_one_column_per_ray (F:=float)
            (mk_ndarray [3; 1] [2; 0; 0.5]%float)
            (mk_ndarray [3; 2] [-1; 0; 0; 1; 0; 0]%float) 1 2 _ _ _ _ _ _).
  - reflexivity.
  - reflexivity.
  - reflexivity.
  - left. reflexivity.
  - right. left. split; [reflexivity | lia].
Defined.

Lemma X1_witness :
  Rays._checkformat_Du (PyArr (mk_ndarray [3] [2; 0; 0.5]%float)) "D"
  = Ok (mk_ndarray [3; 1] [2; 0; 0.5]%float).
Proof.
  apply (proj1 (X1_checkformat_Du_layout (F:=float) (mk_ndarray [3] [2; 0; 0.5]%float) "D")).
  reflexivity.
Defined.

(** ** Rays : etendues, surfaces, channels and reference point *)

Lemma size_ravel {A} (a : ndarray A) : size (ravel a) = size a.
Proof. unfold size, ravel. cbn [shape foldr]. apply Nat.mul_1_r. Qed.

Section EtendueFacts.
Context {F : Type} `{Numeric F}.

(** X4.  [Rays._checkformat_inputs_dES], the check behind
    [set_Etendues] and [set_Surfaces], wants one value per ray of an
    array: an array of any shape with [nRays] entries is accepted and
    returned flat, any other size raises a bare AssertionError, and on
    an instance whose [_dgeom] has no 'nRays' yet the lookup raises
    KeyError.  [None] and numbers are returned as they are, without
    looking at the number of rays; a boolean is rejected. *)
Theorem X4_dES_one_value_per_ray (d : gmap string (pyobj F)) (a : ndarray F) :
  (forall n, d !! "nRays" = Some (PyInt n) ->
     RaysChecks._checkformat_inputs_dES d (PyArr a)
     = if size a =? n then Ok (PyArr (mk_ndarray [n] (data a)))
       else Raise (AssertionError None))
  /\ (d !! "nRays" = None ->
      RaysChecks._checkformat_inputs_dES d (PyArr a) = Raise (KeyError "nRays"))
  /\ (d !! "nRays" = Some PyNone ->
      RaysChecks._checkformat_inputs_dES d (PyArr a) = Raise (AssertionError None))
  /\ (forall o : pyobj F, o = PyNone \/ is_number o = true ->
        RaysChecks._checkformat_inputs_dES d o = Ok o)
  /\ (forall b, RaysChecks._checkformat_inputs_dES d (PyBool b)
                = Raise (AssertionError None)).
Proof.
  split; [|split; [|split; [|split]]].
  - intros n Hn. unfold RaysChecks._checkformat_inputs_dES, Rays.getitem.
    cbn [is_None negb is_number hasattr_iter orb py_assert mbind result_bind asarray_float].
    rewrite Hn. cbn [from_option mbind result_bind RaysChecks.size_is].
    rewrite size_ravel. destruct (size a =? n) eqn:Hq; [|reflexivity].
    apply Nat.eqb_eq in Hq. unfold ravel. rewrite Hq. reflexivity.
  - intros Hn. unfold RaysChecks._checkformat_inputs_dES, Rays.getitem.
    cbn [is_None negb is_number hasattr_iter orb py_assert mbind result_bind asarray_float].
    rewrite Hn. reflexivity.
  - intros Hn. unfold RaysChecks._checkformat_inputs_dES, Rays.getitem.
    cbn [is_None negb is_number hasattr_iter orb py_assert mbind result_bind asarray_float].
    rewrite Hn. reflexivity.
  - intros o [-> | Ho]; [reflexivity|].
    destruct o; try discriminate Ho; reflexivity.
  - intros b. reflexivity.
Qed.

(** What the check returns when it returns. *)
Lemma dES_Ok (d : gmap string (pyobj F)) (val v : pyobj F) :
  RaysChecks._checkformat_inputs_dES d val = Ok v ->
  v = match val with
      | PyArr a => PyArr (ravel a)
      | o => o
      end.
Proof.
  unfold RaysChecks._checkformat_inputs_dES.
  destruct val as [| b | n | x | a];
    cbn [is_None negb is_number hasattr_iter orb py_assert mbind result_bind asarray_float].
  - intros Hv. injection Hv as <-. reflexivity.
  - discriminate.
  - intros Hv. injection Hv as <-. reflexivity.
  - intros Hv. injection Hv as <-. reflexivity.
  - intros Hv. inv_Ok Hv. injection Hv as <-. reflexivity.
Qed.

(** The checked geometry has the keys 'D', 'nRays' and one of 'u' and
    'pinhole', and no other. *)
Lemma checkformat_dgeom_keys (dgeom : Rays.dgeom_arg) (d0 : gmap string (pyobj F))
    (k : string) :
  Rays._checkformat_inputs_dgeom dgeom = Ok d0 ->
  k <> "D" -> k <> "u" -> k <> "pinhole" -> k <> "nRays" ->
  d0 !! k = None.
Proof.
  intros Hck HD Hu Hp Hn. unfold Rays._checkformat_inputs_dgeom in Hck.
  cbn zeta in Hck. inv_Ok Hck.
  destruct (Rays.has_keys dgeom ["D"; "pinhole"]).
  - inv_Ok Hck. injection Hck as <-.
    rewrite !lookup_insert_ne by congruence. apply lookup_empty.
  - inv_Ok Hck. injection Hck as <-.
    rewrite !lookup_insert_ne by congruence. apply lookup_empty.
Qed.

End EtendueFacts.

Section SetDgeomFacts.
Context {F : Type} `{Numeric F}.
Variable engine :
  ndarray F -> ndarray F -> ndarray F -> ndarray F -> ndarray F -> nat ->
  list (ndarray F) -> list (ndarray F) -> list nat -> list (ndarray F) ->
  string -> result (Rays.PInOut (F:=F)).
Variable extras : Rays.M (F:=F) unit.
Variable set_dsino : pyobj F -> Rays.M (F:=F) unit.

(** [_compute_dgeom] writes under 'kMin', 'kMax', 'vperp' and 'indout'
    only. *)
Lemma compute_dgeom_keeps (s s' : Rays.state (F:=F)) (k : string) :
  Rays._compute_dgeom engine extras false s = (Ok tt, s') ->
  k <> "kMin" -> k <> "kMax" -> k <> "vperp" -> k <> "indout" ->
  Rays._dgeom s' !! k = Rays._dgeom s !! k.
Proof.
  destruct s as [dg cf w]. unfold Rays._compute_dgeom.
  unfold mbind, Rays.M_bind, Rays.get_config, Rays.get_dgeom, Rays.lift.
  cbn [Rays._dgeom Rays._dconfig_config Rays.warned].
  destruct cf as [config|].
  2:{ intros Hrun _ _ _ _. unfold Rays.warn in Hrun. injection Hrun as <-. reflexivity. }
  cbn [Rays._dgeom Rays._dconfig_config Rays.warned].
  destruct (Rays.prop_D dg) as [D|]; [|discriminate].
  destruct (Rays.prop_u dg) as [u|]; [|discriminate].
  destruct (head (PlasmaDomain_values config)) as [S0|]; cbn [from_option]; [|discriminate].
  destruct (get_compute S0); cbn [py_assert]; [|discriminate].
  match goal with |- context [engine ?a ?b ?c ?d ?e ?f ?g ?h ?i ?j ?l] =>
    destruct (engine a b c d e f g h i j l) as [out|] end; [|discriminate].
  match goal with |- context [if any ?x then _ else _] => destruct (any x) end.
  - unfold Rays.warn, Rays.load_global, Rays.lift.
    cbn [Rays._dgeom Rays._dconfig_config Rays.warned].
    discriminate.
  - unfold Rays.update_dgeom, mret, Rays.M_ret.
    cbn [Rays._dgeom Rays._dconfig_config Rays.warned].
    intros Hrun Hk1 Hk2 Hk3 Hk4. injection Hrun as <-.
    cbn [Rays._dgeom]. unfold Rays.dict_update.
    rewrite lookup_union_r; [reflexivity|].
    rewrite !lookup_insert_ne by congruence. apply lookup_empty.
Qed.

(** What [_set_dgeom] comes to, once the geometry is checked and the
    intersections are computed. *)
Lemma set_dgeom_inv (dgeom : Rays.dgeom_arg)
    (Etendues Surfaces sino_RefPt : pyobj F) (extra : bool)
    (s s' : Rays.state (F:=F)) :
  RaysChecks._set_dgeom engine extras set_dsino dgeom Etendues Surfaces sino_RefPt
    extra false s = (Ok tt, s') ->
  exists d0 s2 vE,
    Rays._checkformat_inputs_dgeom dgeom = Ok d0
    /\ Rays._compute_dgeom engine extras extra
         (Rays.mk_state (Rays.dict_update (Rays._dgeom s) d0)
            (Rays._dconfig_config s) (Rays.warned s)) = (Ok tt, s2)
    /\ s' = Rays.mk_state
              (<["Etendues" := match Surfaces with
                               | PyArr a => PyArr (ravel a)
                               | o => o
                               end]> (<["Etendues" := vE]> (Rays._dgeom s2)))
              (Rays._dconfig_config s2) (Rays.warned s2).
Proof.
  intros Hrun. unfold RaysChecks._set_dgeom in Hrun.
  unfold mbind at 1, Rays.M_bind at 1, Rays.lift at 1 in Hrun.
  destruct (Rays._checkformat_inputs_dgeom dgeom) as [d0|] eqn:Hck; [|discriminate].
  unfold mbind at 1, Rays.M_bind at 1, Rays.update_dgeom at 1 in Hrun.
  unfold mbind at 1, Rays.M_bind at 1 in Hrun.
  match type of Hrun with
  | context [Rays._compute_dgeom engine extras extra ?s1] =>
      destruct (Rays._compute_dgeom engine extras extra s1) as [[[]|e] s2] eqn:Hcomp
  end; [|discriminate].
  unfold mbind at 1, Rays.M_bind at 1 in Hrun.
  unfold RaysChecks.set_Etendues at 1 in Hrun.
  unfold mbind at 1, Rays.M_bind at 1, Rays.get_dgeom at 1 in Hrun.
  unfold mbind at 1, Rays.M_bind at 1, Rays.lift at 1 in Hrun.
  destruct (RaysChecks._checkformat_inputs_dES (Rays._dgeom s2) Etendues) as [vE|];
    [|discriminate].
  unfold RaysChecks.setitem_dgeom at 1 in Hrun.
  unfold mbind at 1, Rays.M_bind at 1 in Hrun.
  unfold RaysChecks.set_Etendues at 1 in Hrun.
  unfold mbind at 1, Rays.M_bind at 1, Rays.get_dgeom at 1 in Hrun.
  unfold mbind at 1, Rays.M_bind at 1, Rays.lift at 1 in Hrun.
  cbn [Rays._dgeom Rays._dconfig_config Rays.warned] in Hrun.
  destruct (RaysChecks._checkformat_inputs_dES
              (<["Etendues" := vE]> (Rays._dgeom s2)) Surfaces) as [vS|] eqn:HvS;
    [|discriminate].
  apply dES_Ok in HvS. subst vS.
  unfold RaysChecks.setitem_dgeom, mret, Rays.M_ret in Hrun.
  cbn [Rays._dgeom Rays._dconfig_config Rays.warned] in Hrun.
  injection Hrun as <-.
  exists d0, s2, vE. split; [reflexivity|]. split; [exact Hcomp | reflexivity].
Qed.

(** X5.  [Rays._set_dgeom] hands both [Etendues] and [Surfaces] to
    [set_Etendues].  When it returns (run here without the sinogram),
    [_dgeom['Etendues']] holds what was given as [Surfaces] (flat,
    when it is an array) and not what was given as [Etendues]; and,
    run without the extras, it leaves [_dgeom['Surfaces']] what it was
    before the call: [None] on an instance that [_reset] has just
    prepared. *)
Theorem X5_Surfaces_stored_as_Etendues (dgeom : Rays.dgeom_arg)
    (Etendues Surfaces sino_RefPt : pyobj F) (s s' : Rays.state (F:=F)) :
  (forall extra,
      RaysChecks._set_dgeom engine extras set_dsino dgeom Etendues Surfaces sino_RefPt
        extra false s = (Ok tt, s') ->
      Rays._dgeom s' !! "Etendues"
      = Some (match Surfaces with
              | PyArr a => PyArr (ravel a)
              | o => o
              end))
  /\ (RaysChecks._set_dgeom engine extras set_dsino dgeom Etendues Surfaces sino_RefPt
        false false s = (Ok tt, s') ->
      Rays._dgeom s' !! "Surfaces" = Rays._dgeom s !! "Surfaces"
      /\ (forall s0, s = Rays._reset s0 -> Rays._dgeom s' !! "Surfaces" = Some PyNone)).
Proof.
  split.
  - intros extra Hrun.
    apply set_dgeom_inv in Hrun as (d0 & s2 & vE & _ & _ & ->).
    cbn [Rays._dgeom]. apply lookup_insert_eq.
  - intros Hrun.
    apply set_dgeom_inv in Hrun as (d0 & s2 & vE & Hck & Hcomp & ->).
    pose proof (compute_dgeom_keeps _ _ "Surfaces" Hcomp) as HkS.
    cbn [Rays._dgeom] in HkS.
    assert (HS : (<["Etendues" := match Surfaces with
                                  | PyArr a => PyArr (ravel a)
                                  | o => o
                                  end]> (<["Etendues" := vE]> (Rays._dgeom s2)))
                   !! "Surfaces" = Rays._dgeom s !! "Surfaces").
    { rewrite !lookup_insert_ne by discriminate.
      rewrite HkS by discriminate.
      unfold Rays.dict_update. apply lookup_union_r.
      apply (checkformat_dgeom_keys dgeom d0 "Surfaces" Hck); discriminate. }
    cbn [Rays._dgeom]. split; [exact HS|].
    intros s0 ->. rewrite HS. reflexivity.
Qed.

End SetDgeomFacts.

Lemma X5_witness :
  Rays._dgeom
    (snd (RaysChecks._set_dgeom (Example.kernel [nan; 1.5]%float [3; 4]%float) (mret tt)
            (fun _ => mret tt) (Rays.DgTuple [PyArr Example.D2; PyArr Example.u1])
            (PyArr (mk_ndarray [2] [7; 8]%float)) (PyFloat 0.25%float) PyNone
            false false Example.fresh))
    !! "Etendues"
  = Some (PyFloat 0.25%float).
Proof.
  refine (proj1 (X5_Surfaces_stored_as_Etendues (F:=float)
                   (Example.kernel [nan; 1.5]%float [3; 4]%float) (mret tt)
                   (fun _ => mret tt) (Rays.DgTuple [PyArr Example.D2; PyArr Example.u1])
                   (PyArr (mk_ndarray [2] [7; 8]%float)) (PyFloat 0.25%float) PyNone
                   Example.fresh _) false _).
  vm_compute. reflexivity.
Defined.

Section ChannelFacts.
Context {F : Type} `{Numeric F}.

(** X6.  [Rays._checkformat_inputs_dchans] accepts no channel at all:
    [None] and the empty dict give the empty dict, but with any
    non-empty dict the first turn of the loop loads the name
    [self_dgeom], which is bound nowhere, and the call ends in
    NameError whatever the channels are.  An argument that is neither
    [None] nor a dict raises a bare AssertionError. *)
Theorem X6_dchans_NameError :
  RaysChecks._checkformat_inputs_dchans (F:=F) RaysChecks.DcNone = Ok []
  /\ RaysChecks._checkformat_inputs_dchans (F:=F) (RaysChecks.DcDict []) = Ok []
  /\ (forall (k : string) (v : pyobj F) (d : list (string * pyobj F)),
        RaysChecks._checkformat_inputs_dchans (RaysChecks.DcDict ((k, v) :: d))
        = Raise (NameError "self_dgeom"))
  /\ RaysChecks._checkformat_inputs_dchans (F:=F) RaysChecks.DcOther
     = Raise (AssertionError None).
Proof.
  split; [reflexivity|]. split; [reflexivity|]. split; [|reflexivity].
  intros k v d. reflexivity.
Qed.

(** X7.  The three checks of the reference point of the sinogram
    ([Struct], [Config] and [Rays._checkformat_inputs_dsino]) agree on
    arrays: an array of any shape with exactly two entries is accepted
    by all three and comes back as the flat array of its two entries,
    so that the point [Rays.set_dsino] has checked passes the check of
    [Config.set_dsino] unchanged; an array of another size is rejected
    by all three with the message "RefPt must be of size=2 !".  They
    differ on [None]: [Rays] keeps it, [Config] rejects it, and
    [Struct] checks the barycentre stored under 'BaryS' in its
    place. *)
Theorem X7_RefPt_checks (d : gmap string (pyobj F)) (a : ndarray F) (n : nat) :
  (size a = 2 ->
   RaysChecks._checkformat_inputs_dsino (PyArr a) = Ok (PyArr (mk_ndarray [2] (data a)))
   /\ ConfigChecks._checkformat_inputs_dsino (PyArr a) (PyInt (S n))
      = Ok (mk_ndarray [2] (data a))
   /\ StructProps._checkformat_inputs_dsino d (PyArr a) (PyInt (S n))
      = Ok (mk_ndarray [2] (data a))
   /\ ConfigChecks._checkformat_inputs_dsino (PyArr (mk_ndarray [2] (data a))) (PyInt (S n))
      = Ok (mk_ndarray [2] (data a)))
  /\ (size a <> 2 ->
      RaysChecks._checkformat_inputs_dsino (PyArr a)
      = Raise (AssertionError (Some "RefPt must be of size=2 !"))
      /\ ConfigChecks._checkformat_inputs_dsino (PyArr a) (PyInt (S n))
         = Raise (AssertionError (Some "RefPt must be of size=2 !"))
      /\ StructProps._checkformat_inputs_dsino d (PyArr a) (PyInt (S n))
         = Raise (AssertionError (Some "RefPt must be of size=2 !")))
  /\ RaysChecks._checkformat_inputs_dsino (F:=F) PyNone = Ok PyNone
  /\ ConfigChecks._checkformat_inputs_dsino (F:=F) PyNone (PyInt (S n))
     = Raise (AssertionError None)
  /\ (forall b : pyobj F, d !! "BaryS" = Some b ->
        StructProps._checkformat_inputs_dsino d PyNone (PyInt (S n))
        = (py_assert (size (asarray_float b) =? 2) (Some "RefPt must be of size=2 !");;
           Ok (ravel (asarray_float b)))).
Proof.
  pose proof (size_ravel a) as Hsz.
  split; [|split; [|split; [|split]]].
  - intros Ha.
    unfold RaysChecks._checkformat_inputs_dsino, ConfigChecks._checkformat_inputs_dsino,
      StructProps._checkformat_inputs_dsino.
    cbn [is_None negb hasattr_iter orb is_positive_int Nat.ltb Nat.leb py_assert
           mbind result_bind asarray_float mret result_ret].
    rewrite Hsz, Ha. cbn [Nat.eqb py_assert mbind result_bind].
    unfold ravel. rewrite Ha. cbn [size shape foldr Nat.mul Nat.eqb Nat.add data].
    repeat split; reflexivity.
  - intros Ha.
    unfold RaysChecks._checkformat_inputs_dsino, ConfigChecks._checkformat_inputs_dsino,
      StructProps._checkformat_inputs_dsino.
    cbn [is_None negb hasattr_iter orb is_positive_int Nat.ltb Nat.leb py_assert
           mbind result_bind asarray_float mret result_ret].
    rewrite Hsz. destruct (size a =? 2) eqn:Hq; [apply Nat.eqb_eq in Hq; contradiction|].
    repeat split; reflexivity.
  - reflexivity.
  - reflexivity.
  - intros b Hb. unfold StructProps._checkformat_inputs_dsino, Rays.getitem.
    cbn [is_None negb hasattr_iter orb is_positive_int Nat.ltb Nat.leb py_assert
           mbind result_bind].
    rewrite Hb. cbn [from_option mbind result_bind].
    rewrite size_ravel. reflexivity.
Qed.

End ChannelFacts.

Lemma X4_witness :
  RaysChecks._checkformat_inputs_dES (<["nRays" := PyInt 2]> ∅)
    (PyArr (mk_ndarray [2; 1] [7; 8]%float))
  = Ok (PyArr (mk_ndarray [2] [7; 8]%float)).
Proof.
  apply (proj1 (X4_dES_one_value_per_ray (F:=float) (<["nRays" := PyInt 2]> ∅)
                  (mk_ndarray [2; 1] [7; 8]%float)) 2).
  reflexivity.
Defined.

Lemma X7_witness :
  ConfigChecks._checkformat_inputs_dsino (PyArr (mk_ndarray [2; 1] [2; 0]%float)) (PyInt 1)
  = Ok (mk_ndarray [2] [2; 0]%float).
Proof.
  apply (proj1 (X7_RefPt_checks (F:=float) ∅ (mk_ndarray [2; 1] [2; 0]%float) 0)).
  reflexivity.
Defined.

(** ** Rays.select *)

Lemma bind_always_Raise {A B} (r : result A) (k : A -> result B) :
  (forall a, r = Ok a -> is_Raise (k a)) -> is_Raise (r ≫= k).
Proof.
  intros Hk. destruct r as [a|e].
  - apply Hk. reflexivity.
  - exists e. reflexivity.
Qed.

Lemma nonzero_from_replicate (i n : nat) :
  nonzero_from i (replicate n true) = seq i n.
Proof.
  revert i. induction n as [|n IH]; intros i; [reflexivity|].
  cbn [replicate nonzero_from seq]. rewrite IH. reflexivity.
Qed.

Lemma nonzero_from_elem (l : list bool) (s i : nat) :
  i ∈ nonzero_from s l <-> s <= i /\ l !! (i - s) = Some true.
Proof.
  revert s. induction l as [|b l IH]; intros s.
  - cbn [nonzero_from]. split.
    + intros Hin. inversion Hin.
    + intros [_ Hl]. rewrite lookup_nil in Hl. discriminate.
  - cbn [nonzero_from].
    assert (Hrest : i ∈ nonzero_from (S s) l <-> S s <= i /\ (b :: l) !! (i - s) = Some true).
    { rewrite IH. split.
      - intros [Hle Hl]. split; [exact Hle|].
        replace (i - s) with (S (i - S s)) by lia. exact Hl.
      - intros [Hle Hl]. split; [exact Hle|].
        replace (i - s) with (S (i - S s)) in Hl by lia. exact Hl. }
    destruct b.
    + rewrite elem_of_cons, Hrest. split.
      * intros [-> | [Hle Hl]].
        -- split; [lia|]. rewrite Nat.sub_diag. reflexivity.
        -- split; [lia | exact Hl].
      * intros [Hle Hl]. destruct (decide (i = s)) as [-> | Hne]; [left; reflexivity|].
        right. split; [lia | exact Hl].
    + rewrite Hrest. split.
      * intros [Hle Hl]. split; [lia | exact Hl].
      * intros [Hle Hl]. split; [|exact Hl].
        destruct (decide (i = s)) as [-> | Hne]; [|lia].
        rewrite Nat.sub_diag in Hl. discriminate.
Qed.

Lemma nonzero_from_increasing (l : list bool) (s i j x y : nat) :
  i < j -> nonzero_from s l !! i = Some x -> nonzero_from s l !! j = Some y -> x < y.
Proof.
  revert s i j. induction l as [|b l IH]; intros s i j Hij Hx Hy; cbn [nonzero_from] in *.
  - rewrite lookup_nil in Hx. discriminate.
  - destruct b; [|apply (IH (S s) i j Hij Hx Hy)].
    destruct j as [|j]; [lia|]. cbn [lookup list_lookup] in Hy.
    destruct i as [|i].
    + cbn [lookup list_lookup] in Hx. injection Hx as <-.
      apply list_elem_of_lookup_2, nonzero_from_elem in Hy. lia.
    + cbn [lookup list_lookup] in Hx. apply (IH (S s) i j); [lia | exact Hx | exact Hy].
Qed.

Lemma mjoin_cons {A} (x : list A) (l : list (list A)) :
  mjoin (x :: l) = (x ++ mjoin l)%list.
Proof. reflexivity. Qed.

Lemma existsb_fmap {A B} (f : B -> bool) (g : A -> B) (l : list A) :
  existsb f (g <$> l) = existsb (fun x => f (g x)) l.
Proof. induction l as [|x l IH]; [reflexivity|]. cbn. rewrite IH. reflexivity. Qed.

Lemma forallb_fmap {A B} (f : B -> bool) (g : A -> B) (l : list A) :
  forallb f (g <$> l) = forallb (fun x => f (g x)) l.
Proof. induction l as [|x l IH]; [reflexivity|]. cbn. rewrite IH. reflexivity. Qed.

Section SelectFacts.
Context {F : Type} `{Numeric F}.
Context {V : Type} (eqb : V -> V -> bool).

Lemma arr_eq_length (arr : list V) (v : V) :
  length (RaysSelect.arr_eq eqb arr v) = length arr.
Proof. unfold RaysSelect.arr_eq. apply length_fmap. Qed.

Lemma length_join_arr_eq (arr : list V) (vals : list V) :
  length (mjoin (RaysSelect.arr_eq eqb arr <$> vals)) = length vals * length arr.
Proof.
  induction vals as [|v vals IH]; [reflexivity|].
  rewrite fmap_cons, mjoin_cons, length_app, arr_eq_length, IH. reflexivity.
Qed.

(** Column [j] of the stacked comparisons: entry [j] of the channel
    compared with each value. *)
Lemma column_stacked (arr vals : list V) (j : nat) (x : V) :
  arr !! j = Some x ->
  column (length vals) (length arr) (mjoin (RaysSelect.arr_eq eqb arr <$> vals)) j
  = (fun v => eqb x v) <$> vals.
Proof.
  intros Hx.
  assert (Hj : j < length arr) by (apply lookup_lt_is_Some; eexists; exact Hx).
  apply column_eq_intro.
  - apply length_join_arr_eq.
  - exact Hj.
  - apply length_fmap.
  - induction vals as [|v vals IH]; intros i Hi; [cbn in Hi; lia|].
    rewrite !fmap_cons, mjoin_cons.
    unfold get2. destruct i as [|i].
    + cbn [Nat.mul Nat.add lookup list_lookup].
      rewrite lookup_app_l by (rewrite arr_eq_length; exact Hj).
      unfold RaysSelect.arr_eq. rewrite list_lookup_fmap, Hx. reflexivity.
    + rewrite lookup_app_r by (rewrite arr_eq_length; lia).
      rewrite arr_eq_length.
      replace (S i * length arr + j - length arr) with (i * length arr + j) by lia.
      cbn [lookup list_lookup].
      apply (IH i). cbn in Hi. lia.
Qed.

Lemma vstack_arr_eq (arr : list V) (v : V) (vals : list V) :
  np_vstack (RaysSelect.arr_eq eqb arr <$> (v :: vals))
  = Ok (mk_ndarray [S (length vals); length arr]
          (mjoin (RaysSelect.arr_eq eqb arr <$> (v :: vals)))).
Proof.
  unfold np_vstack. rewrite fmap_cons.
  assert (Hall : forallb (fun r' : list bool =>
                            length r' =? length (RaysSelect.arr_eq eqb arr v))
                   (RaysSelect.arr_eq eqb arr v :: (RaysSelect.arr_eq eqb arr <$> vals))
                 = true).
  { apply forallb_forall. intros r Hr.
    assert (Hr' : In r (RaysSelect.arr_eq eqb arr <$> (v :: vals))) by exact Hr.
    apply list_elem_of_In, list_elem_of_fmap in Hr' as [w [-> _]].
    rewrite !arr_eq_length. apply Nat.eqb_refl. }
  rewrite Hall. cbn [length]. rewrite length_fmap, arr_eq_length. reflexivity.
Qed.

Lemma select_key_run (_dchans : gmap string (list V)) (key : string)
    (arr : list V) (v : V) (vals : list V) (log : string) :
  _dchans !! key = Some arr ->
  RaysSelect.select_key eqb _dchans (RaysSelect.KStr key)
    (RaysSelect.ValSeq (v :: vals)) log
  = Ok (mk_ndarray [length arr] (RaysSelect.matching eqb log (v :: vals) <$> arr)).
Proof.
  intros Hk. unfold RaysSelect.select_key. cbn zeta.
  rewrite Hk. rewrite bool_decide_eq_true_2 by (eexists; reflexivity).
  cbn [orb py_assert mbind result_bind from_option].
  rewrite vstack_arr_eq. cbn [mbind result_bind mret result_ret].
  assert (Hcols : forall (f : list bool -> bool) (g : V -> bool),
             (forall x, f ((fun w => eqb x w) <$> (v :: vals)) = g x) ->
             (fun j => f (column (S (length vals)) (length arr)
                            (mjoin (RaysSelect.arr_eq eqb arr <$> (v :: vals))) j))
               <$> seq 0 (length arr)
             = g <$> arr).
  { intros f g Hfg. apply list_eq. intros j.
    rewrite !list_lookup_fmap.
    destruct (arr !! j) as [x|] eqn:Hx.
    - assert (Hj : j < length arr) by (apply lookup_lt_is_Some; eexists; exact Hx).
      rewrite lookup_seq_lt by exact Hj. cbn [fmap option_fmap option_map Nat.add].
      f_equal. rewrite <- Hfg.
      rewrite <- (column_stacked arr (v :: vals) j x Hx). reflexivity.
    - apply lookup_ge_None in Hx.
      rewrite lookup_seq_ge by exact Hx. reflexivity. }
  unfold RaysSelect.matching, any_axis0, all_axis0, reduce_axis0, np_lnot. cbn [shape data].
  destruct (String.eqb log "any"); [|destruct (String.eqb log "all")].
  - f_equal. f_equal. apply Hcols. intros x.
    exact (existsb_fmap (fun b : bool => b) (fun w => eqb x w) (v :: vals)).
  - f_equal. f_equal. apply Hcols. intros x.
    exact (forallb_fmap (fun b : bool => b) (fun w => eqb x w) (v :: vals)).
  - f_equal. f_equal. rewrite <- list_fmap_compose.
    apply (Hcols (fun l => negb (existsb (fun b => b) l))
                 (fun x => negb (existsb (eqb x) (v :: vals)))).
    intros x. f_equal.
    exact (existsb_fmap (fun b : bool => b) (fun w => eqb x w) (v :: vals)).
Qed.

(** X8.  [Rays.select] with a key of [_dchans] and one value or more
    compares every entry of the channel with the values: entry [j] of
    the boolean answer tells whether the channel entry [j] equals any
    of the values ([log='any']), all of them ([log='all']) or none of
    them ([log='not']), and the answer has the length of the channel
    array (the number of rays is not looked at).  A single value is
    treated as the list holding it. *)
Theorem X8_select_by_key (_dgeom : gmap string (pyobj F))
    (_dchans : gmap string (list V)) (lS : result (list (string * string)))
    (key : string) (arr : list V) (v : V) (vals : list V) (log : string) :
  _dchans !! key = Some arr ->
  log = "any" \/ log = "all" \/ log = "not" ->
  RaysSelect.select eqb _dgeom _dchans lS (RaysSelect.KStr key)
    (RaysSelect.ValSeq (v :: vals)) None log RaysSelect.OutBool
  = Ok (RaysSelect.SelBool
          (mk_ndarray [length arr]
             ((fun x => if String.eqb log "any" then existsb (eqb x) (v :: vals)
                        else if String.eqb log "all" then forallb (eqb x) (v :: vals)
                        else negb (existsb (eqb x) (v :: vals))) <$> arr)))
  /\ RaysSelect.select eqb _dgeom _dchans lS (RaysSelect.KStr key)
       (RaysSelect.ValScalar v) None log RaysSelect.OutBool
     = RaysSelect.select eqb _dgeom _dchans lS (RaysSelect.KStr key)
         (RaysSelect.ValSeq [v]) None log RaysSelect.OutBool.
Proof.
  intros Hk Hlog. split.
  - unfold RaysSelect.select. cbn zeta.
    assert (Hl : str_in log ["any"; "all"; "not"] = true)
      by (destruct Hlog as [-> | [-> | ->]]; reflexivity).
    rewrite Hl.
    cbn [py_assert mbind result_bind np_sum_bool foldr Nat.leb Nat.eqb].
    rewrite (select_key_run _dchans key arr v vals log Hk). reflexivity.
  - reflexivity.
Qed.

(** X9.  Without any criterion ([key] and [touch] both [None])
    [Rays.select] selects every ray, whatever [val] is: [out=bool]
    gives [nRays] times [True], [out=int] the indices 0 to
    [nRays]-1. *)
Theorem X9_select_no_criterion (_dgeom : gmap string (pyobj F))
    (_dchans : gmap string (list V)) (lS : result (list (string * string)))
    (val : RaysSelect.val_arg (V:=V)) (log : string) (n : nat) :
  _dgeom !! "nRays" = Some (PyInt n) ->
  log = "any" \/ log = "all" \/ log = "not" ->
  RaysSelect.select eqb _dgeom _dchans lS RaysSelect.KNone val None log RaysSelect.OutBool
  = Ok (RaysSelect.SelBool (mk_ndarray [n] (replicate n true)))
  /\ RaysSelect.select eqb _dgeom _dchans lS RaysSelect.KNone val None log
       RaysSelect.OutInt
     = Ok (RaysSelect.SelInt (seq 0 n)).
Proof.
  intros Hn Hlog.
  assert (Hl : str_in log ["any"; "all"; "not"] = true)
    by (destruct Hlog as [-> | [-> | ->]]; reflexivity).
  unfold RaysSelect.select, Rays.getitem. cbn zeta. rewrite Hl, Hn.
  split.
  - reflexivity.
  - cbn [py_assert mbind result_bind np_sum_bool foldr Nat.leb Nat.eqb
           from_option Rays.as_int mret result_ret].
    unfold np_nonzero, np_ones_bool. cbn [data].
    rewrite nonzero_from_replicate. reflexivity.
Qed.

(** X10.  The two forms of the answer of [Rays.select] agree: whenever
    the call with [out=bool] returns a boolean array, the same call
    with [out=int] returns the positions of its true entries, each
    once and in increasing order. *)
Theorem X10_select_int_of_bool (_dgeom : gmap string (pyobj F))
    (_dchans : gmap string (list V)) (lS : result (list (string * string)))
    (key : RaysSelect.key_arg) (val : RaysSelect.val_arg (V:=V))
    (touch : option RaysSelect.touch_arg) (log : string) (b : ndarray bool) :
  RaysSelect.select eqb _dgeom _dchans lS key val touch log RaysSelect.OutBool
  = Ok (RaysSelect.SelBool b) ->
  exists l,
    RaysSelect.select eqb _dgeom _dchans lS key val touch log RaysSelect.OutInt
    = Ok (RaysSelect.SelInt l)
    /\ (forall i, i ∈ l <-> data b !! i = Some true)
    /\ (forall i j x y, i < j -> l !! i = Some x -> l !! j = Some y -> x < y).
Proof.
  intros Hb. exists (np_nonzero b).
  split; [|split].
  - unfold RaysSelect.select in *. cbn zeta in *.
    cbn [py_assert mbind result_bind] in *.
    destruct (py_assert (str_in log ["any"; "all"; "not"]) None) as [[]|];
      [|discriminate].
    cbn [mbind result_bind] in *.
    match type of Hb with
    | (py_assert ?c None ≫= _) = _ => destruct (py_assert c None) as [[]|]
    end; [|discriminate].
    cbn [mbind result_bind] in *.
    match type of Hb with
    | (?r ≫= _) = _ => destruct r as [ind|]
    end; [|discriminate].
    cbn [mbind result_bind mret result_ret] in *.
    injection Hb as <-. reflexivity.
  - intros i. unfold np_nonzero. rewrite nonzero_from_elem.
    rewrite Nat.sub_0_r. split; [intros [_ Hi]; exact Hi | intros Hi; split; [lia | exact Hi]].
  - intros i j x y. apply nonzero_from_increasing.
Qed.

(** X11.  What [Rays.select] refuses in the branch of the key: an
    empty list of values is not caught by the assertions and ends in
    the ValueError of [np.vstack]; a key that is not in [_dchans], a
    key that is not a [str], a [val] of another type (the default
    [None] among them) and a list with an entry of another type each
    raise a bare AssertionError, and so does giving both a key and a
    [touch]. *)
Theorem X11_select_refusals (_dgeom : gmap string (pyobj F))
    (_dchans : gmap string (list V)) (lS : result (list (string * string)))
    (key : string) (arr : list V) (log : string) (out : RaysSelect.out_arg) :
  log = "any" \/ log = "all" \/ log = "not" ->
  out <> RaysSelect.OutOther ->
  (_dchans !! key = Some arr ->
   RaysSelect.select eqb _dgeom _dchans lS (RaysSelect.KStr key)
     (RaysSelect.ValSeq []) None log out = Raise ValueError
   /\ RaysSelect.select eqb _dgeom _dchans lS (RaysSelect.KStr key)
        RaysSelect.ValOther None log out = Raise (AssertionError None)
   /\ RaysSelect.select eqb _dgeom _dchans lS (RaysSelect.KStr key)
        RaysSelect.ValBadSeq None log out = Raise (AssertionError None))
  /\ (forall val, _dchans !! key = None ->
        RaysSelect.select eqb _dgeom _dchans lS (RaysSelect.KStr key) val None log out
        = Raise (AssertionError None))
  /\ (forall val,
        RaysSelect.select eqb _dgeom _dchans lS RaysSelect.KOther val None log out
        = Raise (AssertionError None))
  /\ (forall k val t,
        k <> RaysSelect.KNone ->
        RaysSelect.select eqb _dgeom _dchans lS k val (Some t) log out
        = Raise (AssertionError None)).
Proof.
  intros Hlog Hout.
  assert (Hl : str_in log ["any"; "all"; "not"] = true)
    by (destruct Hlog as [-> | [-> | ->]]; reflexivity).
  assert (Ho : match out with RaysSelect.OutOther => false | _ => true end = true)
    by (destruct out; [reflexivity | reflexivity | contradiction]).
  split; [|split; [|split]].
  - intros Hk. unfold RaysSelect.select, RaysSelect.select_key. cbn zeta.
    rewrite Hl, Ho, Hk. rewrite bool_decide_eq_true_2 by (eexists; reflexivity).
    repeat split; reflexivity.
  - intros val Hk. unfold RaysSelect.select, RaysSelect.select_key. cbn zeta.
    rewrite Hl, Ho, Hk. rewrite bool_decide_eq_false_2 by (intros [? ?]; discriminate).
    reflexivity.
  - intros val. unfold RaysSelect.select, RaysSelect.select_key. cbn zeta.
    rewrite Hl, Ho. reflexivity.
  - intros k val t Hk. unfold RaysSelect.select. cbn zeta.
    rewrite Hl, Ho. destruct k; [contradiction | reflexivity | reflexivity].
Qed.

Lemma touch_setitem_length (tup : bool) (l l' : list RaysSelect.touch_elem)
    (i : nat) (e : RaysSelect.touch_elem) :
  RaysSelect.touch_setitem tup l i e = Ok l' -> length l' = length l.
Proof.
  unfold RaysSelect.touch_setitem. destruct tup; [discriminate|].
  intros Hl. injection Hl as <-. apply length_insert.
Qed.

Lemma select_touch_raises (lS : result (list (string * string))) (nRays : result nat)
    (t : RaysSelect.touch_arg) (log : string) :
  is_Raise (RaysSelect.select_touch lS nRays t log).
Proof.
  unfold RaysSelect.select_touch. cbn zeta.
  apply bind_always_Raise. intros [] _.
  apply bind_always_Raise. intros [tup l] Hl.
  assert (Hne : 0 < length l).
  { destruct t as [s | n | tup0 l0 |].
    - injection Hl as <- <-. cbn. lia.
    - injection Hl as <- <-. cbn. lia.
    - apply assert_inv_Ok in Hl as [Hc Hl].
      apply andb_true_iff in Hc as [Hc _].
      assert (H0 : 0 < length l0).
      { destruct l0; [discriminate Hc | cbn; lia]. }
      apply bind_inv_Ok in Hl as [l1 [Hl1 Hl]].
      assert (H1 : length l1 = length l0).
      { destruct (RaysSelect.is_lint (l0 !! 1)).
        - apply touch_setitem_length in Hl1. exact Hl1.
        - injection Hl1 as <-. reflexivity. }
      apply bind_inv_Ok in Hl as [l2 [Hl2 Hl]].
      assert (H2 : length l2 = length l1).
      { destruct (length l1 =? 3).
        - apply assert_inv_Ok in Hl2 as [_ Hl2].
          destruct (RaysSelect.is_lint (l1 !! 2)).
          + apply touch_setitem_length in Hl2. exact Hl2.
          + injection Hl2 as <-. reflexivity.
        - injection Hl2 as <-. reflexivity. }
      injection Hl as <- <-. lia.
    - discriminate Hl. }
  apply bind_always_Raise. intros l' Hl'.
  assert (Hne' : 0 < length l').
  { destruct (l !! 0) as [[s | n | ints |]|]; try (injection Hl' as <-; exact Hne).
    apply bind_inv_Ok in Hl' as [lS' [_ Hl']].
    apply bind_inv_Ok in Hl' as [k [_ Hl']].
    apply assert_inv_Ok in Hl' as [_ Hl'].
    apply touch_setitem_length in Hl'. lia. }
  apply bind_always_Raise. intros n _.
  destruct l' as [|e l']; [cbn in Hne'; lia|].
  exists TypeError. reflexivity.
Qed.

(** X12.  The branch of [Rays.select] that selects by the structures
    touched never returns: with [key=None] and any [touch], whatever
    the other arguments and the instance, the call raises.  (When all
    its checks pass, the loop [for n in len(touch[i])] ends it with a
    TypeError.) *)
Theorem X12_select_touch_never_returns (_dgeom : gmap string (pyobj F))
    (_dchans : gmap string (list V)) (lS : result (list (string * string)))
    (val : RaysSelect.val_arg (V:=V)) (t : RaysSelect.touch_arg)
    (log : string) (out : RaysSelect.out_arg) :
  is_Raise (RaysSelect.select eqb _dgeom _dchans lS RaysSelect.KNone val (Some t) log out)
  /\ (forall (n : nat) (lS' : list (string * string)),
        _dgeom !! "nRays" = Some (PyInt n) -> out <> RaysSelect.OutOther ->
        RaysSelect.select eqb _dgeom _dchans (Ok lS') RaysSelect.KNone val
          (Some (RaysSelect.TInt n)) "any" out = Raise TypeError).
Proof.
  split.
  - unfold RaysSelect.select. cbn zeta.
    apply bind_always_Raise. intros [] _.
    apply bind_always_Raise. intros [] _.
    apply bind_always_Raise. intros [] _.
    cbn [np_sum_bool foldr Nat.eqb].
    apply bind_is_Raise. apply select_touch_raises.
  - intros n lS' Hn Hout. unfold RaysSelect.select, RaysSelect.select_touch, Rays.getitem.
    cbn zeta. rewrite Hn.
    destruct out; [reflexivity | reflexivity | contradiction].
Qed.

End SelectFacts.

Lemma X8_witness :
  RaysSelect.select (F:=float) Nat.eqb ∅ (<["Chan" := [3; 5; 3; 7]]> ∅) (Ok [])
    (RaysSelect.KStr "Chan") (RaysSelect.ValSeq [3; 7]) None "not" RaysSelect.OutBool
  = Ok (RaysSelect.SelBool (mk_ndarray [4] [false; true; false; false])).
Proof.
  refine (proj1 (X8_select_by_key (F:=float) Nat.eqb ∅ (<["Chan" := [3; 5; 3; 7]]> ∅) (Ok [])
                   "Chan" [3; 5; 3; 7] 3 [7] "not" _ _)).
  - reflexivity.
  - right. right. reflexivity.
Defined.

Lemma X9_witness :
  RaysSelect.select (F:=float) Nat.eqb (<["nRays" := PyInt 3]> ∅) ∅ (Ok [])
    RaysSelect.KNone (RaysSelect.ValScalar 1) None "any" RaysSelect.OutInt
  = Ok (RaysSelect.SelInt [0; 1; 2]).
Proof.
  refine (proj2 (X9_select_no_criterion (F:=float) Nat.eqb (<["nRays" := PyInt 3]> ∅) ∅ (Ok [])
                   (RaysSelect.ValScalar 1) "any" 3 _ _)).
  - reflexivity.
  - left. reflexivity.
Defined.

Lemma X10_witness :
  exists l,
    RaysSelect.select (F:=float) Nat.eqb ∅ (<["Chan" := [3; 5; 3; 7]]> ∅) (Ok [])
      (RaysSelect.KStr "Chan") (RaysSelect.ValScalar 3) None "any" RaysSelect.OutInt
    = Ok (RaysSelect.SelInt l)
    /\ (forall i, i ∈ l <-> [true; false; true; false] !! i = Some true)
    /\ (forall i j x y, i < j -> l !! i = Some x -> l !! j = Some y -> x < y).
Proof.
  refine (X10_select_int_of_bool (F:=float) Nat.eqb ∅ (<["Chan" := [3; 5; 3; 7]]> ∅) (Ok [])
            (RaysSelect.KStr "Chan") (RaysSelect.ValScalar 3) None "any"
            (mk_ndarray [4] [true; false; true; false]) _).
  reflexivity.
Defined.

Lemma X11_witness :
  RaysSelect.select (F:=float) Nat.eqb ∅ (<["Chan" := [3; 5; 3; 7]]> ∅) (Ok [])
    (RaysSelect.KStr "Chan") (RaysSelect.ValSeq []) None "any" RaysSelect.OutInt
  = Raise ValueError.
Proof.
  refine (proj1 (proj1 (X11_select_refusals (F:=float) Nat.eqb ∅
                          (<["Chan" := [3; 5; 3; 7]]> ∅) (Ok [])
                          "Chan" [3; 5; 3; 7] "any" RaysSelect.OutInt _ _) _)).
  - left. reflexivity.
  - discriminate.
  - reflexivity.
Defined.

Lemma X12_witness :
  RaysSelect.select (F:=float) Nat.eqb (<["nRays" := PyInt 2]> ∅) ∅ (Ok [])
    RaysSelect.KNone RaysSelect.ValOther (Some (RaysSelect.TInt 2)) "any"
    RaysSelect.OutInt
  = Raise TypeError.
Proof.
  refine (proj2 (X12_select_touch_never_returns (F:=float) Nat.eqb
                   (<["nRays" := PyInt 2]> ∅) ∅ (Ok []) RaysSelect.ValOther
                   (RaysSelect.TInt 2) "any" RaysSelect.OutInt) 2 [] _ _).
  - reflexivity.
  - discriminate.
Defined.

(** ** _Rays_check_fromdict *)

Section FromDictFacts.
Import FromDict.

Lemma check_loop_cons (fd : gmap string value) (kk : string) (e : expected)
    (ks : list (string * expected)) :
  check_loop fd ((kk, e) :: ks)
  = match fd !! kk with
    | None => Raise (AssertionError (Some (missing_msg kk)))
    | Some v =>
        match matches v e with
        | Ok true => check_loop fd ks
        | Ok false => Raise (AssertionError (Some (wrong_msg kk v)))
        | Raise x => Raise x
        end
    end.
Proof.
  cbn [check_loop]. destruct (fd !! kk) as [v|].
  - rewrite bool_decide_eq_true_2 by (eexists; reflexivity).
    cbn [py_assert mbind result_bind from_option].
    destruct (matches v e) as [[]|]; reflexivity.
  - rewrite bool_decide_eq_false_2 by (intros [? ?]; discriminate).
    reflexivity.
Qed.

(** X13.  [_Rays_check_fromdict] accepts a dictionary exactly when
    'Id', 'geom' and 'sino' hold dicts, 'dchans' and 'Ves' hold [None]
    or a dict, and 'LStruct' holds [None] or a list (the types [dict]
    and [list] themselves also pass for the last three).  A missing
    key raises the AssertionError that names it.  A present 'Id' that
    is not a dict does not get the message about its type: the test
    [typ in dict] raises TypeError first.  An argument that is not a
    dict raises the AssertionError "Arg from dict must be a dict !". *)
Theorem X13_check_fromdict (fd : gmap string value) :
  (_Rays_check_fromdict (Some fd) = Ok tt <->
   fd !! "Id" = Some VDict /\ fd !! "geom" = Some VDict /\ fd !! "sino" = Some VDict
   /\ (exists v, fd !! "dchans" = Some v /\ (v = VNone \/ v = VDict \/ v = VTypeDict))
   /\ (exists v, fd !! "Ves" = Some v /\ (v = VNone \/ v = VDict \/ v = VTypeDict))
   /\ (exists v, fd !! "LStruct" = Some v /\ (v = VNone \/ v = VList \/ v = VTypeList)))
  /\ (forall v, fd !! "Id" = Some v -> v <> VDict ->
        _Rays_check_fromdict (Some fd) = Raise TypeError)
  /\ (fd !! "Id" = None ->
      _Rays_check_fromdict (Some fd)
      = Raise (AssertionError (Some "Id must be a key of fromdict")))
  /\ (fd !! "Id" = Some VDict -> fd !! "geom" = Some VDict ->
      fd !! "sino" = Some VDict -> fd !! "dchans" = Some VList ->
      _Rays_check_fromdict (Some fd)
      = Raise (AssertionError (Some "Wrong type of fromdict[dchans]: <class 'list'>")))
  /\ _Rays_check_fromdict None
     = Raise (AssertionError (Some "Arg from dict must be a dict !")).
Proof.
  assert (Hrun : _Rays_check_fromdict (Some fd) = check_loop fd k0).
  { unfold _Rays_check_fromdict.
    rewrite bool_decide_eq_true_2 by (eexists; reflexivity). reflexivity. }
  split; [|split; [|split; [|split]]].
  - rewrite Hrun. unfold k0. rewrite !check_loop_cons. cbn [check_loop].
    split.
    + intros Hok.
      destruct (fd !! "Id") as [[]|]; try discriminate Hok. cbn [matches] in Hok.
      destruct (fd !! "geom") as [[]|]; try discriminate Hok. cbn [matches] in Hok.
      destruct (fd !! "sino") as [[]|]; try discriminate Hok. cbn [matches] in Hok.
      split; [reflexivity|]. split; [reflexivity|]. split; [reflexivity|].
      destruct (fd !! "dchans") as [v1|]; [|discriminate Hok].
      split; [exists v1; split; [reflexivity|];
              destruct v1; try discriminate Hok; auto|].
      assert (Hok' : match fd !! "Ves" with
                     | Some v =>
                         match matches v NoneOrDict with
                         | Ok true =>
                             match fd !! "LStruct" with
                             | Some v0 =>
                                 match matches v0 NoneOrList with
                                 | Ok true => mret tt
                                 | Ok false =>
                                     Raise (AssertionError (Some (wrong_msg "LStruct" v0)))
                                 | Raise x => Raise x
                                 end
                             | None => Raise (AssertionError (Some (missing_msg "LStruct")))
                             end
                         | Ok false => Raise (AssertionError (Some (wrong_msg "Ves" v)))
                         | Raise x => Raise x
                         end
                     | None => Raise (AssertionError (Some (missing_msg "Ves")))
                     end = Ok tt)
        by (destruct v1; try discriminate Hok; exact Hok).
      clear Hok.
      destruct (fd !! "Ves") as [v2|]; [|discriminate Hok'].
      split; [exists v2; split; [reflexivity|];
              destruct v2; try discriminate Hok'; auto|].
      assert (Hok : match fd !! "LStruct" with
                    | Some v0 =>
                        match matches v0 NoneOrList with
                        | Ok true => mret tt
                        | Ok false =>
                            Raise (AssertionError (Some (wrong_msg "LStruct" v0)))
                        | Raise x => Raise x
                        end
                    | None => Raise (AssertionError (Some (missing_msg "LStruct")))
                    end = Ok tt)
        by (destruct v2; try discriminate Hok'; exact Hok').
      clear Hok'.
      destruct (fd !! "LStruct") as [v3|]; [|discriminate Hok].
      exists v3. split; [reflexivity|].
      destruct v3; try discriminate Hok; auto.
    + intros (-> & -> & -> & (v1 & -> & H1) & (v2 & -> & H2) & (v3 & -> & H3)).
      destruct H1 as [-> | [-> | ->]]; destruct H2 as [-> | [-> | ->]];
        destruct H3 as [-> | [-> | ->]]; reflexivity.
  - intros v Hv Hne. rewrite Hrun. unfold k0. rewrite check_loop_cons, Hv.
    destruct v; try reflexivity. contradiction.
  - intros Hv. rewrite Hrun. unfold k0. rewrite check_loop_cons, Hv. reflexivity.
  - intros H1 H2 H3 H4. rewrite Hrun. unfold k0.
    rewrite !check_loop_cons, H1, H2, H3, H4. reflexivity.
  - reflexivity.
Qed.

End FromDictFacts.

Lemma X13_witness :
  FromDict._Rays_check_fromdict
    (Some (<["Id" := FromDict.VOther "<class 'str'>"]> ∅)) = Raise TypeError.
Proof.
  refine (proj1 (proj2 (X13_check_fromdict (<["Id" := FromDict.VOther "<class 'str'>"]> ∅)))
            (FromDict.VOther "<class 'str'>") _ _).
  - reflexivity.
  - discriminate.
Defined.

(** ** Struct : the closed polygon *)

Section PolyClosedFacts.
Context {F : Type} `{Numeric F}.

(** X14.  The property [Struct.Poly_closed] closes the stored
    polygon: for a polygon of [N] >= 1 vertices held as an (r,N)
    array, it is the (r,N+1) array whose first [N] columns are the
    vertices and whose last column is the first vertex again. *)
Theorem X14_Poly_closed (Poly : ndarray F) (r N : nat) :
  shape Poly = [r; S N] -> wf Poly ->
  exists P,
    StructProps.Poly_closed Poly = Ok P
    /\ shape P = [r; S N + 1]
    /\ wf P
    /\ (forall j, j <= N -> col P j = col Poly j)
    /\ col P (S N) = col Poly 0.
Proof.
  intros Hs Hwf.
  assert (Hlen : length (data Poly) = r * S N)
    by (unfold wf in Hwf; rewrite Hwf; apply (size_shape2 _ _ _ Hs)).
  set (first := fun i : nat => take (1 - 0) (drop 0 (row (S N) (data Poly) i))).
  set (d1 := mjoin (first <$> seq 0 r)).
  set (rows := fun i : nat => (row (S N) (data Poly) i ++ row 1 d1 i)%list).
  assert (Hfirst : forall i, i < r -> length (first i) = 1).
  { intros i Hi. unfold first. rewrite length_take, length_drop.
    rewrite (row_length r (S N) _ i Hlen Hi). lia. }
  assert (Hd1 : length d1 = r * 1) by (apply length_join_rows; exact Hfirst).
  assert (Hrows : forall i, i < r -> length (rows i) = S N + 1).
  { intros i Hi. unfold rows. rewrite length_app.
    rewrite (row_length r (S N) _ i Hlen Hi), (row_length r 1 _ i Hd1 Hi). reflexivity. }
  assert (HP : StructProps.Poly_closed Poly
               = Ok (mk_ndarray [r; S N + 1] (mjoin (rows <$> seq 0 r)))).
  { unfold StructProps.Poly_closed, np_hstack, np_cols. rewrite Hs.
    cbn [shape data]. rewrite Nat.eqb_refl. reflexivity. }
  assert (HlenP : length (mjoin (rows <$> seq 0 r)) = r * (S N + 1))
    by (apply length_join_rows; exact Hrows).
  exists (mk_ndarray [r; S N + 1] (mjoin (rows <$> seq 0 r))).
  split; [exact HP|]. split; [reflexivity|].
  split; [unfold wf, size; cbn [shape data foldr]; rewrite HlenP; lia|].
  assert (Hentry : forall i j, i < r -> j < S N + 1 ->
             get2 (S N + 1) (mjoin (rows <$> seq 0 r)) i j
             = get2 (S N) (data Poly) i (if j <? S N then j else 0)).
  { intros i j Hi Hj. rewrite (lookup_rows rows r (S N + 1) i j Hrows Hi Hj).
    unfold rows. destruct (j <? S N) eqn:Hlt.
    - apply Nat.ltb_lt in Hlt.
      rewrite lookup_app_l by (rewrite (row_length r (S N) _ i Hlen Hi); exact Hlt).
      apply row_lookup. exact Hlt.
    - apply Nat.ltb_ge in Hlt.
      rewrite lookup_app_r by (rewrite (row_length r (S N) _ i Hlen Hi); exact Hlt).
      rewrite (row_length r (S N) _ i Hlen Hi).
      replace (j - S N) with 0 by lia.
      rewrite row_lookup by lia.
      unfold d1. rewrite (lookup_rows first r 1 i 0 Hfirst Hi) by lia.
      unfold first. rewrite lookup_take_lt by lia. rewrite lookup_drop.
      cbn [Nat.add]. apply row_lookup. lia. }
  assert (Hcol : forall j, j < S N + 1 ->
             column r (S N + 1) (mjoin (rows <$> seq 0 r)) j
             = column r (S N) (data Poly) (if j <? S N then j else 0)).
  { intros j Hj. apply column_eq_intro.
    - exact HlenP.
    - exact Hj.
    - apply column_length; [exact Hlen|]. destruct (j <? S N) eqn:Hlt; [|lia].
      apply Nat.ltb_lt in Hlt. exact Hlt.
    - intros i Hi. rewrite (Hentry i j Hi Hj).
      apply column_lookup; [exact Hlen | exact Hi |].
      destruct (j <? S N) eqn:Hlt; [|lia]. apply Nat.ltb_lt in Hlt. exact Hlt. }
  split.
  - intros j Hj. unfold col. cbn [shape data]. rewrite Hs.
    rewrite Hcol by lia.
    assert (Hlt : (j <? S N) = true) by (apply Nat.ltb_lt; lia).
    rewrite Hlt. reflexivity.
  - unfold col. cbn [shape data]. rewrite Hs.
    rewrite Hcol by lia.
    assert (Hlt : (S N <? S N) = false) by (apply Nat.ltb_ge; lia).
    rewrite Hlt. reflexivity.
Qed.

End PolyClosedFacts.

Lemma X14_witness :
  exists P,
    StructProps.Poly_closed triangle = Ok P
    /\ shape P = [2; 2 + 1 + 1]
    /\ wf P
    /\ (forall j, j <= 2 -> col P j = col triangle j)
    /\ col P 3 = col triangle 0.
Proof.
  refine (X14_Poly_closed (F:=float) triangle 2 2 _ _).
  - reflexivity.
  - reflexivity.
Defined.

(** ** CoilPF : the current and its count *)

Section CoilFacts.
Context {F : Type} `{Numeric F}.

(** X15.  In [CoilPF._dmag] the entry 'nI' counts the currents held
    under 'I'.  It is so after [_reset] ([I] is [None], [nI] is 0),
    and every call of [set_I] that returns leaves it so: [None] gives
    [None] and 0, a number gives the one-entry array holding it and 1,
    an array of any shape gives its entries as a flat array and their
    number; the other keys are not touched.  A boolean is refused with
    the AssertionError "Arg I must be None, a float or an 1D
    np.ndarray !". *)
Theorem X15_nI_counts_I (_dmag : gmap string (pyobj F)) :
  (CoilPF._reset (F:=F) !! "I" = Some PyNone
   /\ CoilPF._reset (F:=F) !! "nI" = Some (PyInt 0))
  /\ (forall (I : pyobj F) (d' : gmap string (pyobj F)),
        CoilPF.set_I _dmag I = Ok d' ->
        ((I = PyNone /\ d' !! "I" = Some PyNone /\ d' !! "nI" = Some (PyInt 0))
         \/ (exists k,
               d' !! "I" = Some (PyArr (mk_ndarray [k] (data (asarray_float I))))
               /\ d' !! "nI" = Some (PyInt k)
               /\ k = size (asarray_float I)))
        /\ forall key, key <> "I" -> key <> "nI" -> d' !! key = _dmag !! key)
  /\ (forall b, CoilPF.set_I _dmag (PyBool b)
                = Raise (AssertionError
                           (Some "Arg I must be None, a float or an 1D np.ndarray !"))).
Proof.
  split; [split; reflexivity|]. split; [|reflexivity].
  intros I d' Hset. unfold CoilPF.set_I in Hset. cbn zeta in Hset.
  destruct I as [| b | n | x | a];
    cbn [is_None is_number is_list_tuple_array orb py_assert mbind result_bind
           mret result_ret asarray_float data] in Hset;
    try discriminate Hset; injection Hset as <-.
  - split.
    + left. split; [reflexivity|]. split.
      * rewrite lookup_insert_ne by discriminate. apply lookup_insert_eq.
      * apply lookup_insert_eq.
    + intros key H1 H2. rewrite !lookup_insert_ne by congruence. reflexivity.
  - split.
    + right. exists 1. split; [|split].
      * rewrite lookup_insert_ne by discriminate. apply lookup_insert_eq.
      * apply lookup_insert_eq.
      * reflexivity.
    + intros key H1 H2. rewrite !lookup_insert_ne by congruence. reflexivity.
  - split.
    + right. exists 1. split; [|split].
      * rewrite lookup_insert_ne by discriminate. apply lookup_insert_eq.
      * apply lookup_insert_eq.
      * reflexivity.
    + intros key H1 H2. rewrite !lookup_insert_ne by congruence. reflexivity.
  - split.
    + right. exists (size a). split; [|split].
      * rewrite lookup_insert_ne by discriminate. apply lookup_insert_eq.
      * rewrite size_ravel. apply lookup_insert_eq.
      * reflexivity.
    + intros key H1 H2. rewrite !lookup_insert_ne by congruence. reflexivity.
Qed.

End CoilFacts.

Lemma X15_witness :
  (<["nI" := PyInt 2]>
     (<["I" := PyArr (mk_ndarray [2] [1.5; 2]%float)]> CoilPF._reset)) !! "active"
  = CoilPF._reset (F:=float) !! "active".
Proof.
  refine (proj2 (proj1 (proj2 (X15_nI_counts_I (F:=float) CoilPF._reset))
                   (PyArr (mk_ndarray [2; 1] [1.5; 2]%float)) _ _) "active" _ _).
  - reflexivity.
  - discriminate.
  - discriminate.
Defined.

(** ** Config.isInside : a single point, and what is refused *)

Section PointFacts.
Context {F : Type} `{Numeric F}.
Variable kernel :
  ndarray F -> ndarray F -> ndarray F -> nat -> string -> string ->
  result (ndarray bool).

(** X16.  [Config.isInside] treats a single point, given as a 1D
    array of 2 or 3 coordinates, as the one-column array of these
    coordinates: the two calls give the same answer (or the same
    exception), for every configuration, every kernel and every [log].
    What it refuses, it refuses in this order.  First an argument that
    is not an array, or an array that is neither 1D nor 2D, with the
    message about [pts], whatever [log] is.  Then a [log] other than
    'any' and 'all', with the message about [log], whatever the size
    of the 1D or 2D array is.  Only then, [log] being valid, a 1D
    array of a size other than 2 and 3, with the message about the
    coordinates of a point, and a 2D array whose first dimension is
    neither 2 nor 3, with an AssertionError that carries the array
    itself in place of a message. *)
Theorem X16_isInside_single_point (self : config F) (pts : ndarray F)
    (In log : string) :
  (forall k, shape pts = [k] -> k = 2 \/ k = 3 ->
     Config.isInside kernel self (PyArr pts) In log
     = Config.isInside kernel self (PyArr (mk_ndarray [k; 1] (data pts))) In log)
  /\ (forall o : pyobj F, hasattr_iter o = false ->
        Config.isInside kernel self o In log
        = Raise (AssertionError (Some "Arg pts must be a 1D or 2D np.ndarray !")))
  /\ (ndim pts <> 1 -> ndim pts <> 2 ->
      Config.isInside kernel self (PyArr pts) In log
      = Raise (AssertionError (Some "Arg pts must be a 1D or 2D np.ndarray !")))
  /\ (ndim pts = 1 \/ ndim pts = 2 -> log <> "any" -> log <> "all" ->
      Config.isInside kernel self (PyArr pts) In log
      = Raise (AssertionError (Some "Arg log must be in ['any','all']")))
  /\ (forall k, shape pts = [k] -> k <> 2 -> k <> 3 ->
        log = "any" \/ log = "all" ->
        Config.isInside kernel self (PyArr pts) In log
        = Raise (AssertionError
                   (Some "Arg pts must contain the coordinates of a point !")))
  /\ (forall k n, shape pts = [k; n] -> k <> 2 -> k <> 3 ->
        log = "any" \/ log = "all" ->
        Config.isInside kernel self (PyArr pts) In log
        = Raise (AssertionError_of pts)).
Proof.
  split; [|split; [|split; [|split; [|split]]]].
  - intros k Hs Hk. unfold Config.isInside.
    cbn [hasattr_iter asarray_float andb]. unfold ndim, size, reshape.
    rewrite Hs. cbn [shape data length foldr nth].
    rewrite (bool_decide_eq_true_2 (1 ∈ [1; 2])) by (apply elem_of_pair; auto).
    rewrite (bool_decide_eq_true_2 (2 ∈ [1; 2])) by (apply elem_of_pair; auto).
    cbn [py_assert mbind result_bind Nat.eqb].
    destruct (str_in log ["any"; "all"]); [|reflexivity].
    cbn [py_assert mbind result_bind].
    replace (k * 1) with k by lia.
    rewrite (bool_decide_eq_true_2 (k ∈ [2; 3])) by (apply elem_of_pair; exact Hk).
    reflexivity.
  - intros o Ho. unfold Config.isInside. rewrite Ho. reflexivity.
  - intros H1 H2. unfold Config.isInside.
    cbn [hasattr_iter asarray_float andb].
    rewrite (bool_decide_eq_false_2 (ndim pts ∈ [1; 2])); [reflexivity|].
    intros Hin. apply elem_of_pair in Hin. destruct Hin; contradiction.
  - intros Hnd H1 H2. unfold Config.isInside.
    cbn [hasattr_iter asarray_float andb].
    rewrite (bool_decide_eq_true_2 (ndim pts ∈ [1; 2])) by (apply elem_of_pair; exact Hnd).
    assert (Hl : str_in log ["any"; "all"] = false).
    { unfold str_in. cbn [existsb].
      destruct (String.eqb_spec log "any"); [contradiction|].
      destruct (String.eqb_spec log "all"); [contradiction|]. reflexivity. }
    rewrite Hl. reflexivity.
  - intros k Hs H2 H3 Hlog. unfold Config.isInside.
    cbn [hasattr_iter asarray_float andb]. unfold ndim, size.
    rewrite Hs. cbn [length foldr].
    rewrite (bool_decide_eq_true_2 (1 ∈ [1; 2])) by (apply elem_of_pair; auto).
    assert (Hl : str_in log ["any"; "all"] = true)
      by (destruct Hlog as [-> | ->]; reflexivity).
    rewrite Hl. cbn [py_assert mbind result_bind Nat.eqb].
    replace (k * 1) with k by lia.
    rewrite (bool_decide_eq_false_2 (k ∈ [2; 3])); [reflexivity|].
    intros Hin. apply elem_of_pair in Hin. destruct Hin; contradiction.
  - intros k n Hs H2 H3 Hlog. unfold Config.isInside.
    cbn [hasattr_iter asarray_float andb]. unfold ndim.
    rewrite Hs. cbn [length nth].
    rewrite (bool_decide_eq_true_2 (2 ∈ [1; 2])) by (apply elem_of_pair; auto).
    assert (Hl : str_in log ["any"; "all"] = true)
      by (destruct Hlog as [-> | ->]; reflexivity).
    rewrite Hl. cbn [py_assert mbind result_bind Nat.eqb].
    rewrite (bool_decide_eq_false_2 (k ∈ [2; 3])); [reflexivity|].
    intros Hin. apply elem_of_pair in Hin. destruct Hin; contradiction.
Qed.

End PointFacts.

Lemma X16_witness :
  Config.isInside Example.inside_kernel Example.conf2
    (PyArr (mk_ndarray [2] [0.25; 0.5]%float)) "(R,Z)" "all"
  = Config.isInside Example.inside_kernel Example.conf2
      (PyArr (mk_ndarray [2; 1] [0.25; 0.5]%float)) "(R,Z)" "all".
Proof.
  refine (proj1 (X16_isInside_single_point (F:=float) Example.inside_kernel Example.conf2
                   (mk_ndarray [2] [0.25; 0.5]%float) "(R,Z)" "all") 2 _ _).
  - reflexivity.
  - left. reflexivity.
Defined.

(** ** Struct : the layout of Lim *)

Section LimFacts.
Context {F : Type} `{Numeric F}.

(** X17.  The [Lim] part of [Struct._checkformat_inputs_dgeom] puts
    what it accepts in rows of two bounds: two numbers become the one
    row holding them, an (N,2) array is kept as it is (a (2,2) array
    is therefore read as two rows, never transposed), a (2,N) array
    with N different from 2 is transposed, row [i] of the result
    holding entries (0,i) and (1,i) of the input; the empty 1D array
    is kept.  A 1D array of another size is refused by a bare
    AssertionError. *)
Theorem X17_Lim_layout (a : ndarray F) :
  (shape a = [2] -> Struct.checkformat_Lim a = Ok (mk_ndarray [1; 2] (data a)))
  /\ (shape a = [0] -> Struct.checkformat_Lim a = Ok a)
  /\ (forall N, shape a = [N; 2] -> Struct.checkformat_Lim a = Ok a)
  /\ (forall N, shape a = [2; N] -> N <> 2 ->
        exists L, Struct.checkformat_Lim a = Ok L
                  /\ shape L = [N; 2]
                  /\ (wf a -> forall i j, i < N -> j < 2 ->
                                get2 2 (data L) i j = get2 N (data a) j i))
  /\ (forall N, shape a = [N] -> N <> 0 -> N <> 2 ->
        Struct.checkformat_Lim a = Raise (AssertionError None)).
Proof.
  split; [|split; [|split; [|split]]].
  - intros Hs. apply checkformat_Lim_Ok. split; [|split].
    + left. unfold ndim, size. rewrite Hs. split; [reflexivity | right; reflexivity].
    + left. rewrite Hs. apply list_elem_of_here.
    + unfold Lim_normal_form, ndim, size, reshape. rewrite Hs. reflexivity.
  - intros Hs. apply checkformat_Lim_Ok. split; [|split].
    + left. unfold ndim, size. rewrite Hs. split; [reflexivity | left; reflexivity].
    + right. rewrite Hs. apply list_elem_of_here.
    + unfold Lim_normal_form, ndim, size. rewrite Hs. reflexivity.
  - intros N Hs. apply checkformat_Lim_Ok. split; [|split].
    + right. unfold ndim. rewrite Hs. reflexivity.
    + left. rewrite Hs. apply elem_of_pair. right. reflexivity.
    + unfold Lim_normal_form, ndim, shape_ne. rewrite Hs.
      cbn [length Nat.eqb lookup list_lookup].
      rewrite (bool_decide_eq_true_2 (Some 2 = Some 2)) by reflexivity. reflexivity.
  - intros N Hs HN. exists (T a). split; [|split].
    + apply checkformat_Lim_Ok. split; [|split].
      * right. unfold ndim. rewrite Hs. reflexivity.
      * left. rewrite Hs. apply elem_of_pair. left. reflexivity.
      * unfold Lim_normal_form, ndim, shape_ne. rewrite Hs.
        cbn [length Nat.eqb lookup list_lookup].
        rewrite (bool_decide_eq_false_2 (Some N = Some 2))
          by (intros Heq; injection Heq; exact HN).
        reflexivity.
    + apply (shape_T a 2 N Hs).
    + intros Hwf i j Hi Hj. apply (T_get2 a 2 N j i Hs Hwf Hj Hi).
  - intros N Hs H0 H2. unfold Struct.checkformat_Lim, ndim, size, in_shape.
    rewrite Hs. cbn [length foldr].
    rewrite (bool_decide_eq_true_2 (1 ∈ [1; 2])) by (apply elem_of_pair; auto).
    replace (N * 1) with N by lia.
    destruct (bool_decide (2 ∈ [N]) || bool_decide (0 ∈ [N])); [|reflexivity].
    cbn [andb py_assert mbind result_bind Nat.eqb].
    rewrite (bool_decide_eq_false_2 (N ∈ [0; 2])); [reflexivity|].
    intros Hin. apply elem_of_pair in Hin. destruct Hin; contradiction.
Qed.

End LimFacts.

Lemma X17_witness :
  Struct.checkformat_Lim (mk_ndarray [2] [0; 1.5]%float)
  = Ok (mk_ndarray [1; 2] [0; 1.5]%float).
Proof.
  apply (proj1 (X17_Lim_layout (F:=float) (mk_ndarray [2] [0; 1.5]%float))).
  reflexivity.
Defined.

(** ** Rays : setting the geometry without a configuration *)

Section NoConfigFacts.
Context {F : Type} `{Numeric F}.
Variable engine :
  ndarray F -> ndarray F -> ndarray F -> ndarray F -> ndarray F -> nat ->
  list (ndarray F) -> list (ndarray F) -> list nat -> list (ndarray F) ->
  string -> result (Rays.PInOut (F:=F)).
Variable extras : Rays.M (F:=F) unit.
Variable sino_tail : config F -> pyobj F -> Rays.M (F:=F) unit.

Lemma dES_scalar (d : gmap string (pyobj F)) (o : pyobj F) :
  o = PyNone \/ is_number o = true ->
  RaysChecks._checkformat_inputs_dES d o = Ok o.
Proof.
  intros [-> | Ho]; [reflexivity|].
  destruct o; try discriminate Ho; reflexivity.
Qed.


End NoConfigFacts.


(** ** Struct._set_dgeom : the array order *)

Section ArrayOrderFacts.
Context {F : Type} `{Numeric F}.
Variable set_Poly :
  ndarray F -> ndarray F -> string -> string -> pyobj F ->
  result (gmap string (pyobj F)).

(** X19.  [Struct._set_dgeom] does not use its argument
    [arrayorder]: whatever is given, valid or not, the call behaves
    the same, and when it returns, the computation of the geometry
    was called with the order 'C' and 'C' is what is stored under
    'arrayorder' (while [mobile] is stored as given).  Given to the
    check itself, an order other than 'C' and 'F' is refused. *)
Theorem X19_arrayorder_not_used (c : cls) (Id_Type : string)
    (Poly Lim mobile Clock : pyobj F) :
  (forall ao ao',
      StructSet._set_dgeom set_Poly c Id_Type Poly Lim mobile Clock ao
      = StructSet._set_dgeom set_Poly c Id_Type Poly Lim mobile Clock ao')
  /\ (forall ao st,
        StructSet._set_dgeom set_Poly c Id_Type Poly Lim mobile Clock ao = Ok st ->
        StructSet.arrayorder st = "C"
        /\ StructSet.mobile st = mobile
        /\ exists P L, set_Poly P L "C" Id_Type Clock = Ok (StructSet.computed st))
  /\ (forall ao, ao <> "C" -> ao <> "F" ->
        is_Raise (checkformat_inputs_dgeom c Poly Lim mobile (Some Id_Type) Clock
                    (Some ao))).
Proof.
  split; [reflexivity|]. split.
  - intros ao st Hset. unfold StructSet._set_dgeom in Hset.
    apply bind_inv_Ok in Hset as [[[[P L] T'] o] [Hck Hset]].
    apply checkformat_Struct in Hck.
    apply Struct_checkformat_Ok in Hck as (_ & _ & _ & _ & _ & _ & Ho).
    cbn [default] in Ho. subst o.
    apply bind_inv_Ok in Hset as [dg [Hdg Hset]].
    injection Hset as <-. cbn [StructSet.arrayorder StructSet.mobile StructSet.computed].
    split; [reflexivity|]. split; [reflexivity|].
    exists P, L. exact Hdg.
  - intros ao HC HF.
    assert (Hin : str_in ao ["C"; "F"] = false).
    { unfold str_in. cbn [existsb].
      destruct (String.eqb_spec ao "C"); [contradiction|].
      destruct (String.eqb_spec ao "F"); [contradiction|]. reflexivity. }
    assert (Hraise : is_Raise (Struct._checkformat_inputs_dgeom Poly Lim mobile
                                 (Some Id_Type) Clock (Some ao))).
    { unfold Struct._checkformat_inputs_dgeom. cbn zeta.
      apply bind_always_Raise. intros [] _.
      apply bind_always_Raise. intros [] _.
      change (default Struct.ddef_arrayorder (Some ao)) with ao.
      rewrite Hin. eexists. reflexivity. }
    destruct c; cbn [checkformat_inputs_dgeom]; try exact Hraise;
      unfold Ves._checkformat_inputs_dgeom; apply bind_is_Raise; exact Hraise.
Qed.

(** X21.  What [isMobile()] answers on a structure that
    [Struct._set_dgeom] has set: [mobile] was then a boolean; on a
    [Ves] or [PlasmaDomain] it was [False], the assertion of
    [Ves.isMobile] holds and the answer is [False]; on a [PFC] the
    answer is [None] whatever the flag, a mobile [PFC] included; on
    the other classes it is the flag. *)
Theorem X21_isMobile_after_set (c : cls) (Id_Type : string)
    (Poly Lim mobile Clock : pyobj F) (ao : string) (st : StructSet.dgeom) :
  StructSet._set_dgeom set_Poly c Id_Type Poly Lim mobile Clock ao = Ok st ->
  (exists b, mobile = PyBool b)
  /\ StructSet.isMobile c st
     = Ok (match c with
           | CVes | CPlasmaDomain => PyBool false
           | CPFC => PyNone
           | CStruct | CCoilPF | CCoilCS => mobile
           end)
  /\ (c = CVes \/ c = CPlasmaDomain -> mobile = PyBool false).
Proof.
  intros Hset. unfold StructSet._set_dgeom in Hset.
  apply bind_inv_Ok in Hset as [[[[P L] T'] o] [Hck Hset]].
  apply bind_inv_Ok in Hset as [dg [Hdg Hset]].
  injection Hset as <-.
  pose proof (checkformat_Struct _ _ _ _ _ _ _ _ Hck) as HckS.
  apply Struct_checkformat_Ok in HckS as ((_ & Hmob & _) & _).
  assert (Hves : c = CVes \/ c = CPlasmaDomain -> mobile = PyBool false).
  { intros Hc.
    assert (HckV : Ves._checkformat_inputs_dgeom Poly Lim mobile (Some Id_Type) Clock None
                   = Ok (P, L, T', o))
      by (destruct Hc as [-> | ->]; exact Hck).
    apply Ves_checkformat_Ok in HckV as (_ & Hfalse & _).
    destruct mobile as [| [] | | |]; try discriminate Hfalse. reflexivity. }
  split; [|split; [|exact Hves]].
  - destruct mobile as [| b | | |]; try discriminate Hmob. exists b. reflexivity.
  - unfold StructSet.isMobile. cbn [StructSet.mobile].
    destruct c; try reflexivity.
    + rewrite (Hves (or_introl eq_refl)). reflexivity.
    + rewrite (Hves (or_intror eq_refl)). reflexivity.
Qed.

End ArrayOrderFacts.

Lemma X19_witness :
  StructSet.arrayorder
    (StructSet.mk_dgeom (F:=float) ∅ "C" (PyBool false)) = "C".
Proof.
  refine (proj1 (proj1 (proj2 (X19_arrayorder_not_used (F:=float)
                                 (fun _ _ _ _ _ => Ok ∅) CPFC "Tor"
                                 (PyArr triangle) PyNone (PyBool false) (PyBool false)))
                   "F" _ _)).
  reflexivity.
Defined.

Lemma X21_witness :
  StructSet.isMobile (F:=float) CPFC (StructSet.mk_dgeom ∅ "C" (PyBool true))
  = Ok PyNone.
Proof.
  refine (proj1 (proj2 (X21_isMobile_after_set (F:=float)
                          (fun _ _ _ _ _ => Ok ∅) CPFC "Tor"
                          (PyArr triangle) PyNone (PyBool true) (PyBool false)
                          "C" _ _))).
  reflexivity.
Defined.

(** ** _poly_utils : the box around an extruded polygon *)

Module Bbox.
Import Reals Lra Exact ExactOrd.
Local Open Scope R_scope.

Lemma foldl_maximum (x : R) (l : list R) :
  exists m, foldl fmaximum (Fin x) (Fin <$> l) = Fin m
            /\ m ∈ x :: l
            /\ forall y, y ∈ x :: l -> y <= m.
Proof.
  revert x. induction l as [|a l IH]; intros x.
  - exists x. split; [reflexivity|]. split; [apply list_elem_of_here|].
    intros y Hy. apply list_elem_of_singleton in Hy. subst y. lra.
  - rewrite fmap_cons. cbn [foldl].
    assert (Hstep : exists x', fmaximum (Fin x) (Fin a) = Fin x'
                               /\ (x' = x \/ x' = a) /\ x <= x' /\ a <= x').
    { cbn [fmaximum exact_ordered le is_nan]. destruct (Rle_dec a x) as [Hle | Hgt].
      - exists x. cbn [orb]. repeat split; [left; reflexivity | lra | exact Hle].
      - exists a. cbn [orb]. repeat split; [right; reflexivity | lra | lra]. }
    destruct Hstep as (x' & -> & Hx' & Hxx' & Hax').
    destruct (IH x') as (m & Hm & Hin & Hub).
    exists m. split; [exact Hm|]. split.
    + apply elem_of_cons in Hin as [-> | Hin].
      * destruct Hx' as [-> | ->].
        -- apply list_elem_of_here.
        -- apply list_elem_of_further, list_elem_of_here.
      * apply list_elem_of_further, list_elem_of_further, Hin.
    + intros y Hy.
      assert (Hm' : x' <= m) by (apply Hub, list_elem_of_here).
      apply elem_of_cons in Hy as [-> | Hy]; [lra|].
      apply elem_of_cons in Hy as [-> | Hy]; [lra|].
      apply Hub, list_elem_of_further, Hy.
Qed.

Lemma foldl_minimum (x : R) (l : list R) :
  exists m, foldl fminimum (Fin x) (Fin <$> l) = Fin m
            /\ m ∈ x :: l
            /\ forall y, y ∈ x :: l -> m <= y.
Proof.
  revert x. induction l as [|a l IH]; intros x.
  - exists x. split; [reflexivity|]. split; [apply list_elem_of_here|].
    intros y Hy. apply list_elem_of_singleton in Hy. subst y. lra.
  - rewrite fmap_cons. cbn [foldl].
    assert (Hstep : exists x', fminimum (Fin x) (Fin a) = Fin x'
                               /\ (x' = x \/ x' = a) /\ x' <= x /\ x' <= a).
    { cbn [fminimum exact_ordered le is_nan]. destruct (Rle_dec x a) as [Hle | Hgt].
      - exists x. cbn [orb]. repeat split; [left; reflexivity | lra | exact Hle].
      - exists a. cbn [orb]. repeat split; [right; reflexivity | lra | lra]. }
    destruct Hstep as (x' & -> & Hx' & Hxx' & Hax').
    destruct (IH x') as (m & Hm & Hin & Hlb).
    exists m. split; [exact Hm|]. split.
    + apply elem_of_cons in Hin as [-> | Hin].
      * destruct Hx' as [-> | ->].
        -- apply list_elem_of_here.
        -- apply list_elem_of_further, list_elem_of_here.
      * apply list_elem_of_further, list_elem_of_further, Hin.
    + intros y Hy.
      assert (Hm' : m <= x') by (apply Hlb, list_elem_of_here).
      apply elem_of_cons in Hy as [-> | Hy]; [lra|].
      apply elem_of_cons in Hy as [-> | Hy]; [lra|].
      apply Hlb, list_elem_of_further, Hy.
Qed.

Lemma np_max_fin (l : list R) :
  l <> [] ->
  exists m, PolyUtils.np_max (Fin <$> l) = Ok (Fin m)
            /\ m ∈ l /\ forall y, y ∈ l -> y <= m.
Proof.
  destruct l as [|x l]; [contradiction|]. intros _.
  destruct (foldl_maximum x l) as (m & Hm & Hin & Hub).
  exists m. rewrite fmap_cons. unfold PolyUtils.np_max. rewrite Hm. auto.
Qed.

Lemma np_min_fin (l : list R) :
  l <> [] ->
  exists m, PolyUtils.np_min (Fin <$> l) = Ok (Fin m)
            /\ m ∈ l /\ forall y, y ∈ l -> m <= y.
Proof.
  destruct l as [|x l]; [contradiction|]. intros _.
  destruct (foldl_minimum x l) as (m & Hm & Hin & Hlb).
  exists m. rewrite fmap_cons. unfold PolyUtils.np_min. rewrite Hm. auto.
Qed.

(** X20.  In exact arithmetic, [get_bbox_poly_extruded] returns a
    box that holds the solid of revolution of the polygon: for a
    polygon of one vertex or more, given as the (2,N) array of the
    radii [Rs] (none negative) and heights [Zs], the box is symmetric
    in x and y with half-width the largest radius, goes from the
    lowest to the highest height, and every vertex (r,z) turned by
    any angle phi about the axis, (r cos phi, r sin phi, z), lies in
    it.  An array whose first dimension is not 2 is refused with the
    message that shows its shape. *)
Theorem X20_bbox_holds_the_torus (Rs Zs : list R) (N : nat) :
  (length Rs = S N -> length Zs = S N -> (forall r, r ∈ Rs -> 0 <= r) ->
   exists xmin ymin zmin xmax ymax zmax : R,
     PolyUtils.get_bbox_poly_extruded (mk_ndarray [2; S N]%nat (Fin <$> (Rs ++ Zs)%list))
     = Ok (Fin xmin, Fin ymin, Fin zmin, Fin xmax, Fin ymax, Fin zmax)
     /\ xmin = - xmax /\ ymin = - ymax /\ xmax = ymax
     /\ ymax ∈ Rs /\ zmin ∈ Zs /\ zmax ∈ Zs
     /\ forall (i : nat) (r z phi : R),
         Rs !! i = Some r -> Zs !! i = Some z ->
         xmin <= r * cos phi <= xmax
         /\ ymin <= r * sin phi <= ymax
         /\ zmin <= z <= zmax)
  /\ (forall (a : ndarray ereal) (d : nat) (rest : list nat),
        shape a = d :: rest -> d <> 2%nat ->
        PolyUtils.get_bbox_poly_extruded a
        = Raise (AssertionError
                   (Some ("Poly should be of dim 2 (expected shape=(2,Npoints), got "
                          +:+ PolyUtils.str_shape (shape a) +:+ ")")))).
Proof.
  split.
  - intros HR HZ Hpos.
    assert (HRne : Rs <> []) by (intros ->; discriminate HR).
    assert (HZne : Zs <> []) by (intros ->; discriminate HZ).
    destruct (np_max_fin Rs HRne) as (ymax & Hymax & Hyin & Hyub).
    destruct (np_min_fin Zs HZne) as (zmin & Hzmin & Hzmin_in & Hzlb).
    destruct (np_max_fin Zs HZne) as (zmax & Hzmax & Hzmax_in & Hzub).
    exists (- ymax + 0), (- ymax + 0), zmin, (ymax + 0), ymax, zmax.
    assert (Hc : foldr Nat.mul 1%nat [S N] = S N) by (cbn [foldr]; apply Nat.mul_1_r).
    assert (Hrow0 : row (S N) (Fin <$> (Rs ++ Zs)%list) 0 = Fin <$> Rs).
    { unfold row. cbn [Nat.mul]. rewrite drop_0, fmap_app.
      rewrite take_app_length' by (rewrite length_fmap; lia). reflexivity. }
    assert (Hrow1 : row (S N) (Fin <$> (Rs ++ Zs)%list) 1 = Fin <$> Zs).
    { unfold row. rewrite fmap_app.
      rewrite drop_app_length' by (rewrite length_fmap; lia).
      apply take_ge. rewrite length_fmap. lia. }
    split.
    + unfold PolyUtils.get_bbox_poly_extruded, PolyUtils.entries_at, ndim.
      cbn [shape data length lookup list_lookup from_option tail Nat.ltb Nat.leb
             Nat.eqb py_assert mbind result_bind].
      rewrite Hc, Hrow0, Hrow1.
      cbn [mbind result_bind]. rewrite Hymax. cbn [mbind result_bind].
      rewrite Hzmin. cbn [mbind result_bind]. rewrite Hzmax. reflexivity.
    + split; [lra|]. split; [lra|]. split; [lra|].
      split; [exact Hyin|]. split; [exact Hzmin_in|]. split; [exact Hzmax_in|].
      intros i r z phi Hr Hz.
      assert (Hrin : r ∈ Rs) by (apply list_elem_of_lookup_2 with i; exact Hr).
      assert (Hzin : z ∈ Zs) by (apply list_elem_of_lookup_2 with i; exact Hz).
      pose proof (Hpos r Hrin) as Hr0.
      pose proof (Hyub r Hrin) as Hrm.
      pose proof (COS_bound phi) as [Hc1 Hc2].
      pose proof (SIN_bound phi) as [Hs1 Hs2].
      assert (Hrc1 : r * cos phi <= r).
      { replace r with (r * 1) at 2 by lra. apply Rmult_le_compat_l; lra. }
      assert (Hrc2 : - r <= r * cos phi).
      { replace (- r) with (r * -1) by lra. apply Rmult_le_compat_l; lra. }
      assert (Hrs1 : r * sin phi <= r).
      { replace r with (r * 1) at 2 by lra. apply Rmult_le_compat_l; lra. }
      assert (Hrs2 : - r <= r * sin phi).
      { replace (- r) with (r * -1) by lra. apply Rmult_le_compat_l; lra. }
      pose proof (Hzlb z Hzin). pose proof (Hzub z Hzin).
      repeat split; lra.
  - intros a d rest Hs Hd. unfold PolyUtils.get_bbox_poly_extruded, PolyUtils.dim_msg.
    rewrite Hs. cbn [lookup list_lookup from_option mbind result_bind].
    destruct (Nat.eqb_spec d 2); [contradiction|]. reflexivity.
Qed.

Lemma X20_witness :
  exists xmin ymin zmin xmax ymax zmax : R,
    PolyUtils.get_bbox_poly_extruded
      (mk_ndarray [2; 2]%nat (Fin <$> ([1; 2] ++ [0; 1])%list))
    = Ok (Fin xmin, Fin ymin, Fin zmin, Fin xmax, Fin ymax, Fin zmax)
    /\ xmin = - xmax /\ ymin = - ymax /\ xmax = ymax
    /\ ymax ∈ [1; 2] /\ zmin ∈ [0; 1] /\ zmax ∈ [0; 1]
    /\ forall (i : nat) (r z phi : R),
        [1; 2] !! i = Some r -> [0; 1] !! i = Some z ->
        xmin <= r * cos phi <= xmax
        /\ ymin <= r * sin phi <= ymax
        /\ zmin <= z <= zmax.
Proof.
  refine (proj1 (X20_bbox_holds_the_torus [1; 2] [0; 1] 1) _ _ _).
  - reflexivity.
  - reflexivity.
  - intros r Hr. apply elem_of_pair in Hr as [-> | ->]; lra.
Defined.

End Bbox.

(** The same function on float64: a triangle, a NaN among the radii,
    which every bound in x and y then inherits, and an array of three
    rows. *)
Lemma bbox_float_examples :
  PolyUtils.get_bbox_poly_extruded triangle
  = Ok (-1, -1, 0, 1, 1, 1)%float
  /\ PolyUtils.get_bbox_poly_extruded (mk_ndarray [2; 2] [1; nan; 0; 2]%float)
     = Ok (nan, nan, 0, nan, nan, 2)%float
  /\ PolyUtils.get_bbox_poly_extruded (mk_ndarray [3; 2] [0; 1; 0; 0; 0; 1]%float)
     = Raise (AssertionError
                (Some "Poly should be of dim 2 (expected shape=(2,Npoints), got (3, 2))")).
Proof. repeat split; vm_compute; reflexivity. Qed.

(** ** Rays : the directions of a constructed camera *)

Section BuiltFacts.
Context {F : Type} `{Numeric F}.

Lemma M_bind_inv {A B} (m : Rays.M (F:=F) A) (f : A -> Rays.M (F:=F) B) s b s' :
  (m ≫= f) s = (Ok b, s') ->
  exists a s1, m s = (Ok a, s1) /\ f a s1 = (Ok b, s').
Proof.
  unfold mbind, Rays.M_bind. destruct (m s) as [[a|e] s1]; [|discriminate].
  intros Hf. exists a, s1. split; [reflexivity | exact Hf].
Qed.

(** *** What a method leaves alone *)

Lemma keeps_bind {A B} ks (m : Rays.M (F:=F) A) (f : A -> Rays.M (F:=F) B) :
  keeps ks m -> (forall a, keeps ks (f a)) -> keeps ks (m ≫= f).
Proof.
  intros Hm Hf s r s' Hrun k Hk. unfold mbind, Rays.M_bind in Hrun.
  destruct (m s) as [[a|e] s1] eqn:Hms.
  - rewrite (Hf a s1 r s' Hrun k Hk). apply (Hm s _ s1 Hms k Hk).
  - injection Hrun as <- <-. apply (Hm s _ s1 Hms k Hk).
Qed.

Lemma keeps_ret {A} ks (a : A) : keeps ks (mret a : Rays.M (F:=F) A).
Proof. intros s r s' Hrun k _. injection Hrun as <- <-. reflexivity. Qed.

Lemma keeps_lift {A} ks (r0 : result A) : keeps ks (Rays.lift (F:=F) r0).
Proof. intros s r s' Hrun k _. injection Hrun as <- <-. reflexivity. Qed.

Lemma keeps_warn ks msg : keeps ks (Rays.warn (F:=F) msg).
Proof. intros s r s' Hrun k _. injection Hrun as <- <-. reflexivity. Qed.

Lemma keeps_get_config ks : keeps ks (Rays.get_config (F:=F)).
Proof. intros s r s' Hrun k _. injection Hrun as <- <-. reflexivity. Qed.

Lemma keeps_get_dgeom ks : keeps ks (Rays.get_dgeom (F:=F)).
Proof. intros s r s' Hrun k _. injection Hrun as <- <-. reflexivity. Qed.

Lemma keeps_load_global ks name : keeps ks (Rays.load_global (F:=F) name).
Proof. apply keeps_lift. Qed.

Lemma keeps_update_dgeom ks (dd : gmap string (pyobj F)) :
  (forall k, k ∈ ks -> dd !! k = None) -> keeps ks (Rays.update_dgeom dd).
Proof.
  intros Hdd s r s' Hrun k Hk. injection Hrun as <- <-.
  cbn [Rays._dgeom]. unfold Rays.dict_update. apply lookup_union_r, Hdd, Hk.
Qed.

Lemma keeps_setitem ks k0 (v : pyobj F) :
  k0 ∉ ks -> keeps ks (RaysChecks.setitem_dgeom k0 v).
Proof.
  intros Hk0 s r s' Hrun k Hk. injection Hrun as <- <-.
  cbn [Rays._dgeom]. apply lookup_insert_ne. intros ->. contradiction.
Qed.

Lemma given_keys_inv k :
  k ∈ given_keys -> k = "D" \/ k = "u" \/ k = "pinhole" \/ k = "nRays".
Proof.
  unfold given_keys. rewrite !elem_of_cons, elem_of_nil. tauto.
Qed.

Section Methods.
Variable engine :
  ndarray F -> ndarray F -> ndarray F -> ndarray F -> ndarray F -> nat ->
  list (ndarray F) -> list (ndarray F) -> list nat -> list (ndarray F) ->
  string -> result (Rays.PInOut (F:=F)).
Variable extras : Rays.M (F:=F) unit.
Variable sino_tail : config F -> pyobj F -> Rays.M (F:=F) unit.
Variable _set_dmisc : Rays.M (F:=F) unit.
Hypothesis Hextras : keeps given_keys extras.
Hypothesis Hsino : forall c r, keeps given_keys (sino_tail c r).
Hypothesis Hmisc : keeps given_keys _set_dmisc.

(** [_compute_dgeom] writes under 'kMin', 'kMax', 'vperp' and
    'indout', and where its helpers do. *)
Lemma keeps_compute_dgeom extra :
  keeps given_keys (Rays._compute_dgeom engine extras extra).
Proof.
  unfold Rays._compute_dgeom.
  apply keeps_bind; [apply keeps_get_config|]. intros [config|]; [|apply keeps_warn].
  apply keeps_bind; [apply keeps_get_dgeom|]. intros d.
  apply keeps_bind; [apply keeps_lift|]. intros D.
  apply keeps_bind; [apply keeps_lift|]. intros u.
  apply keeps_bind; [apply keeps_lift|]. intros S0.
  apply keeps_bind; [apply keeps_lift|]. intros _.
  apply keeps_bind; [apply keeps_lift|]. intros out.
  apply keeps_bind.
  { destruct (any _); [|apply keeps_ret].
    apply keeps_bind; [apply keeps_warn|]. intros _.
    apply keeps_bind; [apply keeps_load_global|]. intros _. apply keeps_ret. }
  intros kMax.
  apply keeps_bind.
  { apply keeps_update_dgeom. intros k Hk.
    apply given_keys_inv in Hk as [-> | [-> | [-> | ->]]]; reflexivity. }
  intros _. destruct extra; [exact Hextras | apply keeps_ret].
Qed.

Lemma keeps_set_Etendues v : keeps given_keys (RaysChecks.set_Etendues (F:=F) v).
Proof.
  unfold RaysChecks.set_Etendues.
  apply keeps_bind; [apply keeps_get_dgeom|]. intros d.
  apply keeps_bind; [apply keeps_lift|]. intros val.
  apply keeps_setitem. intros Hin.
  apply given_keys_inv in Hin as [Hk | [Hk | [Hk | Hk]]]; discriminate Hk.
Qed.

Lemma keeps_set_dsino RefPt :
  keeps given_keys (RaysInit.set_dsino sino_tail RefPt).
Proof.
  unfold RaysInit.set_dsino.
  apply keeps_bind; [apply keeps_lift|]. intros r.
  apply keeps_bind; [apply keeps_get_config|]. intros [c|];
    [apply Hsino | apply keeps_lift].
Qed.

Lemma keeps_set_dchans dchans :
  keeps given_keys (RaysInit.set_dchans (F:=F) dchans).
Proof.
  unfold RaysInit.set_dchans.
  apply keeps_bind; [apply keeps_lift|]. intros _. apply keeps_ret.
Qed.

(** When [_init] returns on a reset instance, the geometry given was
    accepted by the check, and what the check made of it is what the
    instance holds under 'D', 'u', 'pinhole' and 'nRays'. *)
Lemma init_inv dgeom config Etendues Surfaces sino_RefPt dchans
    (s s' : Rays.state (F:=F)) :
  RaysInit._init engine extras sino_tail _set_dmisc dgeom config
    Etendues Surfaces sino_RefPt dchans (Rays._reset s) = (Ok tt, s') ->
  exists d0,
    Rays._checkformat_inputs_dgeom dgeom = Ok d0
    /\ forall k, k ∈ given_keys -> Rays._dgeom s' !! k = Rays.updated d0 !! k.
Proof.
  unfold RaysInit._init. intros Hrun.
  apply M_bind_inv in Hrun as ([] & s0 & Hcfg & Hrun).
  injection Hcfg as <-.
  apply M_bind_inv in Hrun as ([] & s3 & Hset & Hrest).
  unfold RaysInit._set_dgeom, RaysChecks._set_dgeom in Hset.
  apply M_bind_inv in Hset as (d0 & s1 & Hck & Hset).
  unfold Rays.lift in Hck. injection Hck as Hck <-.
  apply M_bind_inv in Hset as ([] & s1 & Hup & Hset).
  injection Hup as <-.
  exists d0. split; [exact Hck|]. intros k Hk.
  assert (Hlate : keeps given_keys
            (RaysInit.set_dchans (F:=F) dchans;; _set_dmisc)).
  { apply keeps_bind; [apply keeps_set_dchans|]. intros _. exact Hmisc. }
  rewrite (Hlate _ _ _ Hrest k Hk).
  assert (Hmid : keeps given_keys
            (Rays._compute_dgeom engine extras true;;
             RaysChecks.set_Etendues Etendues;;
             RaysChecks.set_Etendues Surfaces;;
             RaysInit.set_dsino sino_tail sino_RefPt)).
  { apply keeps_bind; [apply keeps_compute_dgeom|]. intros _.
    apply keeps_bind; [apply keeps_set_Etendues|]. intros _.
    apply keeps_bind; [apply keeps_set_Etendues|]. intros _.
    apply keeps_set_dsino. }
  rewrite (Hmid _ _ _ Hset k Hk). reflexivity.
Qed.

End Methods.

(** The property [u] reads the given geometry only. *)
Lemma prop_u_ext (d d' : gmap string (pyobj F)) :
  (forall k, k ∈ given_keys -> d !! k = d' !! k) ->
  Rays.prop_u d = Rays.prop_u d'.
Proof.
  intros Hk. unfold Rays.prop_u, Rays.isPinhole, Rays.getitem.
  rewrite (Hk "u"), (Hk "pinhole"), (Hk "D"), (Hk "nRays");
    [reflexivity | | | |]; unfold given_keys; rewrite !elem_of_cons; auto.
Qed.

Lemma updated_has (d0 : gmap string (pyobj F)) (k : string) (x : pyobj F) :
  d0 !! k = Some x -> Rays.updated d0 !! k = Some x.
Proof. intros Hk. unfold Rays.updated, Rays.dict_update. apply lookup_union_Some_l, Hk. Qed.

Lemma updated_fresh (d0 : gmap string (pyobj F)) (k : string) :
  d0 !! k = None ->
  Rays.updated d0 !! k = Rays.dict_fromkeys Rays._get_keys_dgeom !! k.
Proof. intros Hk. unfold Rays.updated, Rays.dict_update. apply lookup_union_r, Hk. Qed.

(** The property [u] when the directions were given. *)
Lemma prop_u_of_given (D u : ndarray F) (n : nat) :
  Rays.prop_u (Rays.updated (<["D" := PyArr D]> (<["u" := PyArr u]>
                          (<["nRays" := PyInt n]> ∅))))
  = Ok (if shape1 u <? n then tile u n else u).
Proof.
  unfold Rays.prop_u, Rays.isPinhole, Rays.getitem.
  rewrite (updated_has _ "u" (PyArr u))
    by (rewrite lookup_insert_ne by discriminate; apply lookup_insert_eq).
  rewrite (updated_has _ "nRays" (PyInt n))
    by (rewrite !lookup_insert_ne by discriminate; apply lookup_insert_eq).
  reflexivity.
Qed.

(** The property [u] when a pinhole was given. *)
Lemma prop_u_of_pinhole (D p : ndarray F) (n : nat) :
  Rays.prop_u (Rays.updated (<["D" := PyArr D]> (<["pinhole" := PyArr p]>
                          (<["nRays" := PyInt n]> ∅))))
  = Ok (normalize (colvec_sub p D)).
Proof.
  unfold Rays.prop_u, Rays.isPinhole, Rays.getitem.
  rewrite (updated_fresh _ "u")
    by (rewrite !lookup_insert_ne by discriminate; apply lookup_empty).
  rewrite fromkeys_u.
  rewrite (updated_has _ "pinhole" (PyArr p))
    by (rewrite lookup_insert_ne by discriminate; apply lookup_insert_eq).
  rewrite (updated_has _ "D" (PyArr D)) by apply lookup_insert_eq.
  reflexivity.
Qed.

Lemma checkformat_of_pinhole (D p : ndarray F) (nD : nat) :
  shape D = [3; nD] -> shape p = [3] ->
  Rays._checkformat_inputs_dgeom
    (Rays.DgDict (<["D" := PyArr D]> (<["pinhole" := PyArr p]> ∅)))
  = Ok (<["D" := PyArr D]> (<["pinhole" := PyArr (mk_ndarray [3] (data p))]>
          (<["nRays" := PyInt nD]> ∅))).
Proof.
  intros HD Hp. unfold Rays._checkformat_inputs_dgeom. cbn zeta.
  assert (HkD : (<["D" := PyArr D]> (<["pinhole" := PyArr p]>
                   (∅ : gmap string (pyobj F)))) !! "D" = Some (PyArr D))
    by apply lookup_insert_eq.
  assert (Hkp : (<["D" := PyArr D]> (<["pinhole" := PyArr p]>
                   (∅ : gmap string (pyobj F)))) !! "pinhole" = Some (PyArr p))
    by (rewrite lookup_insert_ne by discriminate; apply lookup_insert_eq).
  assert (Hku : (<["D" := PyArr D]> (<["pinhole" := PyArr p]>
                   (∅ : gmap string (pyobj F)))) !! "u" = None)
    by (rewrite !lookup_insert_ne by discriminate; apply lookup_empty).
  unfold Rays.has_keys, Rays.dict_get. cbn [forallb].
  rewrite HkD, Hkp, Hku.
  rewrite !bool_decide_eq_true_2 by (eexists; reflexivity).
  rewrite bool_decide_eq_false_2 by (intros [? ?]; discriminate).
  cbn [negb andb orb py_assert mbind result_bind from_option].
  rewrite (checkformat_Du_3n D nD _ HD). cbn [mbind result_bind].
  unfold Rays._checkformat_Du. cbn [asarray_float].
  unfold ndim, size, reshape, ravel, shape1, size. rewrite Hp, HD. reflexivity.
Qed.

End BuiltFacts.

Section Claim_Directions.
Context {F : Type} `{Numeric F}.
Variable engine :
  ndarray F -> ndarray F -> ndarray F -> ndarray F -> ndarray F -> nat ->
  list (ndarray F) -> list (ndarray F) -> list nat -> list (ndarray F) ->
  string -> result (Rays.PInOut (F:=F)).
Variable extras : Rays.M (F:=F) unit.
Variable sino_tail : config F -> pyobj F -> Rays.M (F:=F) unit.
Variable _set_dmisc : Rays.M (F:=F) unit.


End Claim_Directions.

(** The helpers of the built example write where those of the source
    do. *)
Lemma Built_extras_keeps a b c d e : keeps given_keys (Built.extras a b c d e).
Proof.
  apply keeps_update_dgeom. intros k Hk.
  apply given_keys_inv in Hk as [-> | [-> | [-> | ->]]]; reflexivity.
Qed.

Lemma Built_sino_tail_keeps c r : keeps given_keys (Built.sino_tail c r).
Proof. apply keeps_ret. Qed.

Lemma Built_set_dmisc_keeps : keeps given_keys Built._set_dmisc.
Proof. apply keeps_ret. Qed.



(** ** Struct : the polygon that is stored *)

Section PolygonModel.
Context {F : Type} `{Numeric F} `{Compare F}.

Lemma length_removelast {A} (l : list A) : length (removelast l) = length l - 1.
Proof.
  rewrite removelast_firstn_len, length_take. lia.
Qed.

(** The points of a well-formed (2,N) array and back. *)
Lemma vertices_shape2 (P : ndarray F) (N : nat) :
  shape P = [2; N] -> wf P ->
  length (Struct.vertices P) = N /\ Struct.of_vertices (Struct.vertices P) = P.
Proof.
  intros Hs Hwf. unfold wf in Hwf. rewrite (size_shape2 P 2 N Hs) in Hwf.
  unfold Struct.vertices, shape1, row. rewrite Hs. cbn [nth].
  rewrite Nat.mul_0_l, Nat.mul_1_l, drop_0.
  rewrite (take_ge (drop N (data P))) by (rewrite length_drop; lia).
  assert (Hl : length (zip (take N (data P)) (drop N (data P))) = N)
    by (rewrite length_zip, length_take, length_drop; lia).
  split; [exact Hl|].
  unfold Struct.of_vertices. rewrite Hl.
  rewrite fst_zip by (rewrite length_take, length_drop; lia).
  rewrite snd_zip by (rewrite length_take, length_drop; lia).
  rewrite take_drop. destruct P as [shp d]. cbn [shape data] in *. subst shp.
  reflexivity.
Qed.

(** The polygon model on a (2,N) array. *)
Lemma set_Poly_run (P : ndarray F) (N : nat) (Clock : bool) :
  shape P = [2; N] ->
  Struct._Struct_set_Poly P Clock
  = if 3 <=? length (removelast (Struct.closed_contour (Struct.vertices P)))
    then Ok (Struct.of_vertices
               (removelast
                  (if Struct.disagrees Clock
                        (Struct.signed_area (Struct.closed_contour (Struct.vertices P)))
                   then reverse (Struct.closed_contour (Struct.vertices P))
                   else Struct.closed_contour (Struct.vertices P))))
    else Raise (AssertionError None).
Proof.
  intros Hs. unfold Struct._Struct_set_Poly, ndim, in_shape. rewrite Hs.
  cbn [length Nat.eqb].
  rewrite (bool_decide_eq_true_2 (2 ∈ [2; N])) by apply list_elem_of_here.
  cbn [andb py_assert mbind result_bind].
  rewrite bind_assert. reflexivity.
Qed.

Lemma closed_contour_open (v0 vl : F * F) (vs : list (F * F)) :
  last (v0 :: vs) = Some vl -> Struct.same_point v0 vl = false ->
  Struct.closed_contour (v0 :: vs) = ((v0 :: vs) ++ [v0])%list.
Proof. intros Hl Hp. unfold Struct.closed_contour. rewrite Hl, Hp. reflexivity. Qed.

Lemma closed_contour_closed (v0 vl : F * F) (vs : list (F * F)) :
  last (v0 :: vs) = Some vl -> Struct.same_point v0 vl = true ->
  Struct.closed_contour (v0 :: vs) = v0 :: vs.
Proof. intros Hl Hp. unfold Struct.closed_contour. rewrite Hl, Hp. reflexivity. Qed.

Lemma closed_contour_length (vs : list (F * F)) :
  length (removelast (Struct.closed_contour vs)) <= length vs.
Proof.
  unfold Struct.closed_contour. destruct vs as [|v0 vs]; [simpl; lia|].
  destruct (last (v0 :: vs)) as [vl|]; [|rewrite length_removelast; lia].
  destruct (Struct.same_point v0 vl).
  - rewrite length_removelast. lia.
  - rewrite removelast_last. lia.
Qed.

Lemma wf_T (a : ndarray F) (r c : nat) : shape a = [r; c] -> wf a -> wf (T a).
Proof.
  intros Hs Hwf. unfold wf in *. rewrite (size_shape2 a r c Hs) in Hwf.
  rewrite (size_shape2 _ c r (shape_T a r c Hs)).
  unfold T. rewrite Hs. cbn [data].
  apply length_join_rows. intros j Hj. apply column_length; assumption.
Qed.

End PolygonModel.

Section Claim_Polygon.
Context {F : Type} `{Numeric F} `{Compare F}.


End Claim_Polygon.


